(** * Year selection, cost aggregation and self-funding classification

    A shallow embedding of the decision logic of the Form 5500 / Schedule A
    tooling: [src/tests/data/self_funded_classifier.py] (boolean field
    parsing, the Schedule-A index builder, the funding classifier and the
    company roll-up) and [src/process_data.py] (the year preference
    resolver, the cost aggregator and the per-company pipeline).

    Modelling conventions.
    - A Python [str] is a [string] whose characters are read as code points
      below 256.
    - A CSV or JSON cell is a [pyval]: Python's [None] or a text value.
    - A row (a [dict] from [csv.DictReader] or a JSON object) is a finite
      map from field names to cells.
    - A function that can raise returns a [result]: [Ok] of its value, or
      [Raise] of the exception.
    - Python's [int] is [Z]; its [float] is binary64, taken from the
      Standard Library's [SpecFloat]. *)

From Stdlib Require Import ZArith Ascii String List Bool Lia SpecFloat.
From stdpp Require Import base decidable option list gmap strings sorting pretty.

Local Open Scope string_scope.
Local Open Scope Z_scope.

(** ** Python text primitives *)

Module Py.

(** [str.isspace] restricted to code points below 256: TAB..CR, FS..US,
    SPACE, NEL (0x85) and NBSP (0xA0). *)
Definition is_space (c : ascii) : bool :=
  let n := N_of_ascii c in
  ((9 <=? n) && (n <=? 13) || (28 <=? n) && (n <=? 32)
   || (n =? 133) || (n =? 160))%N.

Fixpoint lstrip (s : string) : string :=
  match s with
  | EmptyString => EmptyString
  | String c s' => if is_space c then lstrip s' else s
  end.

Fixpoint rstrip (s : string) : string :=
  match s with
  | EmptyString => EmptyString
  | String c s' =>
      match rstrip s' with
      | EmptyString => if is_space c then EmptyString else String c EmptyString
      | r => String c r
      end
  end.

(** [s.strip()] *)
Definition strip (s : string) : string := rstrip (lstrip s).

(** A cell value: [None] or a text. *)
Inductive pyval : Type :=
  | PNone
  | PStr (s : string).

#[global] Instance pyval_eq_dec : EqDecision pyval.
Proof. solve_decision. Defined.

(** [str(v)] *)
Definition str (v : pyval) : string :=
  match v with
  | PNone => "None"
  | PStr s => s
  end.

(** [v or ""] for a cell that was looked up with [dict.get(k)]: both an
    absent key and a falsy value ([None], the empty text) give [""]. *)
Definition or_empty (v : option pyval) : string :=
  match v with
  | Some (PStr s) => s
  | _ => ""
  end.

(** [d.get(k, dflt)] where the default is a text. *)
Definition get_default (d : gmap string pyval) (k dflt : string) : pyval :=
  default (PStr dflt) (d !! k).

(** [s[:4] if len(s) >= 4 else ""] *)
Definition year_prefix (s : string) : string :=
  if (4 <=? String.length s)%nat then substring 0 4 s else "".

(** [s != ""] as a truth test on a text. *)
Definition truthy (s : string) : bool :=
  match s with
  | EmptyString => false
  | _ => true
  end.

(** [c.startswith(p)] *)
Definition startswith (c p : string) : bool := String.prefix p c.

End Py.

(** ** Boolean field parsing *)

Abbreviation row := (gmap string Py.pyval).

Definition TRUTHY : gset string :=
  {[ "1"; "Y"; "y"; "TRUE"; "True"; "true" ]}.

Definition is_true (v : Py.pyval) : bool :=
  bool_decide (Py.strip (Py.str v) ∈ TRUTHY).

(** [is_true(r.get(k, dflt))]: the parse of a field that may be absent. *)
Definition field_is_true (r : row) (k dflt : string) : bool :=
  is_true (Py.get_default r k dflt).

(** ** Schedule-A index builder *)

(** The value stored under an index key: the dict
    [{"health": ..., "stop": ...}]. *)
Record flags : Type := Flags { health : bool; stop : bool }.

#[global] Instance flags_eq_dec : EqDecision flags.
Proof. solve_decision. Defined.

(** Index keys are the tuples [(ein, pn, year)]. *)
Abbreviation key := (string * string * string)%type.
Abbreviation index := (gmap key flags).

(** What the [defaultdict] factory creates on first access. *)
Definition fresh : flags := Flags false false.

(** [idx[k]["health"] = True] on a [defaultdict]. *)
Definition set_health (k : key) (idx : index) : index :=
  let f := default fresh (idx !! k) in
  <[k := Flags true (stop f)]> idx.

(** [idx[k]["stop"] = True] on a [defaultdict]. *)
Definition set_stop (k : key) (idx : index) : index :=
  let f := default fresh (idx !! k) in
  <[k := Flags (health f) true]> idx.

(** The two guarded assignments made under one key. *)
Definition mark (h s : bool) (k : key) (idx : index) : index :=
  let idx := if h then set_health k idx else idx in
  if s then set_stop k idx else idx.

(** The body of the loop over the Schedule A rows. *)
Definition index_row (r : row) (acc : index * index) : index * index :=
  let '(idx_by_begin, idx_by_end) := acc in
  let ein := Py.strip (Py.or_empty (r !! "SCH_A_EIN")) in
  let pn := Py.strip (Py.or_empty (r !! "SCH_A_PLAN_NUM")) in
  let by_ := Py.strip (Py.or_empty (r !! "SCH_A_PLAN_YEAR_BEGIN_DATE")) in
  let ey := Py.strip (Py.or_empty (r !! "SCH_A_PLAN_YEAR_END_DATE")) in
  if negb (Py.truthy ein) || negb (Py.truthy pn) then acc
  else
    let begin_year := Py.year_prefix by_ in
    let end_year := Py.year_prefix ey in
    let h := field_is_true r "WLFR_BNFT_HEALTH_IND" "" in
    let s := field_is_true r "WLFR_BNFT_STOP_LOSS_IND" "" in
    let idx_by_begin :=
      if Py.truthy begin_year then mark h s (ein, pn, begin_year) idx_by_begin
      else idx_by_begin in
    let idx_by_end :=
      if Py.truthy end_year then mark h s (ein, pn, end_year) idx_by_end
      else idx_by_end in
    (idx_by_begin, idx_by_end).

(** [build_schedA_index], on the rows the CSV reader yields, in file order. *)
Definition build_schedA_index (rows : list row) : index * index :=
  fold_left (fun acc r => index_row r acc) rows (∅, ∅).

(** ** Funding classifier *)

Record meta : Type := Meta {
  ein : string;
  plan_number : string;
  plan_year_begin : string;
  plan_year_end : string
}.

(** The returned triple [(label, reasons, meta)]. *)
Record verdict : Type := Verdict {
  label : string;
  reasons : list string;
  vmeta : meta
}.

(** The attachment test of the classifier. *)
Definition any_scha (header_row : row) : bool :=
  field_is_true header_row "SCH_A_ATTACHED_IND" "0"
  || negb (bool_decide
       (Py.strip (Py.str (Py.get_default header_row "NUM_SCH_A_ATTACHED_CNT" "0"))
          ∈ ["" ; "0"])).

(** One guarded index lookup: [flags = idx.get(k)], then the two
    [sa_x = sa_x or flags.get(...)] updates when an entry was found. *)
Definition absorb (idx : index) (k : key) (sa : bool * bool) : bool * bool :=
  match idx !! k with
  | Some f => (fst sa || health f, snd sa || stop f)
  | None => sa
  end.

(** The coverage flags [(sa_h, sa_s)] the classifier resolves. *)
Definition resolve_flags (ein pn year_b year_e : string)
    (sa_begin_idx sa_end_idx : index) : bool * bool :=
  let sa := (false, false) in
  if Py.truthy ein && Py.truthy pn then
    let sa := if Py.truthy year_b then absorb sa_begin_idx (ein, pn, year_b) sa
              else sa in
    if Py.truthy year_e then absorb sa_end_idx (ein, pn, year_e) sa else sa
  else sa.

Definition classify_plan (header_row : row) (sa_begin_idx sa_end_idx : index)
    : verdict :=
  let ein := Py.strip (Py.or_empty (header_row !! "SPONS_DFE_EIN")) in
  let pn := Py.strip (Py.or_empty (header_row !! "SPONS_DFE_PN")) in
  let fby := Py.strip (Py.or_empty (header_row !! "FORM_PLAN_YEAR_BEGIN_DATE")) in
  let fte := Py.strip (Py.or_empty (header_row !! "FORM_TAX_PRD")) in
  let year_b := Py.year_prefix fby in
  let year_e := Py.year_prefix fte in
  let benefit_ins := field_is_true header_row "BENEFIT_INSURANCE_IND" "0" in
  let benefit_ga := field_is_true header_row "BENEFIT_GEN_ASSET_IND" "0" in
  let funding_ins := field_is_true header_row "FUNDING_INSURANCE_IND" "0" in
  let funding_ga := field_is_true header_row "FUNDING_GEN_ASSET_IND" "0" in
  let any_scha := any_scha header_row in
  let '(sa_h, sa_s) := resolve_flags ein pn year_b year_e sa_begin_idx sa_end_idx in
  let m := Meta ein pn fby fte in
  if sa_h then
    Verdict "Insured"
      ("Schedule A shows health/medical coverage"
       :: (if benefit_ins || funding_ins
           then ["Header insurance arrangement flags present"] else []))
      m
  else if sa_s && negb sa_h then
    Verdict "Self-funded w/ stop-loss"
      ("Schedule A shows stop-loss but no medical"
       :: (if benefit_ga || funding_ga
           then ["Header general-assets arrangement present"] else []))
      m
  else if benefit_ga || funding_ga then
    if any_scha then
      Verdict "Likely self-funded (non-medical Schedule A)"
        ["Header indicates general assets funding/benefit";
         "Schedule A attached (non-medical or unknown)"]
        m
    else
      Verdict "Self-funded"
        ["Header indicates general assets funding/benefit"] m
  else if benefit_ins || funding_ins then
    Verdict "Likely insured (needs Sched A verification)"
      ["Header indicates insurance arrangement but no SA health flag found"] m
  else if any_scha then
    Verdict "Indeterminate (needs Sched A detail)"
      ["Schedule A attached but lacks health/stop-loss flags for this plan-year"] m
  else
    Verdict "Likely self-funded (absence of health Schedule A)"
      ["No Sched A and no clear arrangement flags"] m.

(** ** Overall classification roll-up *)

(** One element of the list [plans] collected by [main]. *)
Record plan_entry : Type := PlanEntry {
  plan_name : Py.pyval;
  entry_meta : meta;
  classification : string;
  entry_reasons : list string
}.

(** What the tail of [main] reports for the plans that passed the filter:
    the "NO MEDICAL PLANS FOUND" message, or an overall verdict. *)
Inductive rollup : Type :=
  | NoMedicalPlans
  | Overall (overall : string).

Definition self_funded_like (c : string) : bool :=
  Py.startswith c "Self-funded" || Py.startswith c "Likely self-funded".

Definition insured_like (c : string) : bool :=
  bool_decide (c = "Insured") || Py.startswith c "Likely insured".

(** The [if]/[elif]/[else] over [classes]. *)
Definition overall_of (classes : list string) : string :=
  if existsb self_funded_like classes then "Self-funded (at least one plan)"
  else if forallb insured_like classes then "Insured"
  else "Mixed/Indeterminate".

Definition overall_classification (plans : list plan_entry) : rollup :=
  match plans with
  | [] => NoMedicalPlans
  | _ => Overall (overall_of (map classification plans))
  end.

(** ** Exceptions *)

Inductive exn : Type :=
  | ValueError
  | IndexError
  | OverflowError.

Inductive result (A : Type) : Type :=
  | Ok (a : A)
  | Raise (e : exn).
Arguments Ok {A} a.
Arguments Raise {A} e.

#[global] Instance result_ret : MRet result := fun A a => Ok a.
#[global] Instance result_bind : MBind result := fun A B f m =>
  match m with
  | Ok a => f a
  | Raise e => Raise e
  end.

(** ** Number parsing *)

Module Num.

Definition digit_val (c : ascii) : option Z :=
  let n := N_of_ascii c in
  if ((48 <=? n) && (n <=? 57))%N then Some (Z.of_N n - 48) else None.

Definition is_underscore (c : ascii) : bool := (N_of_ascii c =? 95)%N.

(** The rest of a digit part [digit (["_"] digit)*]: [acc] is the value
    read so far, [n] the number of digits, [us] whether the previous
    character was an underscore. *)
Fixpoint digits_go (acc : Z) (n : nat) (us : bool) (s : string)
    : option (Z * nat) :=
  match s with
  | EmptyString => if us then None else Some (acc, n)
  | String c s' =>
      if is_underscore c then
        if us then None else digits_go acc n true s'
      else
        match digit_val c with
        | Some d => digits_go (10 * acc + d) (S n) false s'
        | None => None
        end
  end.

(** A whole text read as a digit part: its value and its number of digits. *)
Definition digitpart (s : string) : option (Z * nat) :=
  match s with
  | EmptyString => None
  | String c s' =>
      match digit_val c with
      | Some d => digits_go d 1 false s'
      | None => None
      end
  end.

(** An optional leading sign: [true] for ["-"]. *)
Definition split_sign (s : string) : bool * string :=
  match s with
  | String "-" s' => (true, s')
  | String "+" s' => (false, s')
  | _ => (false, s)
  end.

(** The blanks that [int] and [float] drop around a numeral: TAB..CR,
    SPACE, NEL and NBSP (FS..US, which [str.strip] drops, are kept). *)
Definition is_blank (c : ascii) : bool :=
  let n := N_of_ascii c in
  ((9 <=? n) && (n <=? 13) || (n =? 32) || (n =? 133) || (n =? 160))%N.

Fixpoint ltrim (s : string) : string :=
  match s with
  | EmptyString => EmptyString
  | String c s' => if is_blank c then ltrim s' else s
  end.

Fixpoint rtrim (s : string) : string :=
  match s with
  | EmptyString => EmptyString
  | String c s' =>
      match rtrim s' with
      | EmptyString => if is_blank c then EmptyString else String c EmptyString
      | r => String c r
      end
  end.

Definition trim (s : string) : string := rtrim (ltrim s).

(** CPython's default cap on the digits of a decimal numeral read by [int]. *)
Definition max_str_digits : nat := 4300.

(** [int(s)] on a text, base 10. *)
Definition int (s : string) : result Z :=
  let '(neg, body) := split_sign (trim s) in
  match digitpart body with
  | Some (v, n) =>
      if (max_str_digits <? n)%nat then Raise ValueError
      else Ok (if neg then - v else v)
  | None => Raise ValueError
  end.

(** [str(n)] on an integer. *)
Definition str_int (n : Z) : string := pretty n.

End Num.

(** ** Binary64 floating point

    Python's [float] is IEEE 754 binary64; it is modelled by the Standard
    Library's [spec_float] at precision 53 and maximal exponent 1024, with
    round-to-nearest-even. *)

Module Float64.

Abbreviation float := spec_float.

Definition prec : Z := 53.
Definition emax : Z := 1024.

(** [x + y] *)
Definition add (x y : float) : float := SFadd prec emax x y.

(** The binary64 nearest to [(-1)^neg * m * 10^e10], for [0 <= m]. *)
Definition of_decimal (neg : bool) (m e10 : Z) : float :=
  if m =? 0 then S754_zero neg
  else if 0 <=? e10 then
    binary_normalize prec emax (cond_Zopp neg (m * 10 ^ e10)) 0 false
  else
    let '(q, e, l) := SFdiv_core_binary prec emax m 0 (10 ^ (- e10)) 0 in
    binary_round_aux prec emax neg q e l.

(** [float(n)] on an integer. *)
Definition of_int (n : Z) : result float :=
  match binary_normalize prec emax n 0 false with
  | S754_infinity _ => Raise OverflowError
  | f => Ok f
  end.

Fixpoint split_on (p : ascii -> bool) (s : string) : string * option string :=
  match s with
  | EmptyString => (EmptyString, None)
  | String c s' =>
      if p c then (EmptyString, Some s')
      else let '(a, b) := split_on p s' in (String c a, b)
  end.

Definition is_dot (c : ascii) : bool := (N_of_ascii c =? 46)%N.
Definition is_exp (c : ascii) : bool :=
  ((N_of_ascii c =? 101) || (N_of_ascii c =? 69))%N.

Definition lower_char (c : ascii) : ascii :=
  let n := N_of_ascii c in
  if ((65 <=? n) && (n <=? 90))%N then ascii_of_N (n + 32) else c.

Fixpoint lower (s : string) : string :=
  match s with
  | EmptyString => EmptyString
  | String c s' => String (lower_char c) (lower s')
  end.

(** [[digitpart] "." digitpart | digitpart ["."]]: the digits read as one
    integer, and how many of them follow the point. *)
Definition number (s : string) : option (Z * nat) :=
  match split_on is_dot s with
  | (i, None) => '(v, _) ← Num.digitpart i; Some (v, 0%nat)
  | (EmptyString, Some f) => Num.digitpart f
  | (i, Some EmptyString) => '(v, _) ← Num.digitpart i; Some (v, 0%nat)
  | (i, Some f) =>
      '(v, _) ← Num.digitpart i;
      '(w, n) ← Num.digitpart f;
      Some (v * 10 ^ Z.of_nat n + w, n)
  end.

(** [number [("e" | "E") ["+" | "-"] digitpart]]: the digits and the power
    of ten they are scaled by. *)
Definition floatnumber (s : string) : option (Z * Z) :=
  match split_on is_exp s with
  | (m, None) => '(v, n) ← number m; Some (v, - Z.of_nat n)
  | (m, Some x) =>
      '(v, n) ← number m;
      let '(eneg, body) := Num.split_sign x in
      '(e, _) ← Num.digitpart body;
      Some (v, (if eneg then - e else e) - Z.of_nat n)
  end.

(** [float(s)] on a text. *)
Definition of_text (s : string) : result float :=
  let '(neg, body) := Num.split_sign (Num.trim s) in
  let name := lower body in
  if bool_decide (name = "inf") || bool_decide (name = "infinity") then
    Ok (S754_infinity neg)
  else if bool_decide (name = "nan") then Ok S754_nan
  else
    match floatnumber body with
    | Some (m, e10) => Ok (of_decimal neg m e10)
    | None => Raise ValueError
    end.

End Float64.

(** A Python number that is an [int] or a [float]. *)
Inductive pynum : Type :=
  | PInt (n : Z)
  | PFloat (f : Float64.float).

(** [a + b] on numbers. *)
Definition num_add (a b : pynum) : result pynum :=
  match a, b with
  | PInt x, PInt y => Ok (PInt (x + y))
  | PInt x, PFloat g => f ← Float64.of_int x; Ok (PFloat (Float64.add f g))
  | PFloat f, PInt y => g ← Float64.of_int y; Ok (PFloat (Float64.add f g))
  | PFloat f, PFloat g => Ok (PFloat (Float64.add f g))
  end.

(** ** Year preference resolver *)

(** [[int(year) for year in available_years]] *)
Fixpoint parse_years (available_years : list string) : result (list Z) :=
  match available_years with
  | [] => Ok []
  | y :: ys => n ← Num.int y; ns ← parse_years ys; Ok (n :: ns)
  end.

(** The order of [years.sort(reverse=True)]. *)
Definition desc : relation Z := fun a b => b <= a.

#[global] Instance desc_dec : RelDecision desc := fun a b => Z_le_dec b a.

Definition sort_desc (years : list Z) : list Z := merge_sort desc years.

Definition get_preferred_year (available_years : list string)
    : result (option string) :=
  match available_years with
  | [] => Ok None
  | _ =>
      years ← parse_years available_years;
      let years := sort_desc years in
      if bool_decide (2023 ∈ years) then Ok (Some "2023")
      else if bool_decide (2022 ∈ years) then Ok (Some "2022")
      else if (length years =? 1)%nat && bool_decide (2024 ∈ years) then
        Ok (Some "2024")
      else
        match find (fun year => negb (year =? 2024)) years with
        | Some year => Ok (Some (Num.str_int year))
        | None =>
            match years with
            | y0 :: _ => Ok (Some (Num.str_int y0))
            | [] => Raise IndexError
            end
        end
  end.

(** ** Cost aggregator *)

(** A plan record of the Schedule A detail: a JSON object with text cells. *)
Abbreviation plan := (gmap string Py.pyval).

(** [v or dflt] on a cell, [dflt] a text. *)
Definition or_text (v : Py.pyval) (dflt : string) : string :=
  match v with
  | Py.PStr s => if Py.truthy s then s else dflt
  | Py.PNone => dflt
  end.

(** One element of the aggregate's [plans] list. *)
Record plan_detail : Type := PlanDetail {
  benefit_type : Py.pyval;
  carrier_name : Py.pyval;
  premiums : Float64.float;
  brokerage_fees : Float64.float;
  people_covered : Z
}.

Record aggregate : Type := Aggregate {
  total_premiums : pynum;
  total_brokerage_fees : pynum;
  total_people_covered : Z;
  plans : list plan_detail
}.

(** The literal returned when there is nothing to aggregate, which is also
    the state the loop starts from. *)
Definition zero_aggregate : aggregate := Aggregate (PInt 0) (PInt 0) 0 [].

(** The body of the loop over the year's plans. *)
Definition add_plan (acc : aggregate) (p : plan) : result aggregate :=
  premiums ← Float64.of_text (or_text (Py.get_default p "totalCharges" "0") "0");
  brokerage ← Float64.of_text (or_text (Py.get_default p "brokerCommission" "0") "0");
  people ← Num.int (or_text (Py.get_default p "personsCovered" "0") "0");
  tp ← num_add (total_premiums acc) (PFloat premiums);
  tb ← num_add (total_brokerage_fees acc) (PFloat brokerage);
  Ok (Aggregate tp tb (total_people_covered acc + people)
        (plans acc ++ [PlanDetail (Py.get_default p "benefitType" "")
                                  (Py.get_default p "carrierName" "")
                                  premiums brokerage people])).

(** The loop, from a given state of the four accumulators. *)
Fixpoint aggregate_from (acc : aggregate) (year_data : list plan)
    : result aggregate :=
  match year_data with
  | [] => Ok acc
  | p :: rest => acc' ← add_plan acc p; aggregate_from acc' rest
  end.

Definition aggregate_schedule_a_data (schedule_a_details : gmap string (list plan))
    (preferred_year : string) : result aggregate :=
  match schedule_a_details !! preferred_year with
  | None => Ok zero_aggregate
  | Some year_data => aggregate_from zero_aggregate year_data
  end.

(** ** Per-company pipeline *)

(** A Form 5500 record; [active_participants] is a JSON number or absent. *)
Record record5500 : Type := Record5500 { active_participants : option Z }.

Definition get_total_participants (form5500_records : gmap string (list record5500))
    (preferred_year : string) : Z :=
  match form5500_records !! preferred_year with
  | None => 0
  | Some year_records =>
      fold_left (fun total r =>
                   match active_participants r with
                   | Some n => if n =? 0 then total else total + n
                   | None => total
                   end) year_records 0
  end.

(** A company entry of the raw data set; a missing object or list is the
    empty one. *)
Record company : Type := Company {
  companyName : option string;
  scheduleA_details : gmap string (list plan);
  form5500_years : list string;
  form5500_records : gmap string (list record5500)
}.

Record processed : Type := Processed {
  company_name : string;
  data_year : option string;
  has_data : bool;
  p_total_premiums : pynum;
  p_total_brokerage_fees : pynum;
  p_total_people_covered : Z;
  total_participants : Z;
  p_plans : list plan_detail
}.

(** [list(schedule_a_details.keys())]; the resolver does not depend on the
    order of the keys (lemma [get_preferred_year_perm] below). *)
Definition available_years (c : company) : list string :=
  (map_to_list (scheduleA_details c)).*1.

(** The truth value of an optional text: [None] and [""] are false. *)
Definition year_given (preferred_year : option string) : bool :=
  match preferred_year with
  | Some y => Py.truthy y
  | None => false
  end.

(** The year the pipeline settles on: the resolver on the Schedule A
    years, then, when that gave none, on the Form 5500 years. *)
Definition resolve_company_year (c : company) : result (option string) :=
  preferred_year ← get_preferred_year (available_years c);
  if negb (year_given preferred_year) then
    match form5500_years c with
    | [] => Ok preferred_year
    | form5500_years => get_preferred_year form5500_years
    end
  else Ok preferred_year.

Definition process_company_data (c : company) : result processed :=
  preferred_year ← resolve_company_year c;
  let y := default "" preferred_year in
  let present :=
    year_given preferred_year
    && bool_decide (is_Some (scheduleA_details c !! y)) in
  aggregated_data ←
    (if present then aggregate_schedule_a_data (scheduleA_details c) y
     else Ok zero_aggregate);
  let total_participants :=
    if year_given preferred_year
    then get_total_participants (form5500_records c) y else 0 in
  Ok (Processed (default "Unknown Company" (companyName c))
        preferred_year present
        (total_premiums aggregated_data)
        (total_brokerage_fees aggregated_data)
        (total_people_covered aggregated_data)
        total_participants
        (plans aggregated_data)).

(** ** The specification's reading of the classifier

    The definitions of this section follow the specification's wording, to
    be compared with the code above. *)

(** An index lookup; a key without an entry shows no coverage. *)
Definition coverage_at (idx : index) (k : key) : flags :=
  default fresh (idx !! k).

(** The plan-year-begin key and the plan-year-end key of a header row. *)
Definition begin_key (header_row : row) : key :=
  (Py.strip (Py.or_empty (header_row !! "SPONS_DFE_EIN")),
   Py.strip (Py.or_empty (header_row !! "SPONS_DFE_PN")),
   Py.year_prefix (Py.strip (Py.or_empty (header_row !! "FORM_PLAN_YEAR_BEGIN_DATE")))).

Definition end_key (header_row : row) : key :=
  (Py.strip (Py.or_empty (header_row !! "SPONS_DFE_EIN")),
   Py.strip (Py.or_empty (header_row !! "SPONS_DFE_PN")),
   Py.year_prefix (Py.strip (Py.or_empty (header_row !! "FORM_TAX_PRD")))).

(** The coverage flags of a plan: the OR of the two lookups. *)
Definition coverage_flags (header_row : row) (sa_begin_idx sa_end_idx : index)
    : flags :=
  let b := coverage_at sa_begin_idx (begin_key header_row) in
  let e := coverage_at sa_end_idx (end_key header_row) in
  Flags (health b || health e) (stop b || stop e).

Definition general_assets (header_row : row) : bool :=
  field_is_true header_row "BENEFIT_GEN_ASSET_IND" "0"
  || field_is_true header_row "FUNDING_GEN_ASSET_IND" "0".

Definition insurance (header_row : row) : bool :=
  field_is_true header_row "BENEFIT_INSURANCE_IND" "0"
  || field_is_true header_row "FUNDING_INSURANCE_IND" "0".

(** The six rules, top to bottom, first match wins. *)
Definition six_rules (health stop general_assets insurance attachment : bool)
    : string :=
  if health then "Insured"
  else if stop then "Self-funded w/ stop-loss"
  else if general_assets then
    if attachment then "Likely self-funded (non-medical Schedule A)"
    else "Self-funded"
  else if insurance then "Likely insured (needs Sched A verification)"
  else if attachment then "Indeterminate (needs Sched A detail)"
  else "Likely self-funded (absence of health Schedule A)".

(** Every label a rule can give; rule 3 has two. *)
Definition classification_labels : list string :=
  [ "Insured";
    "Self-funded w/ stop-loss";
    "Likely self-funded (non-medical Schedule A)";
    "Self-funded";
    "Likely insured (needs Sched A verification)";
    "Indeterminate (needs Sched A detail)";
    "Likely self-funded (absence of health Schedule A)" ].

(** The keys of a Schedule-A coverage index carry an employer id, a plan
    number and a year prefix, none of them empty. *)
Definition key_ok (k : key) : Prop :=
  k.1.1 ≠ "" ∧ k.1.2 ≠ "" ∧ k.2 ≠ "".

Definition index_wf (idx : index) : Prop :=
  map_Forall (fun k _ => key_ok k) idx.

(** [c] begins with [p]. *)
Definition begins_with (p c : string) : Prop := ∃ t, c = p +:+ t.

(** ** A row-by-row view of the index builder *)

(** What one Schedule A row contributes to the index keyed by the year of
    [date_field]: a key and the row's two flags, or nothing when the row is
    skipped or the date has no year prefix. *)
Definition contribution (date_field : string) (r : row)
    : option (key * (bool * bool)) :=
  let ein := Py.strip (Py.or_empty (r !! "SCH_A_EIN")) in
  let pn := Py.strip (Py.or_empty (r !! "SCH_A_PLAN_NUM")) in
  let year := Py.year_prefix (Py.strip (Py.or_empty (r !! date_field))) in
  if negb (Py.truthy ein) || negb (Py.truthy pn) then None
  else if Py.truthy year then
    Some ((ein, pn, year),
          (field_is_true r "WLFR_BNFT_HEALTH_IND" "",
           field_is_true r "WLFR_BNFT_STOP_LOSS_IND" ""))
  else None.

Definition contribute (date_field : string) (idx : index) (r : row) : index :=
  match contribution date_field r with
  | Some (k, (h, s)) => mark h s k idx
  | None => idx
  end.

(** Whether some row of [rows] contributes, under key [k], the flag that
    [pick] selects. *)
Definition any_row (pick : bool * bool → bool) (date_field : string) (k : key)
    (rows : list row) : bool :=
  existsb (fun r => match contribution date_field r with
                    | Some (k', hs) => bool_decide (k' = k) && pick hs
                    | None => false
                    end) rows.

(** An entry after OR-merging the flags [h] and [s] into it; an entry is
    only created by a flag that is set. *)
Definition merged (o : option flags) (h s : bool) : option flags :=
  if h || s then
    Some (Flags (health (default fresh o) || h) (stop (default fresh o) || s))
  else o.

(** ** A plan-by-plan view of the cost aggregator *)

(** The figures parsed from one plan record, in the order the loop body
    parses them. *)
Definition detail (p : plan) : result plan_detail :=
  premiums ← Float64.of_text (or_text (Py.get_default p "totalCharges" "0") "0");
  brokerage ← Float64.of_text (or_text (Py.get_default p "brokerCommission" "0") "0");
  people ← Num.int (or_text (Py.get_default p "personsCovered" "0") "0");
  Ok (PlanDetail (Py.get_default p "benefitType" "")
                 (Py.get_default p "carrierName" "")
                 premiums brokerage people).

Fixpoint details (year_data : list plan) : result (list plan_detail) :=
  match year_data with
  | [] => Ok []
  | p :: rest => d ← detail p; ds ← details rest; Ok (d :: ds)
  end.

(** A running total [t] after [t += amount d] for each [d] of [ds] in turn. *)
Fixpoint add_each (amount : plan_detail → Float64.float) (t : pynum)
    (ds : list plan_detail) : result pynum :=
  match ds with
  | [] => Ok t
  | d :: rest => t' ← num_add t (PFloat (amount d)); add_each amount t' rest
  end.

(** The values a running total takes: the initial [0], or a float. *)
Definition running (t : pynum) : Prop := t = PInt 0 ∨ ∃ f, t = PFloat f.

Definition sum_people (ds : list plan_detail) : Z :=
  foldr (fun d n => people_covered d + n) 0 ds.

(** ** Sample inputs *)

Module Sample.

(** A Schedule A row of the plan 001 of employer 12-3456789 for 2023. *)
Definition sched_a (health_ind stop_ind : string) : row :=
  <["SCH_A_EIN" := Py.PStr "12-3456789"]>
  (<["SCH_A_PLAN_NUM" := Py.PStr "001"]>
  (<["SCH_A_PLAN_YEAR_BEGIN_DATE" := Py.PStr "2023-01-01"]>
  (<["SCH_A_PLAN_YEAR_END_DATE" := Py.PStr "2023-12-31"]>
  (<["WLFR_BNFT_HEALTH_IND" := Py.PStr health_ind]>
  (<["WLFR_BNFT_STOP_LOSS_IND" := Py.PStr stop_ind]> ∅))))).

(** The header row of the same plan and year, with no flag set. *)
Definition header : row :=
  <["SPONS_DFE_EIN" := Py.PStr "12-3456789"]>
  (<["SPONS_DFE_PN" := Py.PStr "001"]>
  (<["FORM_PLAN_YEAR_BEGIN_DATE" := Py.PStr "2023-01-01"]>
  (<["FORM_TAX_PRD" := Py.PStr "2023-12-31"]> ∅))).

(** A header row that carries nothing but the given cell. *)
Definition only (field value : string) : row := {[ field := Py.PStr value ]}.

Definition health_idx : index * index := build_schedA_index [sched_a "1" "0"].
Definition stop_idx : index * index := build_schedA_index [sched_a "0" "1"].

(** A plan record that carries nothing but its total charges. *)
Definition charged (total_charges : string) : plan :=
  {[ "totalCharges" := Py.PStr total_charges ]}.

Definition chunk1 : list plan := [charged "0.1"].
Definition chunk2 : list plan := [charged "0.2"; charged "0.3"].

(** Two plans of one year, the first with an empty brokerage field. *)
Definition two_plans : list plan :=
  [ <["totalCharges" := Py.PStr "1000.50"]>
    (<["brokerCommission" := Py.PStr ""]>
    (<["personsCovered" := Py.PStr "12"]> ∅));
    <["totalCharges" := Py.PStr "2500.00"]>
    (<["brokerCommission" := Py.PStr "75.25"]>
    (<["personsCovered" := Py.PStr "30"]> ∅)) ].

(** A company whose only Schedule A year key is the text "unknown". *)
Definition unknown_year : company :=
  Company (Some "Acme") {[ "unknown" := [] ]} [] ∅.

(** One header row and index pair per label. *)
Definition one_per_label : list (row * (index * index)) :=
  [ (header, health_idx);
    (header, stop_idx);
    (<["SCH_A_ATTACHED_IND" := Py.PStr "1"]> (only "BENEFIT_GEN_ASSET_IND" "1"),
     (∅, ∅));
    (only "FUNDING_GEN_ASSET_IND" "1", (∅, ∅));
    (only "FUNDING_INSURANCE_IND" "1", (∅, ∅));
    (only "NUM_SCH_A_ATTACHED_CNT" "2", (∅, ∅));
    (∅, (∅, ∅)) ].

End Sample.

(** * The rest of the two programs *)

(** ** Text helpers of the classifier's entry point *)

Module Text.

(** [c.lower()] on a code point below 256: A..Z and the accented capitals
    0xC0..0xDE, the multiplication sign 0xD7 apart. *)
Definition lower_char (c : ascii) : ascii :=
  let n := N_of_ascii c in
  if ((65 <=? n) && (n <=? 90)
      || (192 <=? n) && (n <=? 222) && negb (n =? 215))%N
  then ascii_of_N (n + 32) else c.

(** [s.lower()] *)
Fixpoint lower (s : string) : string :=
  match s with
  | EmptyString => EmptyString
  | String c s' => String (lower_char c) (lower s')
  end.

(** [sub in s] *)
Fixpoint contains (sub s : string) : bool :=
  String.prefix sub s
  || match s with
     | EmptyString => false
     | String _ s' => contains sub s'
     end.

(** A character for which [str.isdigit] holds: 0..9 and the superscripts
    two, three and one (0xB2, 0xB3, 0xB9). *)
Definition digit_char (c : ascii) : bool :=
  let n := N_of_ascii c in
  ((48 <=? n) && (n <=? 57) || (n =? 178) || (n =? 179) || (n =? 185))%N.

Fixpoint all_digit_chars (s : string) : bool :=
  match s with
  | EmptyString => true
  | String c s' => digit_char c && all_digit_chars s'
  end.

(** [s.isdigit()] *)
Definition isdigit (s : string) : bool := Py.truthy s && all_digit_chars s.

(** [s[:4]] *)
Definition take4 (s : string) : string := substring 0 4 s.

End Text.

(** [norm(s)]: [(s or "").strip().lower()] *)
Definition norm (s : Py.pyval) : string :=
  Text.lower (Py.strip (or_text s "")).

(** [has_health_4A(code)]: ["4A" in (code or "")] *)
Definition has_health_4A (type_welfare_benefit_code : Py.pyval) : bool :=
  Text.contains "4A" (or_text type_welfare_benefit_code "").

(** ** The classifier's entry point *)

(** The parsed command line; the two file names only say where the rows
    are read from. *)
Module Cli.
Record args : Type := Args {
  company : string;
  exact : bool;
  year : option Z;
  debug : bool
}.
End Cli.

(** The sponsor test of the loop: equality of the normalised names in
    exact mode, containment otherwise. *)
Definition sponsor_matches (a : Cli.args) (r : row) : bool :=
  let company_q := norm (Py.PStr (Cli.company a)) in
  let sponsor := Py.get_default r "SPONSOR_DFE_NAME" "" in
  if Cli.exact a then bool_decide (norm sponsor = company_q)
  else Text.contains company_q (norm sponsor).

(** [x.isdigit() and int(x) == y] *)
Definition year_is (x : string) (y : Z) : result bool :=
  if Text.isdigit x then n ← Num.int x; Ok (n =? y) else Ok false.

(** The year test of the loop, on the first four characters of the two
    date cells as they are. *)
Definition year_ok (r : row) (y : Z) : result bool :=
  let by_ := Text.take4 (Py.or_empty (r !! "FORM_PLAN_YEAR_BEGIN_DATE")) in
  let ey := Text.take4 (Py.or_empty (r !! "FORM_TAX_PRD")) in
  b ← year_is by_ y;
  if (b : bool) then Ok true else year_is ey y.

(** [flags.get("health", False)] on the result of [idx.get(k, {})]. *)
Definition health_at (idx : index) (k : key) : bool :=
  match idx !! k with
  | Some f => health f
  | None => false
  end.

(** The Schedule A health lookup the loop makes before classifying. *)
Definition filter_health (r : row) (sa_begin_idx sa_end_idx : index) : bool :=
  let ein := Py.strip (Py.or_empty (r !! "SPONS_DFE_EIN")) in
  let pnum := Py.strip (Py.or_empty (r !! "SPONS_DFE_PN")) in
  let by_ := Text.take4 (Py.or_empty (r !! "FORM_PLAN_YEAR_BEGIN_DATE")) in
  let ey := Text.take4 (Py.or_empty (r !! "FORM_TAX_PRD")) in
  if Py.truthy ein && Py.truthy pnum then
    health_at sa_begin_idx (ein, pnum, by_) || health_at sa_end_idx (ein, pnum, ey)
  else false.

(** The element appended to [plans] for a row that is kept. *)
Definition entry_of (r : row) (sa_begin_idx sa_end_idx : index) : plan_entry :=
  let v := classify_plan r sa_begin_idx sa_end_idx in
  PlanEntry (Py.get_default r "PLAN_NAME" "") (vmeta v) (label v) (reasons v).

(** One turn of the loop over the header rows: [None] for a row that is
    skipped. *)
Definition main_row (a : Cli.args) (sa_begin_idx sa_end_idx : index) (r : row)
    : result (option plan_entry) :=
  if negb (sponsor_matches a r) then Ok None
  else
    ok ← match Cli.year a with
         | Some y => year_ok r y
         | None => Ok true
         end;
    if negb ok then Ok None
    else
      let has4a := has_health_4A (Py.get_default r "TYPE_WELFARE_BNFT_CODE" "") in
      let sa_h := filter_health r sa_begin_idx sa_end_idx in
      if negb (has4a || sa_h) then Ok None
      else Ok (Some (entry_of r sa_begin_idx sa_end_idx)).

(** The loop, from the list [plans] collected so far. *)
Fixpoint main_loop (a : Cli.args) (sa_begin_idx sa_end_idx : index)
    (rows : list row) (plans : list plan_entry) : result (list plan_entry) :=
  match rows with
  | [] => Ok plans
  | r :: rest =>
      e ← main_row a sa_begin_idx sa_end_idx r;
      main_loop a sa_begin_idx sa_end_idx rest
        (match e with
         | Some x => plans ++ [x]
         | None => plans
         end)
  end.

(** [main] on the rows of the two files: the overall outcome and the plans
    that are printed under it. *)
Definition main (a : Cli.args) (scheda headers : list row)
    : result (rollup * list plan_entry) :=
  let '(sa_begin_idx, sa_end_idx) := build_schedA_index scheda in
  plans ← main_loop a sa_begin_idx sa_end_idx headers [];
  Ok (overall_classification plans, plans).

(** ** The data processor's entry point *)

Record summary : Type := Summary {
  total_companies : nat;
  companies_with_data : nat;
  most_recent_year : string
}.

(** The loop over the companies of the raw data. *)
Fixpoint process_companies (companies : list company)
    (processed_companies : list processed) (companies_with_data : nat)
    : result (list processed * nat) :=
  match companies with
  | [] => Ok (processed_companies, companies_with_data)
  | c :: rest =>
      processed_company ← process_company_data c;
      process_companies rest (processed_companies ++ [processed_company])
        (if has_data processed_company then S companies_with_data
         else companies_with_data)
  end.

(** The set [years_found]. *)
Definition years_found (processed_companies : list processed) : gset string :=
  foldl (fun found c =>
           if year_given (data_year c)
           then {[ default "" (data_year c) ]} ∪ found else found)
        ∅ processed_companies.

(** The order of [sorted(years_found, reverse=True)] on texts. *)
Definition text_desc : relation string := fun a b => String.le b a.

#[global] Instance text_desc_dec : RelDecision text_desc :=
  fun a b => String.le_dec b a.

Definition pick_most_recent (years_found : gset string) : result string :=
  if bool_decide (years_found = ∅) then Ok "2023"
  else
    let sorted_years := merge_sort text_desc (elements years_found) in
    if bool_decide ("2023" ∈ years_found) then Ok "2023"
    else if bool_decide ("2022" ∈ years_found) then Ok "2022"
    else match sorted_years with
         | y :: _ => Ok y
         | [] => Raise IndexError
         end.

(** The part of [process_pe_data] between reading the raw data and writing
    the processed data: the processed companies and the summary block. *)
Definition process_pe_data (companies : list company)
    : result (summary * list processed) :=
  '(processed_companies, companies_with_data) ← process_companies companies [] 0%nat;
  most_recent_year ← pick_most_recent (years_found processed_companies);
  Ok (Summary (length processed_companies) companies_with_data most_recent_year,
      processed_companies).

(** ** Statements about index entries *)

(** Some row of [rows] contributes, under key [k] of the index keyed by
    the year of [date_field], flags that pass [pick]. *)
Definition flagged (pick : bool * bool → bool) (date_field : string) (k : key)
    (rows : list row) : Prop :=
  ∃ r hs, r ∈ rows ∧ contribution date_field r = Some (k, hs) ∧ pick hs = true.

(** [o] is what the rows put under key [k]: an entry exactly when some row
    with that key has an indicator set, whose flags say which indicators
    were seen. *)
Definition entry_is (date_field : string) (rows : list row) (k : key)
    (o : option flags) : Prop :=
  (is_Some o ↔ flagged (fun hs => hs.1 || hs.2) date_field k rows)
  ∧ ∀ f, o = Some f →
      (health f = true ↔ flagged fst date_field k rows)
      ∧ (stop f = true ↔ flagged snd date_field k rows).

(** ** The labels by the roll-up's reading *)

Definition self_funded_labels : list string :=
  [ "Self-funded w/ stop-loss";
    "Likely self-funded (non-medical Schedule A)";
    "Self-funded";
    "Likely self-funded (absence of health Schedule A)" ].

Definition insured_labels : list string :=
  [ "Insured"; "Likely insured (needs Sched A verification)" ].

(** ** A row-by-row view of the classifier's loop *)

(** Whether the loop keeps a row. *)
Definition keeps (a : Cli.args) (sa_begin_idx sa_end_idx : index) (r : row)
    : bool :=
  match main_row a sa_begin_idx sa_end_idx r with
  | Ok (Some _) => true
  | _ => false
  end.

(** Whether the loop gets past a row without raising. *)
Definition passes (a : Cli.args) (sa_begin_idx sa_end_idx : index) (r : row)
    : bool :=
  match main_row a sa_begin_idx sa_end_idx r with
  | Ok _ => true
  | Raise _ => false
  end.

(** A text of code points below 128. *)
Fixpoint ascii_only (s : string) : bool :=
  match s with
  | EmptyString => true
  | String c s' => (N_of_ascii c <? 128)%N && ascii_only s'
  end.

(** The superscript two, a character for which [str.isdigit] holds and
    that [int] rejects. *)
Definition superscript_two : string := String (ascii_of_N 178) EmptyString.

(** ** A further sample *)

(** A header row of sponsor "Acme" whose begin date starts with digits,
    the third of them a superscript two. *)
Definition superscript_header : row :=
  <["SPONSOR_DFE_NAME" := Py.PStr "Acme"]>
  (<["FORM_PLAN_YEAR_BEGIN_DATE" :=
       Py.PStr ("20" +:+ superscript_two +:+ "3-01-01")]> ∅).

(** The sample header row with a blank before each of its two dates. *)
Definition padded_header : row :=
  <["FORM_PLAN_YEAR_BEGIN_DATE" := Py.PStr " 2023-01-01"]>
  (<["FORM_TAX_PRD" := Py.PStr " 2023-12-31"]> Sample.header).

(** ** The resolver after sorting *)

(** The choice the resolver makes on the sorted years. *)
Definition pick_year (years : list Z) : result (option string) :=
  if bool_decide (2023 ∈ years) then Ok (Some "2023")
  else if bool_decide (2022 ∈ years) then Ok (Some "2022")
  else if (length years =? 1)%nat && bool_decide (2024 ∈ years) then
    Ok (Some "2024")
  else
    match find (fun year => negb (year =? 2024)) years with
    | Some year => Ok (Some (Num.str_int year))
    | None =>
        match years with
        | y0 :: _ => Ok (Some (Num.str_int y0))
        | [] => Raise IndexError
        end
    end.

(** ** Plan records that do not parse *)

(** A plan record one of whose three figures is rejected: the total
    charges or the broker commission by [float], or the persons covered by
    [int]. *)
Definition unparsable (p : plan) : Prop :=
  Float64.of_text (or_text (Py.get_default p "totalCharges" "0") "0")
  = Raise ValueError
  ∨ Float64.of_text (or_text (Py.get_default p "brokerCommission" "0") "0")
    = Raise ValueError
  ∨ Num.int (or_text (Py.get_default p "personsCovered" "0") "0")
    = Raise ValueError.

(** A cell that is missing, [None] or the empty text. *)
Definition blank (v : option Py.pyval) : Prop :=
  v = None ∨ v = Some Py.PNone ∨ v = Some (Py.PStr "").

(** ** Participant counts *)

(** What a Form 5500 record adds to the participant total. *)
Definition participants_of (r : record5500) : Z :=
  default 0 (active_participants r).

Definition sum_participants (year_records : list record5500) : Z :=
  foldr (fun r n => participants_of r + n) 0 year_records.

(** A company whose only Schedule A year key is written "02023". *)
Definition padded_year : company :=
  Company (Some "Acme") {[ "02023" := Sample.two_plans ]} [] ∅.

(** A company whose only Schedule A year key is "2023". *)
Definition with_2023 : company :=
  Company (Some "Acme") {[ "2023" := Sample.two_plans ]} [] ∅.

(** A company without Schedule A detail and with two Form 5500 years. *)
Definition form5500_only : company :=
  Company None ∅ ["2021"; "2024"]
    {[ "2021" := [Record5500 (Some 40); Record5500 None] ]}.

(** * Properties *)

(** ** Text helpers *)

Lemma truthy_false_iff (s : string) : Py.truthy s = false ↔ s = "".
Proof. destruct s; simpl; split; congruence. Qed.

Lemma truthy_true_iff (s : string) : Py.truthy s = true ↔ s ≠ "".
Proof. destruct s; simpl; split; congruence. Qed.

Lemma startswith_begins_with (c p : string) :
  Py.startswith c p = true ↔ begins_with p c.
Proof.
  unfold Py.startswith, begins_with. revert c.
  induction p as [|a p IH]; intros [|b c]; simpl.
  - split; [by exists "" | done].
  - split; [by exists (String b c) | done].
  - split; [done | intros [t Ht]; discriminate].
  - destruct (Ascii.ascii_dec a b) as [->|Hne].
    + rewrite IH. split; intros [t Ht]; exists t.
      * change (String b c = String b (p +:+ t)). congruence.
      * change (String b c = String b (p +:+ t)) in Ht. congruence.
    + split; [done | intros [t Ht]].
      change (String b c = String a (p +:+ t)) in Ht. congruence.
Qed.

Lemma in_TRUTHY (s : string) :
  s ∈ TRUTHY ↔
  s = "1" ∨ s = "Y" ∨ s = "y" ∨ s = "TRUE" ∨ s = "True" ∨ s = "true".
Proof. unfold TRUTHY. rewrite !elem_of_union, !elem_of_singleton. tauto. Qed.

Lemma is_true_iff (v : Py.pyval) :
  is_true v = true ↔ Py.strip (Py.str v) ∈ TRUTHY.
Proof. unfold is_true. by rewrite bool_decide_eq_true. Qed.

(** ** Boolean field parsing *)

(** C4, counterexample: the text [" 1"] parses as true although it is not
    one of the six literals, because the value is stripped of surrounding
    white space before it is looked up in the set. *)
Lemma is_true_padded_literal :
  ¬ (is_true (Py.PStr " 1") = true ↔ " 1" ∈ TRUTHY).
Proof.
  intros [Hin _]. specialize (Hin eq_refl).
  apply in_TRUTHY in Hin. repeat destruct Hin as [Hin|Hin]; discriminate.
Qed.

(** C4, amended: a value parses as true exactly when its text, stripped of
    leading and trailing white space, is one of the six literals "1", "Y",
    "y", "TRUE", "True", "true"; every other value parses as false, and so
    do a [None] cell and an absent field (read with the default "0" or ""). *)
Theorem is_true_stripped_literal (v : Py.pyval) :
  (is_true v = true ↔
     Py.strip (Py.str v) = "1" ∨ Py.strip (Py.str v) = "Y"
     ∨ Py.strip (Py.str v) = "y" ∨ Py.strip (Py.str v) = "TRUE"
     ∨ Py.strip (Py.str v) = "True" ∨ Py.strip (Py.str v) = "true")
  ∧ (is_true v = false ↔
     ¬ (Py.strip (Py.str v) = "1" ∨ Py.strip (Py.str v) = "Y"
        ∨ Py.strip (Py.str v) = "y" ∨ Py.strip (Py.str v) = "TRUE"
        ∨ Py.strip (Py.str v) = "True" ∨ Py.strip (Py.str v) = "true"))
  ∧ is_true Py.PNone = false
  ∧ ∀ (r : row) (k : string),
      r !! k = None →
      field_is_true r k "0" = false ∧ field_is_true r k "" = false.
Proof.
  assert (Ht := is_true_iff v). rewrite in_TRUTHY in Ht.
  split; [exact Ht|]. split.
  - rewrite <- Ht. destruct (is_true v); split; congruence.
  - split; [reflexivity|]. intros r k Hk.
    unfold field_is_true, Py.get_default. rewrite Hk. split; reflexivity.
Qed.

(** ** Schedule-A index builder *)

Lemma mark_lookup (h s : bool) (k k' : key) (idx : index) :
  mark h s k idx !! k'
  = if decide (k = k') then merged (idx !! k) h s else idx !! k'.
Proof.
  unfold mark, set_health, set_stop, merged.
  destruct (decide (k = k')) as [<-|Hne].
  - destruct h, s; simpl; rewrite ?lookup_insert_eq; simpl;
      destruct (idx !! k) as [[a b]|]; simpl; rewrite ?orb_true_r, ?orb_false_r;
      reflexivity.
  - destruct h, s; simpl; rewrite ?lookup_insert_ne by done; reflexivity.
Qed.

Lemma merged_merged (o : option flags) (h s h' s' : bool) :
  merged (merged o h s) h' s' = merged o (h || h') (s || s').
Proof.
  unfold merged. destruct o as [[a b]|], h, s, h', s'; simpl;
    rewrite ?orb_true_r, ?orb_false_r; reflexivity.
Qed.

Lemma index_row_contribute (r : row) (bi ei : index) :
  index_row r (bi, ei)
  = (contribute "SCH_A_PLAN_YEAR_BEGIN_DATE" bi r,
     contribute "SCH_A_PLAN_YEAR_END_DATE" ei r).
Proof.
  unfold index_row, contribute, contribution.
  destruct (negb _ || negb _); [reflexivity|].
  do 2 destruct (Py.truthy (Py.year_prefix _)); reflexivity.
Qed.

Lemma build_schedA_index_split (rows : list row) :
  build_schedA_index rows
  = (fold_left (contribute "SCH_A_PLAN_YEAR_BEGIN_DATE") rows ∅,
     fold_left (contribute "SCH_A_PLAN_YEAR_END_DATE") rows ∅).
Proof.
  unfold build_schedA_index. generalize (∅ : index) at 1 3.
  generalize (∅ : index).
  induction rows as [|r rows IH]; intros ei bi; cbn [fold_left];
    [reflexivity|].
  rewrite index_row_contribute. apply IH.
Qed.

(** The entry under a key after the loop: the entry it started with,
    OR-merged with the flags of every contributing row. *)
Lemma contribute_fold_lookup (d : string) (rows : list row) (idx : index)
    (k : key) :
  fold_left (contribute d) rows idx !! k
  = merged (idx !! k) (any_row fst d k rows) (any_row snd d k rows).
Proof.
  revert idx. induction rows as [|r rows IH]; intros idx; simpl.
  - unfold merged. reflexivity.
  - rewrite IH. unfold contribute.
    destruct (contribution d r) as [[k' [h s]]|]; simpl; [|reflexivity].
    rewrite mark_lookup. destruct (decide (k' = k)) as [->|Hne].
    + rewrite bool_decide_eq_true_2 by done. simpl. apply merged_merged.
    + rewrite bool_decide_eq_false_2 by done. reflexivity.
Qed.

Lemma any_row_same_rows (pick : bool * bool → bool) (d : string) (k : key)
    (rows rows' : list row) :
  (∀ r, r ∈ rows ↔ r ∈ rows') →
  any_row pick d k rows = any_row pick d k rows'.
Proof.
  intros Hsame. unfold any_row. apply eq_true_iff_eq.
  rewrite !existsb_exists. split; intros (r & Hin & Hr); exists r;
    (split; [|exact Hr]); apply list_elem_of_In; apply Hsame;
    by apply list_elem_of_In.
Qed.

Lemma contribute_fold_same_rows (d : string) (rows rows' : list row) :
  (∀ r, r ∈ rows ↔ r ∈ rows') →
  fold_left (contribute d) rows ∅ = fold_left (contribute d) rows' ∅.
Proof.
  intros Hsame. apply map_eq. intros k. rewrite !contribute_fold_lookup.
  by rewrite !(any_row_same_rows _ d k rows rows' Hsame).
Qed.

Lemma contribute_fold_wf (d : string) (rows : list row) :
  index_wf (fold_left (contribute d) rows ∅).
Proof.
  intros k f Hk. rewrite contribute_fold_lookup, lookup_empty in Hk.
  assert (Hany : any_row (fun _ => true) d k rows = true).
  { unfold merged in Hk.
    destruct (any_row fst d k rows) eqn:E1;
      [|destruct (any_row snd d k rows) eqn:E2; [|discriminate]].
    - unfold any_row in *. apply existsb_exists in E1 as (r & Hin & Hr).
      apply existsb_exists. exists r. split; [done|].
      destruct (contribution d r) as [[k' hs]|]; [|done].
      apply andb_true_iff in Hr as [-> _]. done.
    - unfold any_row in *. apply existsb_exists in E2 as (r & Hin & Hr).
      apply existsb_exists. exists r. split; [done|].
      destruct (contribution d r) as [[k' hs]|]; [|done].
      apply andb_true_iff in Hr as [-> _]. done. }
  unfold any_row in Hany. apply existsb_exists in Hany as (r & _ & Hr).
  unfold contribution in Hr.
  destruct (Py.truthy (Py.strip (Py.or_empty (r !! "SCH_A_EIN")))) eqn:E1;
    [|done].
  destruct (Py.truthy (Py.strip (Py.or_empty (r !! "SCH_A_PLAN_NUM")))) eqn:E2;
    [|done].
  simpl in Hr.
  destruct (Py.truthy (Py.year_prefix _)) eqn:E3; [|done].
  rewrite andb_true_r in Hr. apply bool_decide_eq_true in Hr as <-.
  repeat split; simpl; by apply truthy_true_iff.
Qed.

(** The index builder only produces well-formed indexes. *)
Lemma build_schedA_index_wf (rows : list row) :
  index_wf (build_schedA_index rows).1 ∧ index_wf (build_schedA_index rows).2.
Proof.
  rewrite build_schedA_index_split. split; apply contribute_fold_wf.
Qed.

(** C5: building the indexes from two row sequences that list the same
    rows, in any order and any number of times each (so from any
    permutation of a sequence, and from any duplication of it), gives the
    same begin-year index and the same end-year index. *)
Theorem build_schedA_index_same_rows (rows rows' : list row) :
  (∀ r, r ∈ rows ↔ r ∈ rows') →
  build_schedA_index rows = build_schedA_index rows'.
Proof.
  intros Hsame. rewrite !build_schedA_index_split.
  f_equal; by apply contribute_fold_same_rows.
Qed.

Lemma build_schedA_index_same_rows_witness :
  (∀ r, r ∈ [Sample.sched_a "1" "0"; Sample.sched_a "0" "1"]
        ↔ r ∈ [Sample.sched_a "0" "1"; Sample.sched_a "1" "0";
               Sample.sched_a "0" "1"])
  ∧ build_schedA_index [Sample.sched_a "1" "0"; Sample.sched_a "0" "1"]
    = build_schedA_index [Sample.sched_a "0" "1"; Sample.sched_a "1" "0";
                          Sample.sched_a "0" "1"].
Proof.
  assert (H : ∀ r, r ∈ [Sample.sched_a "1" "0"; Sample.sched_a "0" "1"]
        ↔ r ∈ [Sample.sched_a "0" "1"; Sample.sched_a "1" "0";
               Sample.sched_a "0" "1"]).
  { intros r. rewrite !elem_of_cons, !elem_of_nil. tauto. }
  split; [exact H|].
  exact (build_schedA_index_same_rows _ _ H).
Defined.

(** A further row never clears a flag: entries are only OR-merged. *)
Lemma contribute_keeps_flags (d : string) (idx : index) (r : row) (k : key)
    (f : flags) :
  idx !! k = Some f →
  ∃ f', contribute d idx r !! k = Some f'
        ∧ (health f = true → health f' = true)
        ∧ (stop f = true → stop f' = true).
Proof.
  intros Hk. unfold contribute.
  destruct (contribution d r) as [[k' [h s]]|]; [|by exists f].
  rewrite mark_lookup. destruct (decide (k' = k)) as [->|]; [|by exists f].
  rewrite Hk. unfold merged. destruct (h || s); [|by exists f].
  eexists. split; [reflexivity|]. simpl.
  split; intros ->; reflexivity.
Qed.

(** ** Funding classifier *)

Section Classifier.

Variable header_row : row.
Variables sa_begin_idx sa_end_idx : index.

Lemma index_wf_lookup (idx : index) (k : key) :
  index_wf idx → ¬ key_ok k → idx !! k = None.
Proof.
  intros Hwf Hk. destruct (idx !! k) as [f|] eqn:Hf; [|done].
  destruct Hk. exact (Hwf k f Hf).
Qed.

Lemma absorb_coverage_at (idx : index) (k : key) (sa : bool * bool) :
  absorb idx k sa
  = (sa.1 || health (coverage_at idx k), sa.2 || stop (coverage_at idx k)).
Proof.
  unfold absorb, coverage_at. destruct (idx !! k) as [f|]; simpl; [done|].
  destruct sa as [a b]. simpl. by rewrite !orb_false_r.
Qed.

(** On well-formed indexes the guards around the two lookups change
    nothing: a key with an empty component has no entry. *)
Lemma resolve_flags_coverage (e p yb ye : string) :
  index_wf sa_begin_idx → index_wf sa_end_idx →
  resolve_flags e p yb ye sa_begin_idx sa_end_idx
  = (health (coverage_at sa_begin_idx (e, p, yb))
     || health (coverage_at sa_end_idx (e, p, ye)),
     stop (coverage_at sa_begin_idx (e, p, yb))
     || stop (coverage_at sa_end_idx (e, p, ye))).
Proof.
  intros Hb He.
  assert (Hnone : ∀ idx y, index_wf idx →
            Py.truthy e && Py.truthy p && Py.truthy y = false →
            coverage_at idx (e, p, y) = fresh).
  { intros idx y Hwf Hg. unfold coverage_at.
    rewrite (index_wf_lookup idx (e, p, y) Hwf); [done|].
    intros (H1 & H2 & H3). simpl in *.
    apply truthy_true_iff in H1, H2, H3. by rewrite H1, H2, H3 in Hg. }
  assert (Hstep : ∀ idx y sa, index_wf idx →
            (if Py.truthy y then absorb idx (e, p, y) sa else sa)
            = (sa.1 || health (coverage_at idx (e, p, y)),
               sa.2 || stop (coverage_at idx (e, p, y)))).
  { intros idx y [a b] Hwf. destruct (Py.truthy y) eqn:Ey.
    - apply absorb_coverage_at.
    - rewrite Hnone by (by rewrite ?Ey, ?andb_false_r). simpl.
      by rewrite !orb_false_r. }
  unfold resolve_flags.
  destruct (Py.truthy e && Py.truthy p) eqn:Eg.
  - rewrite (Hstep sa_end_idx ye _ He), (Hstep sa_begin_idx yb _ Hb). done.
  - rewrite !Hnone by (by rewrite ?Eg). done.
Qed.

(** The label is the six-rule sequence on whatever flags were resolved. *)
Lemma classify_plan_label :
  label (classify_plan header_row sa_begin_idx sa_end_idx)
  = let sa := resolve_flags (begin_key header_row).1.1 (begin_key header_row).1.2
                (begin_key header_row).2 (end_key header_row).2
                sa_begin_idx sa_end_idx in
    six_rules sa.1 sa.2 (general_assets header_row) (insurance header_row)
      (any_scha header_row).
Proof.
  unfold classify_plan, begin_key, end_key, general_assets, insurance. simpl.
  destruct (resolve_flags _ _ _ _ _ _) as [[] []]; simpl;
    repeat match goal with
           | |- context [if ?b then _ else _] => destruct b; simpl
           end;
    reflexivity.
Qed.

End Classifier.

(** C1: on Schedule-A coverage indexes (whose keys carry an employer id, a
    plan number and a year prefix, as the index builder makes them), the
    label returned by [classify_plan] for any header row is the one given
    by the six rules evaluated top to bottom, the coverage flags being the
    OR of the begin-year index lookup and the end-year index lookup; in
    particular resolved health gives "Insured" whatever the other flags. *)
Theorem classify_plan_six_rules (header_row : row)
    (sa_begin_idx sa_end_idx : index) :
  index_wf sa_begin_idx → index_wf sa_end_idx →
  let cov := coverage_flags header_row sa_begin_idx sa_end_idx in
  label (classify_plan header_row sa_begin_idx sa_end_idx)
  = six_rules (health cov) (stop cov) (general_assets header_row)
      (insurance header_row) (any_scha header_row)
  ∧ (health cov = true →
     label (classify_plan header_row sa_begin_idx sa_end_idx) = "Insured").
Proof.
  intros Hb He cov.
  assert (Hl : label (classify_plan header_row sa_begin_idx sa_end_idx)
               = six_rules (health cov) (stop cov) (general_assets header_row)
                   (insurance header_row) (any_scha header_row)).
  { rewrite classify_plan_label. cbv zeta.
    rewrite resolve_flags_coverage by assumption. reflexivity. }
  split; [exact Hl|]. intros Hh. rewrite Hl, Hh. reflexivity.
Qed.

Lemma classify_plan_six_rules_witness :
  index_wf Sample.health_idx.1 ∧ index_wf Sample.health_idx.2
  ∧ label (classify_plan Sample.header Sample.health_idx.1 Sample.health_idx.2)
    = "Insured".
Proof.
  destruct (build_schedA_index_wf [Sample.sched_a "1" "0"]) as [Hb He].
  split; [exact Hb|]. split; [exact He|].
  exact (proj2 (classify_plan_six_rules Sample.header _ _ Hb He) eq_refl).
Defined.

(** The scenario of the specification: the row of plan 001 for 2023 with
    the health indicator set gives one begin-year entry, health only. *)
Example sample_index_entry :
  Sample.health_idx.1 !! ("12-3456789", "001", "2023") = Some (Flags true false).
Proof. reflexivity. Qed.

(** ** Verdicts *)

Lemma six_rules_labels (h s g i a : bool) :
  six_rules h s g i a ∈ classification_labels.
Proof.
  unfold classification_labels.
  destruct h, s, g, i, a; simpl; rewrite !elem_of_cons; tauto.
Qed.

(** C9, counterexample: no set of six labels holds every label the
    classifier returns; the seven sample header rows get seven different
    labels. *)
Lemma classify_plan_seven_labels :
  ¬ ∃ six : list string,
      length six = 6%nat
      ∧ ∀ header_row sa_begin_idx sa_end_idx,
          label (classify_plan header_row sa_begin_idx sa_end_idx) ∈ six.
Proof.
  intros (six & Hlen & Hall).
  pose (seen := map (fun x => label (classify_plan x.1 x.2.1 x.2.2))
                  Sample.one_per_label).
  assert (Hsub : seen ⊆+ six).
  { apply NoDup_submseteq.
    - vm_compute. repeat (constructor; [rewrite ?elem_of_cons, ?elem_of_nil;
                                         intuition discriminate|]).
      constructor.
    - intros x Hx. apply list_elem_of_fmap in Hx as (y & -> & _). apply Hall. }
  apply submseteq_length in Hsub. rewrite Hlen in Hsub.
  vm_compute in Hsub. lia.
Qed.

(** C9, amended: [classify_plan] is total and returns exactly one label
    drawn from the fixed set of seven labels (the six rules name seven,
    rule 3 having two), together with a non-empty ordered list of reasons
    and metadata carrying the row's employer id, plan number and
    year-begin and year-end dates. *)
Theorem classify_plan_verdict (header_row : row)
    (sa_begin_idx sa_end_idx : index) :
  let v := classify_plan header_row sa_begin_idx sa_end_idx in
  label v ∈ classification_labels
  ∧ reasons v ≠ []
  ∧ vmeta v =
      Meta (Py.strip (Py.or_empty (header_row !! "SPONS_DFE_EIN")))
           (Py.strip (Py.or_empty (header_row !! "SPONS_DFE_PN")))
           (Py.strip (Py.or_empty (header_row !! "FORM_PLAN_YEAR_BEGIN_DATE")))
           (Py.strip (Py.or_empty (header_row !! "FORM_TAX_PRD"))).
Proof.
  intros v. split.
  - subst v. rewrite classify_plan_label. apply six_rules_labels.
  - subst v. unfold classify_plan.
    destruct (resolve_flags _ _ _ _ _ _) as [[] []]; simpl;
      repeat match goal with
             | |- context [if ?b then _ else _] => destruct b; simpl
             end;
      (split; [discriminate | reflexivity]).
Qed.

(** C10: the attachment test holds exactly when the attachment indicator
    parses as true or the stripped text of the attachment count is neither
    "" nor "0"; so any other count text (such as "00", "-1" or "n/a")
    counts as an attachment, and then, with no coverage found, rule 3
    gives its "non-medical Schedule A" label and rule 5 applies. *)
Theorem any_scha_count_text (header_row : row) :
  let count :=
    Py.strip (Py.str (Py.get_default header_row "NUM_SCH_A_ATTACHED_CNT" "0")) in
  (any_scha header_row = true ↔
     field_is_true header_row "SCH_A_ATTACHED_IND" "0" = true
     ∨ (count ≠ "" ∧ count ≠ "0"))
  ∧ (count ∈ ["00"; "-1"; "n/a"] → any_scha header_row = true)
  ∧ (count ≠ "" ∧ count ≠ "0" →
     (general_assets header_row = true →
      label (classify_plan header_row ∅ ∅)
      = "Likely self-funded (non-medical Schedule A)")
     ∧ (general_assets header_row = false → insurance header_row = false →
        label (classify_plan header_row ∅ ∅)
        = "Indeterminate (needs Sched A detail)")).
Proof.
  intros count.
  assert (Hiff : any_scha header_row = true ↔
     field_is_true header_row "SCH_A_ATTACHED_IND" "0" = true
     ∨ (count ≠ "" ∧ count ≠ "0")).
  { unfold any_scha. fold count.
    rewrite orb_true_iff, negb_true_iff, bool_decide_eq_false.
    rewrite !elem_of_cons, elem_of_nil. tauto. }
  split; [exact Hiff|]. split.
  - intros Hc. apply Hiff. right.
    rewrite !elem_of_cons, elem_of_nil in Hc.
    destruct Hc as [->|[->|[->|[]]]]; split; discriminate.
  - intros Hc.
    assert (Ha : any_scha header_row = true) by (apply Hiff; by right).
    assert (Hl := classify_plan_label header_row ∅ ∅).
    assert (Hr : ∀ e p yb ye, resolve_flags e p yb ye ∅ ∅ = (false, false)).
    { intros e p yb ye. unfold resolve_flags, absorb.
      rewrite !lookup_empty. by repeat destruct (Py.truthy _). }
    cbv zeta in Hl. rewrite Hr, Ha in Hl. simpl in Hl.
    split.
    + intros Hg. by rewrite Hl, Hg.
    + intros Hg Hi. by rewrite Hl, Hg, Hi.
Qed.

(** ** Overall classification roll-up *)

Lemma self_funded_like_iff (c : string) :
  self_funded_like c = true
  ↔ begins_with "Self-funded" c ∨ begins_with "Likely self-funded" c.
Proof.
  unfold self_funded_like.
  by rewrite orb_true_iff, !startswith_begins_with.
Qed.

Lemma insured_like_iff (c : string) :
  insured_like c = true ↔ c = "Insured" ∨ begins_with "Likely insured" c.
Proof.
  unfold insured_like.
  by rewrite orb_true_iff, bool_decide_eq_true, startswith_begins_with.
Qed.

Lemma existsb_self_funded (classes : list string) :
  existsb self_funded_like classes = true
  ↔ ∃ c, c ∈ classes
         ∧ (begins_with "Self-funded" c ∨ begins_with "Likely self-funded" c).
Proof.
  rewrite existsb_exists. split; intros (c & Hin & Hc); exists c.
  - split; [by apply list_elem_of_In | by apply self_funded_like_iff].
  - split; [by apply list_elem_of_In | by apply self_funded_like_iff].
Qed.

Lemma forallb_insured (classes : list string) :
  forallb insured_like classes = true
  ↔ ∀ c, c ∈ classes → c = "Insured" ∨ begins_with "Likely insured" c.
Proof.
  rewrite forallb_forall. split; intros Hall c Hin.
  - apply insured_like_iff, Hall. by apply list_elem_of_In.
  - apply insured_like_iff, Hall. by apply list_elem_of_In.
Qed.

(** C3: for a non-empty list of plans the roll-up is "Self-funded (at
    least one plan)" if some label begins with "Self-funded" or "Likely
    self-funded"; else "Insured" if every label is "Insured" or begins with
    "Likely insured"; else "Mixed/Indeterminate"; the empty list, and only
    it, gives the separate "no medical plans" outcome. *)
Theorem overall_classification_rollup (plans : list plan_entry) :
  let classes := map classification plans in
  let some_self_funded :=
    ∃ c, c ∈ classes
         ∧ (begins_with "Self-funded" c ∨ begins_with "Likely self-funded" c) in
  let all_insured :=
    ∀ c, c ∈ classes → c = "Insured" ∨ begins_with "Likely insured" c in
  (overall_classification plans = NoMedicalPlans ↔ plans = [])
  ∧ (plans ≠ [] →
     (some_self_funded →
      overall_classification plans = Overall "Self-funded (at least one plan)")
     ∧ (¬ some_self_funded → all_insured →
        overall_classification plans = Overall "Insured")
     ∧ (¬ some_self_funded → ¬ all_insured →
        overall_classification plans = Overall "Mixed/Indeterminate")).
Proof.
  intros classes some_self_funded all_insured. split.
  - destruct plans; simpl; split; congruence.
  - intros Hne.
    assert (Ho : overall_classification plans = Overall (overall_of classes)).
    { destruct plans; [done | reflexivity]. }
    rewrite Ho. unfold overall_of.
    pose proof (existsb_self_funded classes) as He.
    pose proof (forallb_insured classes) as Hf.
    fold some_self_funded in He. fold all_insured in Hf.
    destruct (existsb self_funded_like classes);
      destruct (forallb insured_like classes);
      repeat split; intros; try reflexivity; exfalso;
      intuition congruence.
Qed.

(** ** Year preference resolver *)

#[local] Instance desc_total : Total desc.
Proof. intros a b. unfold desc. lia. Qed.

#[local] Instance desc_trans : Transitive desc.
Proof. intros a b c. unfold desc. lia. Qed.

Lemma sort_desc_elem (years : list Z) (n : Z) :
  n ∈ sort_desc years ↔ n ∈ years.
Proof. unfold sort_desc. by rewrite merge_sort_Permutation. Qed.

Lemma sort_desc_sorted (years : list Z) :
  StronglySorted desc (sort_desc years).
Proof. apply StronglySorted_merge_sort; apply _. Qed.

Lemma sort_desc_length (years : list Z) :
  length (sort_desc years) = length years.
Proof. unfold sort_desc. by rewrite merge_sort_Permutation. Qed.

Lemma parse_years_Forall2 (available_years : list string) (years : list Z) :
  parse_years available_years = Ok years
  ↔ Forall2 (fun y n => Num.int y = Ok n) available_years years.
Proof.
  revert years. induction available_years as [|y ys IH]; intros years; simpl.
  - split.
    + intros [= <-]. constructor.
    + intros H. by inversion H.
  - unfold mbind, result_bind. destruct (Num.int y) as [n|e] eqn:Hy.
    + destruct (parse_years ys) as [ns|e] eqn:Hys.
      * split.
        -- intros [= <-]. constructor; [done|]. by apply IH.
        -- intros H. inversion H as [|? n' ? ns' Hn Hns]; subst.
           apply IH in Hns. congruence.
      * split; [done|]. intros H. inversion H as [|? n' ? ns' Hn Hns]; subst.
        apply IH in Hns. congruence.
    + split; [done|]. intros H. inversion H; subst. congruence.
Qed.

Lemma int_raises_ValueError (s : string) (e : exn) :
  Num.int s = Raise e → e = ValueError.
Proof.
  unfold Num.int. destruct (Num.split_sign _) as [neg body].
  destruct (Num.digitpart body) as [[v n]|]; [|congruence].
  destruct (_ <? _)%nat; congruence.
Qed.

Lemma parse_years_raises (available_years : list string) (e : exn) :
  parse_years available_years = Raise e →
  e = ValueError ∧ ∃ y, y ∈ available_years ∧ Num.int y = Raise ValueError.
Proof.
  induction available_years as [|y ys IH]; simpl; [done|].
  unfold mbind, result_bind. destruct (Num.int y) as [n|e'] eqn:Hy.
  - destruct (parse_years ys) as [ns|e'']; [done|]. intros [= <-].
    destruct (IH eq_refl) as (-> & y' & Hin & Hy').
    split; [done|]. exists y'. split; [by right | done].
  - intros [= <-]. pose proof (int_raises_ValueError _ _ Hy) as ->.
    split; [done|]. exists y. split; [left | done].
Qed.

(** In a list sorted in descending order, the first element that passes a
    test is the greatest that does. *)
Lemma find_desc_greatest (P : Z → bool) (l : list Z) (y : Z) :
  StronglySorted desc l → find P l = Some y →
  y ∈ l ∧ P y = true ∧ ∀ n, n ∈ l → P n = true → n ≤ y.
Proof.
  induction 1 as [|a l Hs IH Hall]; simpl; [done|].
  destruct (P a) eqn:Pa.
  - intros [= <-]. split; [left|]. split; [done|].
    intros n Hn _. apply elem_of_cons in Hn as [->|Hn]; [lia|].
    rewrite Forall_forall in Hall. exact (Hall n Hn).
  - intros Hf. destruct (IH Hf) as (Hin & Py & Hmax).
    split; [by right|]. split; [done|].
    intros n Hn Pn. apply elem_of_cons in Hn as [->|Hn]; [congruence|].
    by apply Hmax.
Qed.

Lemma find_none_all (P : Z → bool) (l : list Z) :
  find P l = None → ∀ n, n ∈ l → P n = false.
Proof.
  intros Hf n Hn. apply (find_none P l Hf). by apply list_elem_of_In.
Qed.

#[local] Instance desc_antisymm : AntiSymm (=) desc.
Proof. intros a b. unfold desc. lia. Qed.

Lemma sort_desc_perm (years years' : list Z) :
  years ≡ₚ years' → sort_desc years = sort_desc years'.
Proof.
  intros Hp. apply (Sorted_unique desc).
  - apply Sorted_merge_sort, _.
  - apply Sorted_merge_sort, _.
  - unfold sort_desc. by rewrite !merge_sort_Permutation.
Qed.

Lemma parse_years_perm (ys ys' : list string) :
  ys ≡ₚ ys' →
  match parse_years ys, parse_years ys' with
  | Ok ns, Ok ns' => ns ≡ₚ ns'
  | Raise e, Raise e' => e = e'
  | _, _ => False
  end.
Proof.
  induction 1 as [|y ys ys' Hp IH|y z ys|ys ys' ys'' Hp1 IH1 Hp2 IH2]; simpl.
  - done.
  - unfold mbind, result_bind.
    destruct (Num.int y) as [n|e]; [|done].
    destruct (parse_years ys), (parse_years ys'); try done.
    by constructor.
  - unfold mbind, result_bind.
    destruct (Num.int y) as [n|e] eqn:Hy, (Num.int z) as [m|e'] eqn:Hz,
             (parse_years ys) as [ns|e''] eqn:Hys;
      try apply int_raises_ValueError in Hy as ->;
      try apply int_raises_ValueError in Hz as ->;
      try apply parse_years_raises in Hys as [-> _];
      try done.
    constructor.
  - destruct (parse_years ys), (parse_years ys'), (parse_years ys'');
      try done; [by etrans | congruence].
Qed.

(** The resolver does not depend on the order in which the years are
    listed, so the iteration order of the dict it is fed from is
    immaterial. *)
Lemma get_preferred_year_perm (ys ys' : list string) :
  ys ≡ₚ ys' → get_preferred_year ys = get_preferred_year ys'.
Proof.
  intros Hp. pose proof (parse_years_perm ys ys' Hp) as Hparse.
  destruct ys as [|y ys].
  { apply Permutation_nil_l in Hp as ->. reflexivity. }
  destruct ys' as [|y' ys'].
  { by apply Permutation_nil_r in Hp. }
  unfold get_preferred_year.
  destruct (parse_years (y :: ys)) as [ns|e],
           (parse_years (y' :: ys')) as [ns'|e']; try done.
  - unfold mbind, result_bind. by rewrite (sort_desc_perm ns ns' Hparse).
  - by subst.
Qed.

Lemma str_int_2024 : Num.str_int 2024 = "2024".
Proof. reflexivity. Qed.

(** C2: when every year string denotes an integer, the resolver returns
    "2023" if 2023 is present; else "2022" if 2022 is present; else "2024"
    if 2024 is the only year present; else the decimal string of the most
    recent year present that is not 2024; and for the empty input it
    returns no year, without raising. *)
Theorem get_preferred_year_policy (available_years : list string)
    (years : list Z) :
  Forall2 (fun y n => Num.int y = Ok n) available_years years →
  ∃ r, get_preferred_year available_years = Ok r
    ∧ (available_years = [] → r = None)
    ∧ (2023 ∈ years → r = Some "2023")
    ∧ (2023 ∉ years → 2022 ∈ years → r = Some "2022")
    ∧ (2023 ∉ years → 2022 ∉ years → years ≠ [] →
       (∀ n, n ∈ years → n = 2024) → r = Some "2024")
    ∧ (2023 ∉ years → 2022 ∉ years →
       ∀ m, m ∈ years → m ≠ 2024 →
            (∀ n, n ∈ years → n ≠ 2024 → n ≤ m) →
            r = Some (Num.str_int m)).
Proof.
  intros HF. destruct available_years as [|y0 ys].
  { inversion HF; subst. exists None. split; [reflexivity|].
    repeat split; intros; try done;
      match goal with H : _ ∈ [] |- _ => by apply elem_of_nil in H end. }
  assert (Hne : years ≠ []) by (inversion HF; done).
  apply parse_years_Forall2 in HF.
  unfold get_preferred_year. rewrite HF. unfold mbind, result_bind.
  pose proof (sort_desc_elem years) as Hel.
  pose proof (sort_desc_sorted years) as Hsorted.
  pose proof (sort_desc_length years) as Hlen.
  set (sorted := sort_desc years) in *.
  destruct (bool_decide (2023 ∈ sorted)) eqn:E23.
  { apply bool_decide_eq_true in E23. rewrite Hel in E23.
    exists (Some "2023"). split; [reflexivity|].
    repeat split; intros; done. }
  apply bool_decide_eq_false in E23. rewrite Hel in E23.
  destruct (bool_decide (2022 ∈ sorted)) eqn:E22.
  { apply bool_decide_eq_true in E22. rewrite Hel in E22.
    exists (Some "2022"). split; [reflexivity|].
    repeat split; intros; done. }
  apply bool_decide_eq_false in E22. rewrite Hel in E22.
  destruct ((length sorted =? 1)%nat && bool_decide (2024 ∈ sorted)) eqn:E1.
  { apply andb_true_iff in E1 as [E1 E24].
    apply Nat.eqb_eq in E1. apply bool_decide_eq_true in E24.
    assert (Hs : sorted = [2024]).
    { destruct sorted as [|a [|b l]]; try discriminate.
      apply list_elem_of_singleton in E24. by subst. }
    exists (Some "2024"). split; [reflexivity|].
    repeat split; intros; try done.
    match goal with H : ?m ∈ years, H' : ?m ≠ 2024 |- _ =>
      apply Hel in H; rewrite Hs in H; apply list_elem_of_singleton in H; done
    end. }
  clear E1.
  destruct (find (fun year => negb (year =? 2024)) sorted) as [y|] eqn:Ef.
  { destruct (find_desc_greatest _ _ _ Hsorted Ef) as (Hy & Py & Hmax).
    apply negb_true_iff, Z.eqb_neq in Py. apply Hel in Hy.
    exists (Some (Num.str_int y)). split; [reflexivity|].
    repeat split; intros; try done.
    - match goal with H : ∀ n, n ∈ years → n = 2024 |- _ =>
        destruct Py; by apply H end.
    - match goal with
      | Hm : ?m ∈ years, Hm' : ?m ≠ 2024,
        Hall : ∀ n, n ∈ years → n ≠ 2024 → n ≤ ?m |- _ =>
          assert (y ≤ m) by (by apply Hall);
          assert (m ≤ y)
            by (apply Hmax; [by apply Hel | by apply negb_true_iff, Z.eqb_neq]);
          do 2 f_equal; lia
      end. }
  pose proof (find_none_all _ _ Ef) as Hall24.
  assert (H24 : ∀ n, n ∈ sorted → n = 2024).
  { intros n Hn. specialize (Hall24 n Hn).
    apply negb_false_iff, Z.eqb_eq in Hall24. done. }
  destruct sorted as [|a l] eqn:Es.
  { destruct years; [done | discriminate]. }
  rewrite (H24 a) by left.
  exists (Some "2024"). split; [reflexivity|].
  repeat split; intros; try done.
  match goal with H : ?m ∈ years, H' : ?m ≠ 2024 |- _ =>
    destruct H'; apply H24; by apply Hel
  end.
Qed.

Lemma get_preferred_year_policy_witness :
  Forall2 (fun y n => Num.int y = Ok n) ["2020"; "2024"] [2020; 2024]
  ∧ get_preferred_year ["2020"; "2024"] = Ok (Some "2020").
Proof.
  assert (H : Forall2 (fun y n => Num.int y = Ok n)
                ["2020"; "2024"] [2020; 2024])
    by (repeat constructor).
  split; [exact H|].
  destruct (get_preferred_year_policy _ _ H) as (r & Hr & _ & _ & _ & _ & Hmax).
  rewrite Hr. f_equal. apply (Hmax ltac:(rewrite !elem_of_cons, elem_of_nil; lia)
                                ltac:(rewrite !elem_of_cons, elem_of_nil; lia) 2020).
  - left.
  - lia.
  - intros n Hn Hne. rewrite !elem_of_cons, elem_of_nil in Hn. lia.
Defined.

(** The scenarios of the specification. *)
Example preferred_2021_2022_2024 :
  get_preferred_year ["2021"; "2022"; "2024"] = Ok (Some "2022").
Proof. reflexivity. Qed.

Example preferred_only_2024 : get_preferred_year ["2024"] = Ok (Some "2024").
Proof. reflexivity. Qed.

Example preferred_2020_2024 :
  get_preferred_year ["2020"; "2024"] = Ok (Some "2020").
Proof. vm_compute. reflexivity. Qed.

Example preferred_none : get_preferred_year [] = Ok None.
Proof. reflexivity. Qed.

(** A year of fewer than four digits is accepted and returned as it is. *)
Example preferred_short_year : get_preferred_year ["99"] = Ok (Some "99").
Proof. reflexivity. Qed.

(** ** Cost aggregator *)

(** C7: when the resolved year is not a key of the mapping, the aggregator
    returns, without raising, the zeroed aggregate: zero total premiums,
    zero total brokerage fees, zero people covered and no plans. *)
Theorem aggregate_year_absent (schedule_a_details : gmap string (list plan))
    (preferred_year : string) :
  schedule_a_details !! preferred_year = None →
  aggregate_schedule_a_data schedule_a_details preferred_year
  = Ok (Aggregate (PInt 0) (PInt 0) 0 []).
Proof.
  intros Habsent. unfold aggregate_schedule_a_data. by rewrite Habsent.
Qed.

Lemma aggregate_year_absent_witness :
  ({[ "2023" := Sample.chunk1 ]} : gmap string (list plan)) !! "2021" = None
  ∧ aggregate_schedule_a_data {[ "2023" := Sample.chunk1 ]} "2021"
    = Ok (Aggregate (PInt 0) (PInt 0) 0 []).
Proof.
  split; [reflexivity|].
  apply (aggregate_year_absent {[ "2023" := Sample.chunk1 ]} "2021").
  reflexivity.
Defined.

Lemma add_plan_detail (acc : aggregate) (p : plan) :
  add_plan acc p
  = (d ← detail p;
     tp ← num_add (total_premiums acc) (PFloat (premiums d));
     tb ← num_add (total_brokerage_fees acc) (PFloat (brokerage_fees d));
     Ok (Aggregate tp tb (total_people_covered acc + people_covered d)
           (plans acc ++ [d])%list)).
Proof.
  unfold add_plan, detail, mbind, result_bind.
  destruct (Float64.of_text _); [|reflexivity].
  destruct (Float64.of_text _); [|reflexivity].
  destruct (Num.int _); reflexivity.
Qed.

Lemma num_add_running (t : pynum) (f : Float64.float) :
  running t → ∃ g, num_add t (PFloat f) = Ok (PFloat g).
Proof.
  intros [->|[g ->]]; eexists; reflexivity.
Qed.

Lemma aggregate_from_app (acc : aggregate) (l1 l2 : list plan) :
  aggregate_from acc (l1 ++ l2)%list
  = (a ← aggregate_from acc l1; aggregate_from a l2).
Proof.
  revert acc. induction l1 as [|p l1 IH]; intros acc; simpl; [reflexivity|].
  unfold mbind, result_bind in *. destruct (add_plan acc p); [apply IH | reflexivity].
Qed.

(** The loop parses every plan, fails on the first one that does not
    parse, and otherwise appends the parsed figures and adds them to the
    running totals, one plan at a time. *)
Lemma aggregate_from_details (l : list plan) (acc : aggregate) :
  running (total_premiums acc) → running (total_brokerage_fees acc) →
  match details l with
  | Ok ds =>
      ∃ w, aggregate_from acc l = Ok w
           ∧ plans w = (plans acc ++ ds)%list
           ∧ total_people_covered w = total_people_covered acc + sum_people ds
           ∧ add_each premiums (total_premiums acc) ds = Ok (total_premiums w)
           ∧ add_each brokerage_fees (total_brokerage_fees acc) ds
             = Ok (total_brokerage_fees w)
           ∧ running (total_premiums w) ∧ running (total_brokerage_fees w)
  | Raise e => aggregate_from acc l = Raise e
  end.
Proof.
  revert acc. induction l as [|p l IH]; intros acc Hp Hb; simpl.
  - exists acc. rewrite app_nil_r. simpl. repeat split; try done; lia.
  - rewrite add_plan_detail. unfold mbind, result_bind.
    destruct (detail p) as [d|e]; [|reflexivity].
    destruct (num_add_running _ (premiums d) Hp) as [g1 Hg1].
    destruct (num_add_running _ (brokerage_fees d) Hb) as [g2 Hg2].
    rewrite Hg1, Hg2.
    set (acc' := Aggregate _ _ _ _).
    specialize (IH acc' (or_intror (ex_intro _ g1 eq_refl))
                        (or_intror (ex_intro _ g2 eq_refl))).
    destruct (details l) as [ds|e]; [|exact IH].
    destruct IH as (w & Hw & Hpl & Hpe & Htp & Htb & Hr1 & Hr2).
    exists w. subst acc'. simpl in *. unfold mbind, result_bind.
    rewrite Hg1, Hg2.
    repeat split; try done.
    + by rewrite Hpl, <- app_assoc.
    + lia.
Qed.

Lemma details_app (l1 l2 : list plan) :
  details (l1 ++ l2)%list
  = (ds1 ← details l1; ds2 ← details l2; Ok (ds1 ++ ds2)%list).
Proof.
  induction l1 as [|p l1 IH]; simpl.
  - unfold mbind, result_bind. destruct (details l2); reflexivity.
  - rewrite IH. unfold mbind, result_bind.
    destruct (detail p); [|reflexivity].
    destruct (details l1); [|reflexivity].
    destruct (details l2); reflexivity.
Qed.

Lemma add_each_app (amount : plan_detail → Float64.float) (t : pynum)
    (ds1 ds2 : list plan_detail) :
  add_each amount t (ds1 ++ ds2)%list
  = (t' ← add_each amount t ds1; add_each amount t' ds2).
Proof.
  revert t. induction ds1 as [|d ds1 IH]; intros t; simpl; [reflexivity|].
  unfold mbind, result_bind in *. destruct (num_add _ _); [apply IH | reflexivity].
Qed.

Lemma sum_people_app (ds1 ds2 : list plan_detail) :
  sum_people (ds1 ++ ds2)%list = sum_people ds1 + sum_people ds2.
Proof.
  unfold sum_people. induction ds1 as [|d ds1 IH]; simpl; [reflexivity|].
  rewrite IH. lia.
Qed.

(** C6, counterexample: for the premiums 0.1, 0.2 and 0.3 the whole list
    totals 0.6000000000000001, while the totals of the chunks [0.1] and
    [0.2, 0.3] add up to 0.6: binary64 addition is not associative. *)
Lemma aggregate_chunks_premiums_differ :
  ∃ whole a1 a2,
    aggregate_schedule_a_data
      {[ "2023" := (Sample.chunk1 ++ Sample.chunk2)%list ]} "2023" = Ok whole
    ∧ aggregate_schedule_a_data {[ "2023" := Sample.chunk1 ]} "2023" = Ok a1
    ∧ aggregate_schedule_a_data {[ "2023" := Sample.chunk2 ]} "2023" = Ok a2
    ∧ total_premiums whole = PFloat (S754_finite false 5404319552844596 (-53))
    ∧ num_add (total_premiums a1) (total_premiums a2)
      = Ok (PFloat (S754_finite false 5404319552844595 (-53)))
    ∧ num_add (total_premiums a1) (total_premiums a2)
      ≠ Ok (total_premiums whole).
Proof.
  eexists _, _, _.
  split; [vm_compute; reflexivity|].
  split; [vm_compute; reflexivity|].
  split; [vm_compute; reflexivity|].
  split; [vm_compute; reflexivity|].
  split; [vm_compute; reflexivity|].
  vm_compute. discriminate.
Qed.

(** C6, amended: for a year's plan list split into two consecutive chunks,
    aggregating the whole list is aggregating the first chunk and carrying
    its running totals on through the second; it succeeds exactly when
    both chunks aggregate; the covered-person total is then the sum of the
    chunks' totals and the plan detail list the concatenation of theirs,
    and the premium and brokerage-fee totals are the first chunk's totals
    with the second chunk's amounts added to them one plan at a time. *)
Theorem aggregate_chunks (whole_details first_details second_details
      : gmap string (list plan))
    (year : string) (chunk1 chunk2 : list plan) :
  whole_details !! year = Some (chunk1 ++ chunk2)%list →
  first_details !! year = Some chunk1 →
  second_details !! year = Some chunk2 →
  aggregate_schedule_a_data whole_details year
  = (a1 ← aggregate_schedule_a_data first_details year;
     aggregate_from a1 chunk2)
  ∧ ((∃ w, aggregate_schedule_a_data whole_details year = Ok w)
     ↔ (∃ a1, aggregate_schedule_a_data first_details year = Ok a1)
       ∧ (∃ a2, aggregate_schedule_a_data second_details year = Ok a2))
  ∧ ∀ w a1 a2,
      aggregate_schedule_a_data whole_details year = Ok w →
      aggregate_schedule_a_data first_details year = Ok a1 →
      aggregate_schedule_a_data second_details year = Ok a2 →
      total_people_covered w
      = total_people_covered a1 + total_people_covered a2
      ∧ plans w = (plans a1 ++ plans a2)%list
      ∧ add_each premiums (total_premiums a1) (plans a2)
        = Ok (total_premiums w)
      ∧ add_each brokerage_fees (total_brokerage_fees a1) (plans a2)
        = Ok (total_brokerage_fees w).
Proof.
  intros Hw H1 H2. unfold aggregate_schedule_a_data. rewrite Hw, H1, H2.
  split; [apply aggregate_from_app|].
  assert (Hz : running (PInt 0)) by (by left).
  pose proof (aggregate_from_details chunk1 zero_aggregate Hz Hz) as A1.
  pose proof (aggregate_from_details chunk2 zero_aggregate Hz Hz) as A2.
  pose proof (aggregate_from_details (chunk1 ++ chunk2) zero_aggregate Hz Hz)
    as A.
  rewrite details_app in A. unfold mbind, result_bind in A.
  destruct (details chunk1) as [ds1|e1].
  - destruct A1 as (a1 & E1 & P1 & N1 & T1 & B1 & _).
    destruct (details chunk2) as [ds2|e2].
    + destruct A2 as (a2 & E2 & P2 & N2 & T2 & B2 & _).
      destruct A as (w & E & P & N & T & B & _).
      rewrite E, E1, E2. simpl in *. split.
      * split; eauto.
      * intros w' a1' a2' [= <-] [= <-] [= <-].
        rewrite P, P1, P2, N, N1, N2, sum_people_app.
        rewrite add_each_app in T, B. rewrite T1 in T. rewrite B1 in B.
        repeat split; try done; lia.
    + rewrite A, A2. split.
      * split; [intros [w [=]] | intros [_ [a2 [=]]]].
      * intros w a1' a2 [=].
  - rewrite A, A1. split.
    + split; [intros [w [=]] | intros [[a1 [=]] _]].
    + intros w a1 a2 [=].
Qed.

Lemma aggregate_chunks_witness :
  ({[ "2023" := (Sample.chunk1 ++ Sample.chunk2)%list ]}
     : gmap string (list plan)) !! "2023"
  = Some (Sample.chunk1 ++ Sample.chunk2)%list
  ∧ ({[ "2023" := Sample.chunk1 ]} : gmap string (list plan)) !! "2023"
    = Some Sample.chunk1
  ∧ ({[ "2023" := Sample.chunk2 ]} : gmap string (list plan)) !! "2023"
    = Some Sample.chunk2
  ∧ ∃ w, aggregate_schedule_a_data
           {[ "2023" := (Sample.chunk1 ++ Sample.chunk2)%list ]} "2023" = Ok w
         ∧ total_people_covered w = 0
         ∧ length (plans w) = 3%nat.
Proof.
  assert (Hw : ({[ "2023" := (Sample.chunk1 ++ Sample.chunk2)%list ]}
                  : gmap string (list plan)) !! "2023"
               = Some (Sample.chunk1 ++ Sample.chunk2)%list) by reflexivity.
  assert (H1 : ({[ "2023" := Sample.chunk1 ]} : gmap string (list plan))
                 !! "2023" = Some Sample.chunk1) by reflexivity.
  assert (H2 : ({[ "2023" := Sample.chunk2 ]} : gmap string (list plan))
                 !! "2023" = Some Sample.chunk2) by reflexivity.
  split; [exact Hw|]. split; [exact H1|]. split; [exact H2|].
  destruct (aggregate_chunks _ _ _ _ _ _ Hw H1 H2) as (_ & Hiff & Hsum).
  destruct (proj2 Hiff) as [w Hw'].
  { split; eexists; vm_compute; reflexivity. }
  exists w. split; [exact Hw'|].
  destruct (Hsum w _ _ Hw' ltac:(vm_compute; reflexivity)
                            ltac:(vm_compute; reflexivity))
    as (Hn & Hp & _).
  split; [exact Hn|]. by rewrite Hp.
Defined.

(** The scenario of the specification: premiums 1000.50 and 2500.00, one
    plan with an empty brokerage field, total 3500.50 in premiums and the
    one brokerage figure in fees. *)
Example aggregate_two_plans :
  ∃ w, aggregate_schedule_a_data {[ "2023" := Sample.two_plans ]} "2023" = Ok w
       ∧ (f ← Float64.of_text "3500.50"; Ok (PFloat f)) = Ok (total_premiums w)
       ∧ (f ← Float64.of_text "75.25"; Ok (PFloat f))
         = Ok (total_brokerage_fees w)
       ∧ total_people_covered w = 42.
Proof. eexists. repeat split; vm_compute; reflexivity. Qed.

(** ** Per-company pipeline *)

Lemma pretty_N_go_nonempty (x : N) (s : string) :
  s ≠ "" → pretty_N_go x s ≠ "".
Proof.
  revert s. induction (N.lt_wf_0 x) as [x _ IH]; intros s Hs.
  destruct (decide (x = 0)%N) as [->|Hx].
  - by rewrite pretty_N_go_0.
  - rewrite pretty_N_go_step by lia. apply IH; [|done].
    apply N.div_lt; lia.
Qed.

Lemma pretty_N_nonempty (x : N) : pretty x ≠ "".
Proof.
  unfold pretty, pretty_N. destruct (decide (x = 0)%N) as [->|Hx]; [done|].
  rewrite pretty_N_go_step by lia. by apply pretty_N_go_nonempty.
Qed.

Lemma str_int_nonempty (n : Z) : Num.str_int n ≠ "".
Proof.
  unfold Num.str_int, pretty, pretty_Z. destruct n as [|p|p]; [done| |done].
  apply pretty_N_nonempty.
Qed.

Lemma parse_years_ok_iff (available_years : list string) :
  (∃ years, parse_years available_years = Ok years)
  ↔ ∀ y, y ∈ available_years → ∃ n, Num.int y = Ok n.
Proof.
  split.
  - intros [years Hok]. apply parse_years_Forall2 in Hok.
    intros y Hy. apply list_elem_of_lookup in Hy as [i Hi].
    destruct (Forall2_lookup_l _ _ _ _ _ Hok Hi) as (n & _ & Hn). eauto.
  - intros Hall. destruct (parse_years available_years) as [ns|e] eqn:Hp;
      [eauto|].
    apply parse_years_raises in Hp as (_ & y & Hin & Hy).
    destruct (Hall y Hin) as [n Hn]. congruence.
Qed.

(** The resolver raises exactly when a year does not parse, and otherwise
    gives a non-empty year text for a non-empty input, none for the empty. *)
Lemma get_preferred_year_cases (available_years : list string) :
  match parse_years available_years with
  | Ok years =>
      ∃ r, get_preferred_year available_years = Ok r
           ∧ (available_years = [] → r = None)
           ∧ (available_years ≠ [] → ∃ y, r = Some y ∧ y ≠ "")
  | Raise e => get_preferred_year available_years = Raise e
  end.
Proof.
  destruct available_years as [|y0 ys].
  { simpl. exists None. repeat split; done. }
  unfold get_preferred_year.
  destruct (parse_years (y0 :: ys)) as [years|e] eqn:Hp; [|reflexivity].
  unfold mbind, result_bind.
  assert (Hne : sort_desc years ≠ []).
  { apply parse_years_Forall2 in Hp. inversion Hp; subst.
    intros Hs. apply (f_equal length) in Hs.
    rewrite sort_desc_length in Hs. discriminate. }
  destruct (bool_decide (2023 ∈ sort_desc years));
    [eexists; repeat split; [done | intros _; eexists; split; done]|].
  destruct (bool_decide (2022 ∈ sort_desc years));
    [eexists; repeat split; [done | intros _; eexists; split; done]|].
  destruct (_ && _);
    [eexists; repeat split; [done | intros _; eexists; split; done]|].
  destruct (find _ _) as [y|].
  { eexists; repeat split; [done | intros _; eexists; split; [done|]].
    apply str_int_nonempty. }
  destruct (sort_desc years) as [|a l]; [done|].
  eexists; repeat split; [done | intros _; eexists; split; [done|]].
  apply str_int_nonempty.
Qed.

Lemma available_years_keys (c : company) (y : string) :
  y ∈ available_years c ↔ is_Some (scheduleA_details c !! y).
Proof.
  unfold available_years. rewrite list_elem_of_fmap. split.
  - intros ([k v] & -> & Hin). apply elem_of_map_to_list in Hin. eauto.
  - intros [v Hv]. exists (y, v). split; [done|].
    by apply elem_of_map_to_list.
Qed.

Lemma available_years_nil (c : company) :
  available_years c = [] ↔ scheduleA_details c = ∅.
Proof.
  unfold available_years. rewrite <- map_to_list_empty_iff. split.
  - apply fmap_nil_inv.
  - by intros ->.
Qed.

(** C8, counterexample: a company whose Schedule A detail has the year key
    "unknown" reaches the resolver with that key, and the conversion
    raises. *)
Lemma unknown_year_raises :
  available_years Sample.unknown_year = ["unknown"]
  ∧ get_preferred_year (available_years Sample.unknown_year) = Raise ValueError
  ∧ process_company_data Sample.unknown_year = Raise ValueError.
Proof. repeat split; vm_compute; reflexivity. Qed.

(** C8, amended: the pipeline hands the Schedule A year keys (and, when
    there are none, the Form 5500 years) to the resolver as they are,
    without normalising them; the resolver's conversion to integer succeeds
    exactly when every one of those year values is an integer numeral, and
    raises [ValueError] otherwise. *)
Theorem resolve_company_year_ok_iff (c : company) :
  (∀ y, y ∈ available_years c ↔ is_Some (scheduleA_details c !! y))
  ∧ ((∃ r, resolve_company_year c = Ok r)
     ↔ (∀ y, is_Some (scheduleA_details c !! y) → ∃ n, Num.int y = Ok n)
       ∧ (scheduleA_details c = ∅ →
          ∀ y, y ∈ form5500_years c → ∃ n, Num.int y = Ok n))
  ∧ ∀ e, resolve_company_year c = Raise e → e = ValueError.
Proof.
  split; [apply available_years_keys|].
  unfold resolve_company_year.
  pose proof (get_preferred_year_cases (available_years c)) as Ha.
  pose proof (get_preferred_year_cases (form5500_years c)) as Hf.
  pose proof (parse_years_ok_iff (available_years c)) as Pa.
  pose proof (parse_years_ok_iff (form5500_years c)) as Pf.
  pose proof (available_years_nil c) as Hnil.
  setoid_rewrite available_years_keys in Pa.
  destruct (parse_years (available_years c)) as [years|e] eqn:Ea.
  - destruct Ha as (r & -> & Hr0 & Hr1). unfold mbind, result_bind.
    assert (Pa' : ∀ y, is_Some (scheduleA_details c !! y) →
                       ∃ n, Num.int y = Ok n) by (apply Pa; eauto).
    destruct (available_years c) as [|a l] eqn:Eav.
    + rewrite (Hr0 eq_refl). cbn [year_given negb].
      assert (Hempty : scheduleA_details c = ∅) by (by apply Hnil).
      destruct (form5500_years c) as [|f fs] eqn:Ef.
      * split; [|congruence]. split; [|eauto].
        intros _. split; [done|]. intros _ y Hy. by apply elem_of_nil in Hy.
      * destruct (parse_years (f :: fs)) as [ys|e] eqn:Ep.
        -- destruct Hf as (r' & -> & _). split; [|congruence].
           split; [|eauto]. intros _. split; [done|]. intros _. apply Pf. eauto.
        -- rewrite Hf. split.
           ++ split; [intros [r' [=]]|]. intros [_ Hall].
              destruct (proj2 Pf (Hall Hempty)) as [ys [=]].
           ++ intros e' [= <-]. by apply parse_years_raises in Ep as [-> _].
    + destruct (Hr1 ltac:(done)) as (y & -> & Hy).
      cbn [year_given]. apply truthy_true_iff in Hy. rewrite Hy. cbn [negb].
      split; [|congruence]. split; [|eauto]. intros _. split; [done|].
      intros Hempty. apply Hnil in Hempty. discriminate.
  - rewrite Ha. unfold mbind, result_bind. split.
    + split; [intros [r [=]]|]. intros [Hall _].
      destruct (proj2 Pa Hall) as [ys [=]].
    + intros e' [= <-]. by apply parse_years_raises in Ea as [-> _].
Qed.

(** * Further properties *)

(** ** Stripping and prefixes *)

Lemma rstrip_idemp (s : string) : Py.rstrip (Py.rstrip s) = Py.rstrip s.
Proof.
  induction s as [|c s IH]; simpl; [done|].
  destruct (Py.rstrip s) as [|d r] eqn:Er.
  - destruct (Py.is_space c) eqn:Ec; simpl; [done|]. by rewrite Ec.
  - simpl in *. by rewrite IH.
Qed.

Lemma lstrip_head (s : string) :
  match Py.lstrip s with
  | EmptyString => True
  | String c _ => Py.is_space c = false
  end.
Proof.
  induction s as [|c s IH]; simpl; [done|].
  destruct (Py.is_space c) eqn:Ec; [exact IH | exact Ec].
Qed.

Lemma rstrip_head (c : ascii) (s : string) :
  Py.is_space c = false → ∃ r, Py.rstrip (String c s) = String c r.
Proof.
  intros Hc. simpl. destruct (Py.rstrip s); [rewrite Hc|]; eauto.
Qed.

(** Stripping twice is stripping once. *)
Lemma strip_idemp (s : string) : Py.strip (Py.strip s) = Py.strip s.
Proof.
  unfold Py.strip. pose proof (lstrip_head s) as Hh.
  destruct (Py.lstrip s) as [|c t] eqn:El; [reflexivity|].
  destruct (rstrip_head c t Hh) as [r Hr]. rewrite Hr.
  cbn [Py.lstrip]. rewrite Hh, <- Hr. apply rstrip_idemp.
Qed.

Lemma substring_length_le (n : nat) (s : string) :
  (n ≤ String.length s)%nat → String.length (substring 0 n s) = n.
Proof.
  revert s. induction n as [|n IH]; intros [|c s] Hn; simpl in *;
    try reflexivity; try lia.
  rewrite IH; [reflexivity | lia].
Qed.

Lemma substring_short (n : nat) (s : string) :
  (String.length s ≤ n)%nat → substring 0 n s = s.
Proof.
  revert s. induction n as [|n IH]; intros [|c s] Hn; simpl in *;
    try reflexivity; try lia.
  rewrite IH; [reflexivity | lia].
Qed.

Lemma year_prefix_truthy (s : string) :
  Py.truthy (Py.year_prefix s) = true →
  String.length (Py.year_prefix s) = 4%nat ∧ Py.year_prefix s = Text.take4 s.
Proof.
  unfold Py.year_prefix, Text.take4.
  destruct (4 <=? String.length s)%nat eqn:El; [|done].
  intros _. apply Nat.leb_le in El. split; [|done].
  by apply substring_length_le.
Qed.

(** ** Schedule-A index builder, continued *)

Lemma any_row_flagged (pick : bool * bool → bool) (d : string) (k : key)
    (rows : list row) :
  any_row pick d k rows = true ↔ flagged pick d k rows.
Proof.
  unfold any_row, flagged. rewrite existsb_exists. split.
  - intros (r & Hin & Hr).
    destruct (contribution d r) as [[k' hs]|] eqn:Hc; [|done].
    apply andb_true_iff in Hr as [Hk Hp]. apply bool_decide_eq_true in Hk as ->.
    exists r, hs. split; [by apply list_elem_of_In | done].
  - intros (r & hs & Hin & Hc & Hp). exists r.
    split; [by apply list_elem_of_In|]. rewrite Hc.
    by rewrite bool_decide_eq_true_2, Hp.
Qed.

Lemma any_row_either (d : string) (k : key) (rows : list row) :
  any_row fst d k rows || any_row snd d k rows
  = any_row (fun hs => hs.1 || hs.2) d k rows.
Proof.
  unfold any_row. induction rows as [|r rows IH]; simpl; [done|].
  rewrite <- IH. destruct (contribution d r) as [[k' [h s]]|]; simpl.
  - destruct (bool_decide (k' = k)), h, s; simpl;
      rewrite ?orb_true_r, ?orb_false_r; try reflexivity;
      by destruct (existsb _ _), (existsb _ _).
  - reflexivity.
Qed.

Lemma contribute_fold_entry_is (d : string) (rows : list row) (k : key) :
  entry_is d rows k (fold_left (contribute d) rows ∅ !! k).
Proof.
  rewrite contribute_fold_lookup, lookup_empty. unfold entry_is, merged.
  pose proof (any_row_flagged fst d k rows) as Hh.
  pose proof (any_row_flagged snd d k rows) as Hs.
  pose proof (any_row_flagged (fun hs => hs.1 || hs.2) d k rows) as He.
  rewrite <- any_row_either in He. simpl.
  destruct (any_row fst d k rows), (any_row snd d k rows); simpl in *;
    (split; [split; [intros _; by apply He | eauto]
            | intros f [= <-]; simpl; by rewrite <- Hh, <- Hs])
    || (split; [split; [by intros [? ?] | intros H; by apply He in H]
               | by intros f]).
Qed.

(** X1: the entry the builder leaves under a key, in either index, exists
    exactly when some row with that key (an employer id, a plan number and
    the year prefix of the index's date) has an indicator set; its health
    flag is set exactly when some such row has the health indicator set,
    and likewise for stop-loss. *)
Theorem build_schedA_index_entry (rows : list row) (k : key) :
  entry_is "SCH_A_PLAN_YEAR_BEGIN_DATE" rows k ((build_schedA_index rows).1 !! k)
  ∧ entry_is "SCH_A_PLAN_YEAR_END_DATE" rows k ((build_schedA_index rows).2 !! k).
Proof.
  rewrite build_schedA_index_split. split; apply contribute_fold_entry_is.
Qed.

Lemma contribution_key_shape (d : string) (r : row) (k : key) (hs : bool * bool) :
  contribution d r = Some (k, hs) →
  k.1.1 ≠ "" ∧ k.1.2 ≠ ""
  ∧ Py.strip k.1.1 = k.1.1 ∧ Py.strip k.1.2 = k.1.2
  ∧ String.length k.2 = 4%nat.
Proof.
  unfold contribution.
  destruct (Py.truthy (Py.strip (Py.or_empty (r !! "SCH_A_EIN")))) eqn:E1;
    [|done].
  destruct (Py.truthy (Py.strip (Py.or_empty (r !! "SCH_A_PLAN_NUM")))) eqn:E2;
    [|done].
  simpl. destruct (Py.truthy (Py.year_prefix _)) eqn:E3; [|done].
  intros [= <- <-]. simpl.
  repeat split; try (by apply truthy_true_iff); try apply strip_idemp.
  by apply year_prefix_truthy.
Qed.

Lemma contribute_fold_entry_shape (d : string) (rows : list row) (k : key)
    (f : flags) :
  fold_left (contribute d) rows ∅ !! k = Some f →
  k.1.1 ≠ "" ∧ k.1.2 ≠ ""
  ∧ Py.strip k.1.1 = k.1.1 ∧ Py.strip k.1.2 = k.1.2
  ∧ String.length k.2 = 4%nat
  ∧ (health f = true ∨ stop f = true).
Proof.
  intros Ho. destruct (contribute_fold_entry_is d rows k) as [H1 H2].
  destruct (proj1 H1 ltac:(by rewrite Ho)) as (r & [h s] & Hin & Hc & Hp).
  destruct (contribution_key_shape d r k _ Hc) as (K1 & K2 & K3 & K4 & K5).
  repeat split; try done.
  destruct (H2 f Ho) as [Hh Hs]. simpl in Hp.
  apply orb_true_iff in Hp as [->| ->].
  - left. apply Hh. exists r, (true, s). done.
  - right. apply Hs. exists r, (h, true). done.
Qed.

(** X2: every key of a built index has a non-empty, stripped employer id
    and plan number and a year of exactly four characters, and every entry
    has at least one flag set: the builder never stores an entry with both
    flags false. *)
Theorem build_schedA_index_entries (rows : list row) (k : key) (f : flags) :
  (build_schedA_index rows).1 !! k = Some f
  ∨ (build_schedA_index rows).2 !! k = Some f →
  k.1.1 ≠ "" ∧ k.1.2 ≠ ""
  ∧ Py.strip k.1.1 = k.1.1 ∧ Py.strip k.1.2 = k.1.2
  ∧ String.length k.2 = 4%nat
  ∧ (health f = true ∨ stop f = true).
Proof.
  rewrite build_schedA_index_split. simpl.
  intros [Hf|Hf]; by apply contribute_fold_entry_shape in Hf.
Qed.

Lemma build_schedA_index_entries_witness :
  ((build_schedA_index [Sample.sched_a "1" "0"]).1
     !! ("12-3456789", "001", "2023") = Some (Flags true false)
   ∨ (build_schedA_index [Sample.sched_a "1" "0"]).2
       !! ("12-3456789", "001", "2023") = Some (Flags true false))
  ∧ String.length "2023" = 4%nat
  ∧ (health (Flags true false) = true ∨ stop (Flags true false) = true).
Proof.
  assert (H : (build_schedA_index [Sample.sched_a "1" "0"]).1
                !! ("12-3456789", "001", "2023") = Some (Flags true false)
              ∨ (build_schedA_index [Sample.sched_a "1" "0"]).2
                  !! ("12-3456789", "001", "2023") = Some (Flags true false))
    by (left; reflexivity).
  split; [exact H|].
  destruct (build_schedA_index_entries _ _ _ H) as (_ & _ & _ & _ & Hl & Hf).
  split; [exact Hl | exact Hf].
Defined.

Lemma contribute_fold_keeps_flags (d : string) (more : list row) (idx : index)
    (k : key) (f : flags) :
  idx !! k = Some f →
  ∃ f', fold_left (contribute d) more idx !! k = Some f'
        ∧ (health f = true → health f' = true)
        ∧ (stop f = true → stop f' = true).
Proof.
  intros Hk. rewrite contribute_fold_lookup, Hk. unfold merged.
  destruct (_ || _); [|by exists f].
  eexists. split; [reflexivity|]. simpl. split; intros ->; reflexivity.
Qed.

(** X3: reading further Schedule A rows never removes an entry and never
    clears a flag: an entry present after some rows is still present after
    any rows that follow, with every flag that was set still set. *)
Theorem build_schedA_index_grows (rows more : list row) (k : key) (f : flags) :
  ((build_schedA_index rows).1 !! k = Some f →
   ∃ f', (build_schedA_index (rows ++ more)).1 !! k = Some f'
         ∧ (health f = true → health f' = true)
         ∧ (stop f = true → stop f' = true))
  ∧ ((build_schedA_index rows).2 !! k = Some f →
     ∃ f', (build_schedA_index (rows ++ more)).2 !! k = Some f'
           ∧ (health f = true → health f' = true)
           ∧ (stop f = true → stop f' = true)).
Proof.
  rewrite !build_schedA_index_split, !fold_left_app. simpl.
  split; apply contribute_fold_keeps_flags.
Qed.

(** ** Funding classifier, continued *)

Lemma resolve_flags_no_id (e p yb ye : string) (bi ei : index) :
  e = "" ∨ p = "" → resolve_flags e p yb ye bi ei = (false, false).
Proof.
  intros [-> | ->]; unfold resolve_flags; simpl; [done|].
  by rewrite andb_false_r.
Qed.

(** X4: a header row without an employer id or without a plan number is
    classified from its own flags alone, whatever the indexes hold: the
    verdict is the one given with empty indexes, and it is never "Insured"
    nor "Self-funded w/ stop-loss". *)
Theorem classify_plan_without_id (header_row : row)
    (sa_begin_idx sa_end_idx : index) :
  Py.strip (Py.or_empty (header_row !! "SPONS_DFE_EIN")) = ""
  ∨ Py.strip (Py.or_empty (header_row !! "SPONS_DFE_PN")) = "" →
  classify_plan header_row sa_begin_idx sa_end_idx = classify_plan header_row ∅ ∅
  ∧ label (classify_plan header_row sa_begin_idx sa_end_idx) ≠ "Insured"
  ∧ label (classify_plan header_row sa_begin_idx sa_end_idx)
    ≠ "Self-funded w/ stop-loss".
Proof.
  intros Hid.
  assert (Heq : classify_plan header_row sa_begin_idx sa_end_idx
                = classify_plan header_row ∅ ∅).
  { unfold classify_plan. by rewrite !(resolve_flags_no_id _ _ _ _ _ _ Hid). }
  split; [exact Heq|].
  rewrite classify_plan_label. cbv zeta. unfold begin_key, end_key. simpl.
  rewrite (resolve_flags_no_id _ _ _ _ _ _ Hid). simpl.
  destruct (general_assets header_row), (insurance header_row),
    (any_scha header_row); simpl; split; discriminate.
Qed.

Lemma classify_plan_without_id_witness :
  (Py.strip (Py.or_empty (Sample.only "BENEFIT_GEN_ASSET_IND" "1"
                            !! "SPONS_DFE_EIN")) = ""
   ∨ Py.strip (Py.or_empty (Sample.only "BENEFIT_GEN_ASSET_IND" "1"
                              !! "SPONS_DFE_PN")) = "")
  ∧ classify_plan (Sample.only "BENEFIT_GEN_ASSET_IND" "1")
      Sample.health_idx.1 Sample.health_idx.2
    = classify_plan (Sample.only "BENEFIT_GEN_ASSET_IND" "1") ∅ ∅.
Proof.
  assert (H : Py.strip (Py.or_empty (Sample.only "BENEFIT_GEN_ASSET_IND" "1"
                            !! "SPONS_DFE_EIN")) = ""
   ∨ Py.strip (Py.or_empty (Sample.only "BENEFIT_GEN_ASSET_IND" "1"
                              !! "SPONS_DFE_PN")) = "")
    by (left; reflexivity).
  split; [exact H|].
  exact (proj1 (classify_plan_without_id _ Sample.health_idx.1
                  Sample.health_idx.2 H)).
Defined.

(** ** Roll-up, continued *)

Lemma label_readings (c : string) :
  c ∈ classification_labels →
  self_funded_like c = bool_decide (c ∈ self_funded_labels)
  ∧ insured_like c = bool_decide (c ∈ insured_labels)
  ∧ (c ∈ self_funded_labels ∨ c ∈ insured_labels
     ∨ c = "Indeterminate (needs Sched A detail)").
Proof.
  unfold classification_labels. rewrite !elem_of_cons, elem_of_nil.
  intros [->|[->|[->|[->|[->|[->|[->|[]]]]]]]];
    (split; [vm_compute; reflexivity|]; split; [vm_compute; reflexivity|]);
    unfold self_funded_labels, insured_labels;
    rewrite !elem_of_cons, !elem_of_nil; tauto.
Qed.

(** X5: over plans classified by [classify_plan], the roll-up reads the
    seven labels as follows: it is "Self-funded (at least one plan)" exactly
    when some plan has one of the four self-funded labels, "Insured"
    exactly when every plan is "Insured" or "Likely insured (needs Sched A
    verification)", and "Mixed/Indeterminate" exactly when no plan has a
    self-funded label and some plan is "Indeterminate (needs Sched A
    detail)". *)
Theorem overall_of_classified (rows : list row) (sa_begin_idx sa_end_idx : index) :
  let classes :=
    map (fun r => label (classify_plan r sa_begin_idx sa_end_idx)) rows in
  (overall_of classes = "Self-funded (at least one plan)"
   ↔ ∃ c, c ∈ classes ∧ c ∈ self_funded_labels)
  ∧ (overall_of classes = "Insured" ↔ ∀ c, c ∈ classes → c ∈ insured_labels)
  ∧ (overall_of classes = "Mixed/Indeterminate"
     ↔ (∀ c, c ∈ classes → c ∉ self_funded_labels)
       ∧ "Indeterminate (needs Sched A detail)" ∈ classes).
Proof.
  intros classes.
  assert (Hcl : ∀ c, c ∈ classes → c ∈ classification_labels).
  { intros c Hc. apply list_elem_of_fmap in Hc as (r & -> & _).
    rewrite classify_plan_label. apply six_rules_labels. }
  assert (He : existsb self_funded_like classes = true
               ↔ ∃ c, c ∈ classes ∧ c ∈ self_funded_labels).
  { rewrite existsb_exists. split.
    - intros (c & Hin & Hc). apply list_elem_of_In in Hin. exists c.
      split; [done|]. destruct (label_readings c (Hcl c Hin)) as (H1 & _).
      rewrite H1 in Hc. by apply bool_decide_eq_true in Hc.
    - intros (c & Hin & Hc). exists c. split; [by apply list_elem_of_In|].
      destruct (label_readings c (Hcl c Hin)) as (H1 & _).
      rewrite H1. by apply bool_decide_eq_true. }
  assert (Hf : forallb insured_like classes = true
               ↔ ∀ c, c ∈ classes → c ∈ insured_labels).
  { rewrite forallb_forall. split.
    - intros Hall c Hin. destruct (label_readings c (Hcl c Hin)) as (_ & H2 & _).
      specialize (Hall c ltac:(by apply list_elem_of_In)).
      rewrite H2 in Hall. by apply bool_decide_eq_true in Hall.
    - intros Hall c Hin. apply list_elem_of_In in Hin.
      destruct (label_readings c (Hcl c Hin)) as (_ & H2 & _).
      rewrite H2. apply bool_decide_eq_true. by apply Hall. }
  assert (Hdisj : ∀ c, c ∈ self_funded_labels → c ∈ insured_labels → False).
  { intros c. unfold self_funded_labels, insured_labels.
    rewrite !elem_of_cons, !elem_of_nil.
    intros [->|[->|[->|[->|[]]]]] [?|[?|[]]]; discriminate. }
  assert (Hind : ("Indeterminate (needs Sched A detail)" ∉ self_funded_labels)
                 ∧ ("Indeterminate (needs Sched A detail)" ∉ insured_labels)).
  { unfold self_funded_labels, insured_labels.
    rewrite !elem_of_cons, !elem_of_nil. split; intros H;
      repeat destruct H as [H|H]; try discriminate; done. }
  unfold overall_of.
  destruct (existsb self_funded_like classes) eqn:E1.
  - destruct (proj1 He eq_refl) as (c & Hin & Hc).
    split; [split; [intros _; eauto | done]|].
    split; [split; [done | intros Hall; destruct (Hdisj c Hc (Hall c Hin))]|].
    split; [done | intros [Hno _]; destruct (Hno c Hin Hc)].
  - assert (Hno : ∀ c, c ∈ classes → c ∉ self_funded_labels).
    { intros c Hin Hc. assert (false = true) by (apply He; eauto).
      discriminate. }
    split.
    { split; [by destruct (forallb _ _)|].
      intros H. apply He in H. discriminate. }
    destruct (forallb insured_like classes) eqn:E2.
    + split; [split; [intros _; by apply Hf | done]|].
      split; [done|]. intros [_ Hi]. destruct (proj2 Hind).
      by apply (proj1 Hf eq_refl).
    + split.
      { split; [done|]. intros H. apply Hf in H. discriminate. }
      split; [intros _ | done]. split; [exact Hno|].
      destruct (decide ("Indeterminate (needs Sched A detail)" ∈ classes))
        as [|Hni]; [done|].
      assert (false = true); [|discriminate].
      apply Hf. intros c Hin.
      destruct (label_readings c (Hcl c Hin)) as (_ & _ & [H|[H|H]]);
        [destruct (Hno c Hin H) | done | subst; done].
Qed.

(** X6: the roll-up depends only on which labels occur, not on their order
    or number: two plan lists with the same set of labels get the same
    overall verdict. *)
Theorem overall_of_same_labels (classes classes' : list string) :
  (∀ c, c ∈ classes ↔ c ∈ classes') →
  overall_of classes = overall_of classes'.
Proof.
  intros Hsame. unfold overall_of.
  assert (He : existsb self_funded_like classes
               = existsb self_funded_like classes').
  { apply eq_true_iff_eq. rewrite !existsb_exists.
    split; intros (c & Hin & Hc); exists c; (split; [|done]);
      apply list_elem_of_In, Hsame; by apply list_elem_of_In. }
  assert (Hf : forallb insured_like classes = forallb insured_like classes').
  { apply eq_true_iff_eq. rewrite !forallb_forall.
    split; intros Hall c Hin; apply Hall;
      apply list_elem_of_In, Hsame; by apply list_elem_of_In. }
  by rewrite He, Hf.
Qed.

Lemma overall_of_same_labels_witness :
  (∀ c, c ∈ ["Insured"; "Self-funded"] ↔ c ∈ ["Self-funded"; "Insured"; "Insured"])
  ∧ overall_of ["Insured"; "Self-funded"]
    = overall_of ["Self-funded"; "Insured"; "Insured"].
Proof.
  assert (H : ∀ c, c ∈ ["Insured"; "Self-funded"]
                   ↔ c ∈ ["Self-funded"; "Insured"; "Insured"]).
  { intros c. rewrite !elem_of_cons, !elem_of_nil. tauto. }
  split; [exact H|]. exact (overall_of_same_labels _ _ H).
Defined.

(** ** The classifier's entry point *)

Lemma main_loop_app (a : Cli.args) (bi ei : index) (rows : list row)
    (plans : list plan_entry) :
  main_loop a bi ei rows plans
  = (es ← main_loop a bi ei rows []; Ok (plans ++ es)%list).
Proof.
  revert plans. induction rows as [|r rows IH]; intros plans; simpl.
  - by rewrite app_nil_r.
  - unfold mbind, result_bind in *.
    destruct (main_row a bi ei r) as [[x|]|e]; [| |reflexivity].
    + rewrite (IH (plans ++ [x])%list), (IH [x]).
      destruct (main_loop a bi ei rows []); [|reflexivity].
      simpl. by rewrite <- app_assoc.
    + apply IH.
Qed.

Lemma year_is_raises (x : string) (y : Z) (e : exn) :
  year_is x y = Raise e → e = ValueError.
Proof.
  unfold year_is, mbind, result_bind. destruct (Text.isdigit x); [|done].
  destruct (Num.int x) as [n|e'] eqn:Hn; [done|].
  intros [= <-]. by apply int_raises_ValueError in Hn.
Qed.

Lemma year_ok_raises (r : row) (y : Z) (e : exn) :
  year_ok r y = Raise e → e = ValueError.
Proof.
  unfold year_ok, mbind, result_bind.
  destruct (year_is _ y) as [[]|e'] eqn:H1; [done | apply year_is_raises |].
  intros [= <-]. by apply year_is_raises in H1.
Qed.

Lemma main_row_raises (a : Cli.args) (bi ei : index) (r : row) (e : exn) :
  main_row a bi ei r = Raise e → e = ValueError.
Proof.
  unfold main_row, mbind, result_bind.
  destruct (negb (sponsor_matches a r)); [done|].
  destruct (match Cli.year a with Some y => year_ok r y | None => Ok true end)
    as [ok|e'] eqn:Hy.
  - destruct (negb ok); [done|]. by destruct (negb (_ || _)).
  - intros [= <-]. destruct (Cli.year a); [|done].
    by apply year_ok_raises in Hy.
Qed.

Lemma keeps_entry (a : Cli.args) (bi ei : index) (r : row) :
  main_row a bi ei r
  = if passes a bi ei r
    then Ok (if keeps a bi ei r then Some (entry_of r bi ei) else None)
    else Raise ValueError.
Proof.
  unfold passes, keeps.
  destruct (main_row a bi ei r) as [[x|]|e] eqn:Hm; [| reflexivity |].
  - f_equal. f_equal. unfold main_row in Hm.
    destruct (negb (sponsor_matches a r)); [done|].
    unfold mbind, result_bind in Hm.
    destruct (match Cli.year a with Some y => year_ok r y | None => Ok true end)
      as [ok|]; [|done].
    destruct (negb ok); [done|]. destruct (negb (_ || _)); [done|].
    by injection Hm as <-.
  - by apply main_row_raises in Hm as ->.
Qed.

(** The loop from the empty list: the entries of the kept rows, in order,
    unless some row raises. *)
Lemma main_loop_filter (a : Cli.args) (bi ei : index) (rows : list row) :
  main_loop a bi ei rows []
  = if forallb (passes a bi ei) rows
    then Ok (map (fun r => entry_of r bi ei) (List.filter (keeps a bi ei) rows))
    else Raise ValueError.
Proof.
  induction rows as [|r rows IH]; simpl; [reflexivity|].
  rewrite keeps_entry. unfold mbind, result_bind.
  destruct (passes a bi ei r); simpl; [|reflexivity].
  rewrite main_loop_app, IH. unfold mbind, result_bind.
  destruct (forallb (passes a bi ei) rows); [|by destruct (keeps a bi ei r)].
  by destruct (keeps a bi ei r).
Qed.

Lemma main_unfold (a : Cli.args) (scheda headers : list row) :
  main a scheda headers
  = (plans ← main_loop a (build_schedA_index scheda).1
               (build_schedA_index scheda).2 headers [];
     Ok (overall_classification plans, plans)).
Proof. unfold main. by destruct (build_schedA_index scheda). Qed.

Lemma keeps_iff (a : Cli.args) (bi ei : index) (r : row) :
  keeps a bi ei r = true
  ↔ sponsor_matches a r = true
    ∧ (∀ y, Cli.year a = Some y → year_ok r y = Ok true)
    ∧ (has_health_4A (Py.get_default r "TYPE_WELFARE_BNFT_CODE" "") = true
       ∨ filter_health r bi ei = true).
Proof.
  unfold keeps, main_row, mbind, result_bind.
  destruct (sponsor_matches a r); simpl; [|split; [done | by intros [? _]]].
  rewrite <- orb_true_iff.
  destruct (Cli.year a) as [y|].
  - destruct (year_ok r y) as [[]|e] eqn:Hy; simpl.
    + destruct (_ || _); simpl.
      * split; [|done]. intros _. split; [done|]. split; [|done].
        intros ? [= <-]. exact Hy.
      * split; [done | by intros (_ & _ & ?)].
    + split; [done|]. intros (_ & H & _). specialize (H y eq_refl). congruence.
    + split; [done|]. intros (_ & H & _). specialize (H y eq_refl). congruence.
  - destruct (_ || _); simpl.
    + split; [|done]. intros _. split; [done|]. split; [|done]. by intros ?.
    + split; [done | by intros (_ & _ & ?)].
Qed.

(** X7: when [main] completes, the plans it reports are the verdicts of
    [classify_plan] for exactly the header rows that match the sponsor,
    pass the year test when a year is given, and have a 4A benefit code or
    Schedule A health coverage, in the order of the file; the overall
    outcome is the roll-up of these plans, and it is the "no medical plans"
    outcome exactly when no row is kept. *)
Theorem main_report (a : Cli.args) (scheda headers : list row)
    (out : rollup) (plans : list plan_entry) :
  main a scheda headers = Ok (out, plans) →
  let bi := (build_schedA_index scheda).1 in
  let ei := (build_schedA_index scheda).2 in
  plans = map (fun r => entry_of r bi ei) (List.filter (keeps a bi ei) headers)
  ∧ out = overall_classification plans
  ∧ (out = NoMedicalPlans ↔ ∀ r, r ∈ headers → keeps a bi ei r = false)
  ∧ ∀ r, keeps a bi ei r = true
         ↔ sponsor_matches a r = true
           ∧ (∀ y, Cli.year a = Some y → year_ok r y = Ok true)
           ∧ (has_health_4A (Py.get_default r "TYPE_WELFARE_BNFT_CODE" "") = true
              ∨ filter_health r bi ei = true).
Proof.
  intros Hm bi ei. rewrite main_unfold, main_loop_filter in Hm.
  fold bi ei in Hm. unfold mbind, result_bind in Hm.
  destruct (forallb (passes a bi ei) headers); [|done].
  injection Hm as <- <-.
  split; [reflexivity|]. split; [reflexivity|].
  split; [|intros r; apply keeps_iff].
  set (kept := List.filter (keeps a bi ei) headers).
  assert (Hk : kept = [] ↔ ∀ r, r ∈ headers → keeps a bi ei r = false).
  { subst kept. split.
    - intros Hnil r Hin. destruct (keeps a bi ei r) eqn:Hr; [|done].
      assert (In r (List.filter (keeps a bi ei) headers))
        by (apply filter_In; split; [by apply list_elem_of_In | done]).
      rewrite Hnil in H. done.
    - intros Hall. induction headers as [|r rs IH]; simpl; [done|].
      rewrite (Hall r) by left. apply IH. intros r' Hr'. apply Hall. by right. }
  rewrite <- Hk. destruct kept; simpl; split; congruence.
Qed.

Lemma main_report_witness :
  main (Cli.Args "" false None false) [Sample.sched_a "1" "0"] [Sample.header]
  = Ok (Overall "Insured",
        [entry_of Sample.header Sample.health_idx.1 Sample.health_idx.2])
  ∧ [entry_of Sample.header Sample.health_idx.1 Sample.health_idx.2]
    = map (fun r => entry_of r Sample.health_idx.1 Sample.health_idx.2)
        (List.filter (keeps (Cli.Args "" false None false)
                        Sample.health_idx.1 Sample.health_idx.2)
           [Sample.header]).
Proof.
  assert (H : main (Cli.Args "" false None false) [Sample.sched_a "1" "0"]
                [Sample.header]
              = Ok (Overall "Insured",
                    [entry_of Sample.header Sample.health_idx.1
                       Sample.health_idx.2]))
    by (vm_compute; reflexivity).
  split; [exact H|].
  exact (proj1 (main_report _ _ _ _ _ H)).
Defined.

(** *** When the year test raises *)

Lemma ascii_digit_char (c : ascii) :
  Text.digit_char c = true → (N_of_ascii c <? 128)%N = true →
  (∃ d, Num.digit_val c = Some d)
  ∧ Num.is_underscore c = false
  ∧ Num.is_blank c = false
  ∧ ∀ s, Num.split_sign (String c s) = (false, String c s).
Proof.
  destruct c as [[] [] [] [] [] [] [] []]; vm_compute; intros H1 H2;
    try discriminate; (split; [eexists; reflexivity|]); repeat split.
Qed.

Lemma superscript_digit_char (c : ascii) :
  Text.digit_char c = true → (N_of_ascii c <? 128)%N = false →
  Num.digit_val c = None
  ∧ Num.is_underscore c = false
  ∧ Num.is_blank c = false
  ∧ ∀ s, Num.split_sign (String c s) = (false, String c s).
Proof.
  destruct c as [[] [] [] [] [] [] [] []]; vm_compute; intros H1 H2;
    try discriminate; repeat split.
Qed.

Lemma rtrim_digit_chars (s : string) :
  Text.all_digit_chars s = true → Num.rtrim s = s.
Proof.
  induction s as [|c s IH]; simpl; [done|].
  intros [Hc Hs]%andb_true_iff. rewrite (IH Hs).
  destruct s; [|done].
  destruct (N_of_ascii c <? 128)%N eqn:Hn.
  - by destruct (ascii_digit_char c Hc Hn) as (_ & _ & -> & _).
  - by destruct (superscript_digit_char c Hc Hn) as (_ & _ & -> & _).
Qed.

Lemma trim_digit_chars (s : string) :
  Text.all_digit_chars s = true → Num.trim s = s.
Proof.
  intros Hs. unfold Num.trim.
  assert (Hl : Num.ltrim s = s).
  { destruct s as [|c s]; [done|]. simpl in *.
    apply andb_true_iff in Hs as [Hc _].
    destruct (N_of_ascii c <? 128)%N eqn:Hn.
    - by destruct (ascii_digit_char c Hc Hn) as (_ & _ & -> & _).
    - by destruct (superscript_digit_char c Hc Hn) as (_ & _ & -> & _). }
  rewrite Hl. by apply rtrim_digit_chars.
Qed.

Lemma digits_go_ascii (s : string) (acc : Z) (n : nat) :
  Text.all_digit_chars s = true → ascii_only s = true →
  ∃ v, Num.digits_go acc n false s = Some (v, (n + String.length s)%nat).
Proof.
  revert acc n. induction s as [|c s IH]; intros acc n; simpl.
  - intros _ _. exists acc. by rewrite Nat.add_0_r.
  - intros [Hc Hs]%andb_true_iff [Hn Ha]%andb_true_iff.
    destruct (ascii_digit_char c Hc Hn) as ([d ->] & -> & _).
    destruct (IH (10 * acc + d) (S n) Hs Ha) as [v ->].
    exists v. do 2 f_equal. lia.
Qed.

Lemma digits_go_superscript (s : string) (acc : Z) (n : nat) (us : bool) :
  Text.all_digit_chars s = true → ascii_only s = false →
  Num.digits_go acc n us s = None.
Proof.
  revert acc n us. induction s as [|c s IH]; intros acc n us; simpl; [done|].
  intros [Hc Hs]%andb_true_iff Ha.
  destruct (N_of_ascii c <? 128)%N eqn:Hn; simpl in Ha.
  - destruct (ascii_digit_char c Hc Hn) as ([d ->] & -> & _). by apply IH.
  - by destruct (superscript_digit_char c Hc Hn) as (-> & -> & _).
Qed.

(** On a text of ASCII digits [int] gives a number. *)
Lemma int_ascii_digits (x : string) :
  Text.isdigit x = true → ascii_only x = true →
  (String.length x ≤ Num.max_str_digits)%nat →
  ∃ n, Num.int x = Ok n.
Proof.
  unfold Text.isdigit. intros [Ht Hd]%andb_true_iff Ha Hlen.
  unfold Num.int. rewrite (trim_digit_chars x Hd).
  destruct x as [|c s]; [done|]. simpl in Hd, Ha.
  apply andb_true_iff in Hd as [Hc Hs]. apply andb_true_iff in Ha as [Hn Ha].
  destruct (ascii_digit_char c Hc Hn) as ([d Hdv] & _ & _ & ->).
  unfold Num.digitpart. rewrite Hdv.
  destruct (digits_go_ascii s d 1 Hs Ha) as [v ->].
  simpl in Hlen.
  destruct (_ <? _)%nat eqn:Hcap; [apply Nat.ltb_lt in Hcap; lia | eauto].
Qed.

(** On a text of digits one of which is a superscript [int] raises. *)
Lemma int_superscript (x : string) :
  Text.isdigit x = true → ascii_only x = false → Num.int x = Raise ValueError.
Proof.
  unfold Text.isdigit. intros [Ht Hd]%andb_true_iff Ha.
  unfold Num.int. rewrite (trim_digit_chars x Hd).
  destruct x as [|c s]; [done|]. simpl in Hd, Ha.
  apply andb_true_iff in Hd as [Hc Hs].
  destruct (N_of_ascii c <? 128)%N eqn:Hn; simpl in Ha.
  - destruct (ascii_digit_char c Hc Hn) as ([d Hdv] & _ & _ & ->).
    unfold Num.digitpart. rewrite Hdv.
    by rewrite (digits_go_superscript s d 1 false Hs Ha).
  - destruct (superscript_digit_char c Hc Hn) as (Hdv & _ & _ & ->).
    unfold Num.digitpart. by rewrite Hdv.
Qed.

Lemma take4_ascii_only (s : string) :
  ascii_only s = true → ascii_only (Text.take4 s) = true.
Proof.
  unfold Text.take4. generalize 4%nat. intros n. revert s.
  induction n as [|n IH]; intros [|c s]; simpl; try done.
  intros [Hc Hs]%andb_true_iff. by rewrite Hc, IH.
Qed.

Lemma take4_length (s : string) : (String.length (Text.take4 s) ≤ 4)%nat.
Proof.
  unfold Text.take4. generalize 4%nat. intros n. revert s.
  induction n as [|n IH]; intros [|c s]; simpl; try lia.
  specialize (IH s). lia.
Qed.

Lemma year_is_ascii (x : string) (y : Z) :
  ascii_only x = true → (String.length x ≤ 4)%nat →
  ∃ b, year_is x y = Ok b.
Proof.
  intros Ha Hl. unfold year_is. destruct (Text.isdigit x) eqn:Hd; [|eauto].
  destruct (int_ascii_digits x Hd Ha) as [n ->];
    [unfold Num.max_str_digits; lia|].
  simpl. eauto.
Qed.

(** X8: [main] never raises when no year is asked for, nor when the two
    date cells of every header row hold only ASCII characters: it then
    returns an outcome and a plan list. *)
Theorem main_completes (a : Cli.args) (scheda headers : list row) :
  (Cli.year a = None
   ∨ ∀ r, r ∈ headers →
          ascii_only (Py.or_empty (r !! "FORM_PLAN_YEAR_BEGIN_DATE")) = true
          ∧ ascii_only (Py.or_empty (r !! "FORM_TAX_PRD")) = true) →
  ∃ out plans, main a scheda headers = Ok (out, plans).
Proof.
  intros Hsafe. rewrite main_unfold, main_loop_filter.
  set (bi := (build_schedA_index scheda).1).
  set (ei := (build_schedA_index scheda).2).
  assert (Hall : forallb (passes a bi ei) headers = true).
  { apply forallb_forall. intros r Hin%list_elem_of_In.
    unfold passes, main_row, mbind, result_bind.
    destruct (negb (sponsor_matches a r)); [done|].
    destruct (Cli.year a) as [y|] eqn:Hy.
    - destruct Hsafe as [|Hascii]; [done|].
      destruct (Hascii r Hin) as [Hb He].
      unfold year_ok, mbind, result_bind.
      destruct (year_is_ascii _ y (take4_ascii_only _ Hb) (take4_length _))
        as [b1 ->].
      destruct (year_is_ascii _ y (take4_ascii_only _ He) (take4_length _))
        as [b2 ->].
      destruct b1; simpl; [by destruct (negb _)|].
      destruct (negb b2); [done|]. by destruct (negb _).
    - simpl. by destruct (negb _). }
  rewrite Hall. simpl. eauto.
Qed.

Lemma main_completes_witness :
  (Cli.year (Cli.Args "acme" false None false) = None
   ∨ ∀ r, r ∈ [superscript_header] →
          ascii_only (Py.or_empty (r !! "FORM_PLAN_YEAR_BEGIN_DATE")) = true
          ∧ ascii_only (Py.or_empty (r !! "FORM_TAX_PRD")) = true)
  ∧ ∃ out plans,
      main (Cli.Args "acme" false None false) [] [superscript_header]
      = Ok (out, plans).
Proof.
  assert (H : Cli.year (Cli.Args "acme" false None false) = None
   ∨ ∀ r, r ∈ [superscript_header] →
          ascii_only (Py.or_empty (r !! "FORM_PLAN_YEAR_BEGIN_DATE")) = true
          ∧ ascii_only (Py.or_empty (r !! "FORM_TAX_PRD")) = true)
    by (left; reflexivity).
  split; [exact H|]. exact (main_completes _ [] [superscript_header] H).
Defined.

(** X9: with a year filter, a header row of a matching sponsor makes
    [main] raise [ValueError] when the first four characters of its begin
    date all pass [str.isdigit] and one of them is not an ASCII digit (a
    superscript digit): [int] rejects what [isdigit] accepted. *)
Theorem main_raises_on_superscript (a : Cli.args) (scheda headers : list row)
    (r : row) (y : Z) :
  Cli.year a = Some y →
  r ∈ headers →
  sponsor_matches a r = true →
  Text.isdigit (Text.take4 (Py.or_empty (r !! "FORM_PLAN_YEAR_BEGIN_DATE")))
  = true →
  ascii_only (Text.take4 (Py.or_empty (r !! "FORM_PLAN_YEAR_BEGIN_DATE")))
  = false →
  main a scheda headers = Raise ValueError.
Proof.
  intros Hy Hin Hs Hd Ha. rewrite main_unfold, main_loop_filter.
  set (bi := (build_schedA_index scheda).1).
  set (ei := (build_schedA_index scheda).2).
  assert (Hr : passes a bi ei r = false).
  { unfold passes, main_row, mbind, result_bind. rewrite Hs, Hy. simpl.
    unfold year_ok, year_is, mbind, result_bind.
    by rewrite Hd, (int_superscript _ Hd Ha). }
  assert (Hall : forallb (passes a bi ei) headers = false).
  { destruct (forallb (passes a bi ei) headers) eqn:Hf; [|done].
    rewrite forallb_forall in Hf.
    rewrite (Hf r) in Hr by (by apply list_elem_of_In). done. }
  by rewrite Hall.
Qed.

Lemma main_raises_on_superscript_witness :
  Cli.year (Cli.Args "acme" false (Some 2023) false) = Some 2023
  ∧ superscript_header ∈ [superscript_header]
  ∧ sponsor_matches (Cli.Args "acme" false (Some 2023) false)
      superscript_header = true
  ∧ Text.isdigit (Text.take4 (Py.or_empty
       (superscript_header !! "FORM_PLAN_YEAR_BEGIN_DATE"))) = true
  ∧ ascii_only (Text.take4 (Py.or_empty
       (superscript_header !! "FORM_PLAN_YEAR_BEGIN_DATE"))) = false
  ∧ main (Cli.Args "acme" false (Some 2023) false) [] [superscript_header]
    = Raise ValueError.
Proof.
  assert (H2 : superscript_header ∈ [superscript_header]) by left.
  split; [reflexivity|]. split; [exact H2|].
  split; [reflexivity|]. split; [reflexivity|]. split; [reflexivity|].
  exact (main_raises_on_superscript (Cli.Args "acme" false (Some 2023) false)
           [] [superscript_header] superscript_header 2023
           eq_refl H2 eq_refl eq_refl eq_refl).
Defined.

(** *** The loop's health lookup and the classifier's *)

Lemma six_rules_insured (h s g i t : bool) :
  six_rules h s g i t = "Insured" ↔ h = true.
Proof. destruct h, s, g, i, t; simpl; split; congruence. Qed.

Lemma health_at_built (d : string) (scheda : list row) (e p dt : string) :
  Py.strip dt = dt →
  health_at (fold_left (contribute d) scheda ∅) (e, p, Text.take4 dt)
  = if Py.truthy (Py.year_prefix (Py.strip dt))
    then health (coverage_at (fold_left (contribute d) scheda ∅)
                   (e, p, Py.year_prefix (Py.strip dt)))
    else false.
Proof.
  intros ->. unfold health_at, coverage_at.
  destruct (Py.truthy (Py.year_prefix dt)) eqn:Et.
  - destruct (year_prefix_truthy dt Et) as [_ ->].
    by destruct (_ !! _).
  - destruct (_ !! _) as [f|] eqn:Hf; [|done].
    apply contribute_fold_entry_shape in Hf as (_ & _ & _ & _ & Hl & _).
    simpl in Hl. unfold Py.year_prefix in Et.
    destruct (4 <=? String.length dt)%nat eqn:E4.
    + unfold Text.take4 in Hl. apply Nat.leb_le in E4.
      pose proof (substring_length_le 4 dt E4) as Hs.
      destruct (substring 0 4 dt); [discriminate | done].
    + apply Nat.leb_gt in E4. unfold Text.take4 in Hl.
      rewrite substring_short in Hl by lia. lia.
Qed.

(** X10: on the indexes built from the Schedule A rows, and for a header
    row whose two date cells carry no leading or trailing white space, the
    health lookup that decides whether the loop keeps a row agrees with the
    classifier: it finds health coverage exactly when the row is
    classified "Insured". *)
Theorem filter_health_insured (scheda : list row) (r : row) :
  Py.strip (Py.or_empty (r !! "FORM_PLAN_YEAR_BEGIN_DATE"))
  = Py.or_empty (r !! "FORM_PLAN_YEAR_BEGIN_DATE") →
  Py.strip (Py.or_empty (r !! "FORM_TAX_PRD"))
  = Py.or_empty (r !! "FORM_TAX_PRD") →
  filter_health r (build_schedA_index scheda).1 (build_schedA_index scheda).2
  = true
  ↔ label (classify_plan r (build_schedA_index scheda).1
             (build_schedA_index scheda).2) = "Insured".
Proof.
  intros Hb He. rewrite classify_plan_label. cbv zeta.
  rewrite six_rules_insured.
  rewrite build_schedA_index_split. simpl.
  unfold filter_health, resolve_flags.
  rewrite (health_at_built _ scheda _ _ _ Hb), (health_at_built _ scheda _ _ _ He).
  destruct (Py.truthy _ && Py.truthy _); [|done].
  do 2 destruct (Py.truthy (Py.year_prefix _));
    rewrite ?absorb_coverage_at; simpl; rewrite ?orb_false_r; reflexivity.
Qed.

Lemma filter_health_insured_witness :
  Py.strip (Py.or_empty (Sample.header !! "FORM_PLAN_YEAR_BEGIN_DATE"))
  = Py.or_empty (Sample.header !! "FORM_PLAN_YEAR_BEGIN_DATE")
  ∧ Py.strip (Py.or_empty (Sample.header !! "FORM_TAX_PRD"))
    = Py.or_empty (Sample.header !! "FORM_TAX_PRD")
  ∧ label (classify_plan Sample.header
             (build_schedA_index [Sample.sched_a "1" "0"]).1
             (build_schedA_index [Sample.sched_a "1" "0"]).2) = "Insured".
Proof.
  split; [reflexivity|]. split; [reflexivity|].
  exact (proj1 (filter_health_insured [Sample.sched_a "1" "0"] Sample.header
                  eq_refl eq_refl) eq_refl).
Defined.

(** With a blank before the dates the two lookups part: the loop looks
    under the year " 202" and finds nothing, the classifier strips the
    dates and finds the health entry of 2023. *)
Example padded_date_lookups_differ :
  filter_health padded_header Sample.health_idx.1 Sample.health_idx.2 = false
  ∧ label (classify_plan padded_header Sample.health_idx.1 Sample.health_idx.2)
    = "Insured".
Proof. split; reflexivity. Qed.

(** *** Sponsor matching *)

Lemma prefix_refl (s : string) : String.prefix s s = true.
Proof.
  induction s as [|c s IH]; simpl; [done|].
  by destruct (Ascii.ascii_dec c c).
Qed.

Lemma contains_refl (s : string) : Text.contains s s = true.
Proof. destruct s; cbn [Text.contains]; by rewrite prefix_refl. Qed.

Lemma contains_empty (s : string) : Text.contains "" s = true.
Proof. by destruct s. Qed.

Lemma sponsor_matches_exact (c : string) (y : option Z) (d d' : bool) (r : row) :
  sponsor_matches (Cli.Args c true y d) r = true →
  sponsor_matches (Cli.Args c false y d') r = true.
Proof.
  unfold sponsor_matches. simpl. intros ->%bool_decide_eq_true.
  apply contains_refl.
Qed.

Lemma filter_sublist {A} (p q : A → bool) (l : list A) :
  (∀ x, p x = true → q x = true) →
  List.filter p l `sublist_of` List.filter q l.
Proof.
  intros Hpq. induction l as [|x l IH]; simpl; [constructor|].
  destruct (p x) eqn:Hp.
  - rewrite (Hpq x Hp). by constructor.
  - destruct (q x); [by constructor | done].
Qed.

(** X11: for the same query, year and files, the plans reported in exact
    mode are a sub-list of those reported in containment mode, in the same
    order. *)
Theorem main_exact_sublist (c : string) (y : option Z) (d d' : bool)
    (scheda headers : list row) (out out' : rollup)
    (plans plans' : list plan_entry) :
  main (Cli.Args c true y d) scheda headers = Ok (out, plans) →
  main (Cli.Args c false y d') scheda headers = Ok (out', plans') →
  plans `sublist_of` plans'.
Proof.
  rewrite !main_unfold, !main_loop_filter. unfold mbind, result_bind.
  destruct (forallb _ headers); [|done].
  destruct (forallb _ headers); [|done].
  intros [= _ <-] [= _ <-].
  apply (fmap_sublist (fun r => entry_of r _ _)), filter_sublist. intros r.
  rewrite !keeps_iff. simpl. intros (Hs & Hy & Hh).
  split; [by eapply sponsor_matches_exact | done].
Qed.

Lemma main_exact_sublist_witness :
  main (Cli.Args "" true None false) [Sample.sched_a "1" "0"] [Sample.header]
  = Ok (Overall "Insured",
        [entry_of Sample.header Sample.health_idx.1 Sample.health_idx.2])
  ∧ main (Cli.Args "" false None false) [Sample.sched_a "1" "0"] [Sample.header]
    = Ok (Overall "Insured",
          [entry_of Sample.header Sample.health_idx.1 Sample.health_idx.2])
  ∧ [entry_of Sample.header Sample.health_idx.1 Sample.health_idx.2]
    `sublist_of`
    [entry_of Sample.header Sample.health_idx.1 Sample.health_idx.2].
Proof.
  assert (H1 : main (Cli.Args "" true None false) [Sample.sched_a "1" "0"]
                 [Sample.header]
               = Ok (Overall "Insured",
                     [entry_of Sample.header Sample.health_idx.1
                        Sample.health_idx.2]))
    by (vm_compute; reflexivity).
  assert (H2 : main (Cli.Args "" false None false) [Sample.sched_a "1" "0"]
                 [Sample.header]
               = Ok (Overall "Insured",
                     [entry_of Sample.header Sample.health_idx.1
                        Sample.health_idx.2]))
    by (vm_compute; reflexivity).
  split; [exact H1|]. split; [exact H2|].
  exact (main_exact_sublist _ _ _ _ _ _ _ _ _ _ H1 H2).
Defined.

Lemma lower_char_space (c : ascii) :
  Py.is_space (Text.lower_char c) = Py.is_space c.
Proof. destruct c as [[] [] [] [] [] [] [] []]; reflexivity. Qed.

Lemma lower_char_idemp (c : ascii) :
  Text.lower_char (Text.lower_char c) = Text.lower_char c.
Proof. destruct c as [[] [] [] [] [] [] [] []]; reflexivity. Qed.

Lemma lower_idemp (s : string) : Text.lower (Text.lower s) = Text.lower s.
Proof.
  induction s as [|c s IH]; simpl; [done|]. by rewrite lower_char_idemp, IH.
Qed.

Lemma lstrip_lower (s : string) :
  Py.lstrip (Text.lower s) = Text.lower (Py.lstrip s).
Proof.
  induction s as [|c s IH]; simpl; [done|].
  rewrite lower_char_space. by destruct (Py.is_space c).
Qed.

Lemma rstrip_lower (s : string) :
  Py.rstrip (Text.lower s) = Text.lower (Py.rstrip s).
Proof.
  induction s as [|c s IH]; simpl; [done|].
  rewrite IH, lower_char_space.
  destruct (Py.rstrip s); simpl; [by destruct (Py.is_space c) | done].
Qed.

Lemma strip_lower (s : string) :
  Py.strip (Text.lower s) = Text.lower (Py.strip s).
Proof. unfold Py.strip. by rewrite lstrip_lower, rstrip_lower. Qed.

Lemma or_text_empty (s : string) : or_text (Py.PStr s) "" = s.
Proof. by destruct s. Qed.

(** X12: normalising is idempotent, so the sponsor test only sees the
    normal form of the company query: replacing the query by its stripped,
    lower-case form changes no match, in either mode. *)
Theorem sponsor_matches_norm (c : string) (e : bool) (y : option Z) (d : bool)
    (r : row) :
  norm (Py.PStr (norm (Py.PStr c))) = norm (Py.PStr c)
  ∧ sponsor_matches (Cli.Args (norm (Py.PStr c)) e y d) r
    = sponsor_matches (Cli.Args c e y d) r.
Proof.
  assert (Hn : norm (Py.PStr (norm (Py.PStr c))) = norm (Py.PStr c)).
  { unfold norm. rewrite !or_text_empty.
    by rewrite strip_lower, strip_idemp, lower_idemp. }
  split; [exact Hn|]. unfold sponsor_matches. simpl. by rewrite Hn.
Qed.

(** ** Integers and their decimal texts *)

Lemma digit_val_bound (c : ascii) (d : Z) :
  Num.digit_val c = Some d → 0 ≤ d < 10.
Proof.
  unfold Num.digit_val.
  destruct ((48 <=? N_of_ascii c)%N && (N_of_ascii c <=? 57)%N) eqn:E; [|done].
  apply andb_true_iff in E as [E1%N.leb_le E2%N.leb_le]. intros [= <-]. lia.
Qed.

Lemma digits_go_bound (s : string) (acc : Z) (n : nat) (us : bool)
    (v : Z) (m : nat) :
  Num.digits_go acc n us s = Some (v, m) →
  0 ≤ acc < 10 ^ Z.of_nat n → 0 ≤ v < 10 ^ Z.of_nat m.
Proof.
  revert acc n us. induction s as [|c s IH]; intros acc n us; simpl.
  - destruct us; [done|]. by intros [= <- <-].
  - destruct (Num.is_underscore c).
    + destruct us; [done|]. apply IH.
    + destruct (Num.digit_val c) as [d|] eqn:Hd; [|done].
      intros Hgo Hacc. apply (IH _ _ _ Hgo).
      apply digit_val_bound in Hd.
      rewrite Nat2Z.inj_succ, Z.pow_succ_r by lia. lia.
Qed.

(** A text that [int] accepts denotes a number of at most
    [max_str_digits] digits. *)
Lemma int_bound (s : string) (n : Z) :
  Num.int s = Ok n → Z.abs n < 10 ^ Z.of_nat Num.max_str_digits.
Proof.
  unfold Num.int. destruct (Num.split_sign _) as [neg body].
  destruct (Num.digitpart body) as [[v m]|] eqn:Hd; [|done].
  destruct (Num.max_str_digits <? m)%nat eqn:Hcap; [done|].
  apply Nat.ltb_ge in Hcap. intros [= <-].
  assert (Hv : 0 ≤ v < 10 ^ Z.of_nat m).
  { unfold Num.digitpart in Hd. destruct body as [|c t]; [done|].
    destruct (Num.digit_val c) as [d|] eqn:Hdv; [|done].
    apply (digits_go_bound _ _ _ _ _ _ Hd).
    apply digit_val_bound in Hdv. simpl. lia. }
  assert (10 ^ Z.of_nat m ≤ 10 ^ Z.of_nat Num.max_str_digits)
    by (apply Z.pow_le_mono_r; lia).
  destruct neg; lia.
Qed.

Lemma pretty_N_char_digit (y : N) :
  (y < 10)%N →
  Num.digit_val (pretty_N_char y) = Some (Z.of_N y)
  ∧ Text.digit_char (pretty_N_char y) = true
  ∧ (N_of_ascii (pretty_N_char y) <? 128)%N = true.
Proof.
  intros Hy.
  assert (y = 0 ∨ y = 1 ∨ y = 2 ∨ y = 3 ∨ y = 4 ∨ y = 5 ∨ y = 6 ∨ y = 7
          ∨ y = 8 ∨ y = 9)%N as H by lia.
  repeat destruct H as [->|H]; try subst y; repeat split.
Qed.

Lemma pretty_N_go_digit_chars (x : N) (s : string) :
  Text.all_digit_chars s = true → ascii_only s = true →
  Text.all_digit_chars (pretty_N_go x s) = true
  ∧ ascii_only (pretty_N_go x s) = true.
Proof.
  revert s. induction (N.lt_wf_0 x) as [x _ IH]; intros s Hs Ha.
  destruct (decide (x = 0)%N) as [->|Hx].
  - by rewrite pretty_N_go_0.
  - rewrite pretty_N_go_step by lia.
    apply IH; [apply N.div_lt; lia | |]; simpl;
      destruct (pretty_N_char_digit (x `mod` 10)) as (_ & H1 & H2);
      try (apply N.mod_lt; lia); by rewrite ?H1, ?H2.
Qed.

(** Reading back the digits that [pretty_N_go] writes. *)
Lemma digitpart_pretty_N_go (x : N) :
  (0 < x)%N →
  ∃ L : nat, 10 ^ (Z.of_nat L - 1) ≤ Z.of_N x ∧ (1 ≤ L)%nat
    ∧ ∀ s, Num.digitpart (pretty_N_go x s)
           = Num.digits_go (Z.of_N x) L false s.
Proof.
  induction (N.lt_wf_0 x) as [x _ IH]. intros Hx.
  destruct (pretty_N_char_digit (x `mod` 10)) as (Hd & Hc & Hn);
    [apply N.mod_lt; lia|].
  destruct (ascii_digit_char _ Hc Hn) as (_ & Hu & _).
  destruct (decide (x `div` 10 = 0)%N) as [Hq|Hq].
  - exists 1%nat. split; [simpl; lia|]. split; [lia|]. intros s.
    rewrite pretty_N_go_step, Hq, pretty_N_go_0 by lia.
    unfold Num.digitpart. rewrite Hd.
    assert (x `mod` 10 = x)%N as ->; [|done].
    pose proof (N.div_mod x 10 ltac:(lia)) as Hdm. rewrite Hq in Hdm.
    rewrite N.mul_0_r, N.add_0_l in Hdm. done.
  - destruct (IH (x `div` 10)%N) as (L & HL & HL1 & Hgo);
      [apply N.div_lt; lia | by apply N.neq_0_lt_0 |].
    exists (S L). split; [|split; [lia|]].
    + replace (Z.of_nat (S L) - 1) with (Z.succ (Z.of_nat L - 1)) by lia.
      rewrite Z.pow_succ_r by lia.
      pose proof (N.div_mod x 10 ltac:(lia)) as Hdm.
      assert (Hz : Z.of_N x = 10 * Z.of_N (x `div` 10) + Z.of_N (x `mod` 10)).
      { rewrite Hdm at 1. by rewrite N2Z.inj_add, N2Z.inj_mul. }
      pose proof (N2Z.is_nonneg (x `mod` 10)) as Hr.
      revert HL Hz Hr. generalize (10 ^ (Z.of_nat L - 1)) (Z.of_N x)
        (Z.of_N (x `div` 10)) (Z.of_N (x `mod` 10)). clear. intros. lia.
    + intros s. rewrite pretty_N_go_step, Hgo by lia.
      cbn [Num.digits_go]. rewrite Hu, Hd. f_equal.
      pose proof (N.div_mod x 10 ltac:(lia)) as Hdm. rewrite Hdm at 3.
      by rewrite N2Z.inj_add, N2Z.inj_mul.
Qed.

Lemma int_pretty_pos (p : positive) (neg : bool) :
  Z.pos p < 10 ^ Z.of_nat Num.max_str_digits →
  Num.int ((if neg then "-" else "") +:+ pretty (N.pos p))
  = Ok (if neg then Z.neg p else Z.pos p).
Proof.
  intros Hb. unfold pretty, pretty_N.
  rewrite decide_False by done.
  destruct (digitpart_pretty_N_go (N.pos p) ltac:(lia)) as (L & HL & HL1 & Hgo).
  destruct (pretty_N_go_digit_chars (N.pos p) "" eq_refl eq_refl) as [Hd Ha].
  pose proof (pretty_N_go_nonempty (N.pos p) "1") as Hne.
  assert (Hcap : (Num.max_str_digits <? L)%nat = false).
  { apply Nat.ltb_ge. destruct (le_lt_dec L Num.max_str_digits) as [|Hgt]; [done|].
    assert (10 ^ Z.of_nat Num.max_str_digits ≤ 10 ^ (Z.of_nat L - 1))
      by (apply Z.pow_le_mono_r; lia).
    simpl in HL. lia. }
  specialize (Hgo ""). simpl in Hgo.
  destruct (pretty_N_go (N.pos p) "") as [|c s] eqn:Hs.
  { rewrite pretty_N_go_step in Hs by lia.
    by apply pretty_N_go_nonempty in Hs. }
  simpl in Hd, Ha. apply andb_true_iff in Hd as [Hc Hds].
  apply andb_true_iff in Ha as [Hn Has].
  destruct (ascii_digit_char c Hc Hn) as (_ & _ & Hbl & Hsign).
  assert (Htrim : Num.trim (String c s) = String c s).
  { apply trim_digit_chars. simpl. by rewrite Hc, Hds. }
  unfold Num.int. destruct neg.
  - assert (Num.trim ("-" +:+ String c s) = "-" +:+ String c s) as ->.
    { unfold Num.trim. change ("-" +:+ String c s) with (String "-" (String c s)).
      cbn [Num.ltrim]. change (Num.is_blank "-") with false. cbn iota.
      unfold Num.trim in Htrim. cbn [Num.ltrim] in Htrim. rewrite Hbl in Htrim.
      change (Num.rtrim (String "-" (String c s)))
        with (match Num.rtrim (String c s) with
              | EmptyString => "-"
              | String a0 s0 => String "-" (String a0 s0)
              end).
      by rewrite Htrim. }
    change (Num.split_sign ("-" +:+ String c s)) with (true, String c s).
    cbn iota. rewrite Hgo, Hcap. simpl. reflexivity.
  - change ("" +:+ String c s) with (String c s).
    rewrite Htrim, Hsign, Hgo, Hcap. reflexivity.
Qed.

(** Within the digit cap, [int(str(n))] is [n]. *)
Lemma int_str_int (n : Z) :
  Z.abs n < 10 ^ Z.of_nat Num.max_str_digits →
  Num.int (Num.str_int n) = Ok n.
Proof.
  intros Hb. unfold Num.str_int, pretty at 1, pretty_Z.
  destruct n as [|p|p].
  - reflexivity.
  - apply (int_pretty_pos p false). lia.
  - apply (int_pretty_pos p true). lia.
Qed.

(** ** Year preference resolver, continued *)

Lemma get_preferred_year_pick (y0 : string) (ys : list string) :
  get_preferred_year (y0 :: ys)
  = (years ← parse_years (y0 :: ys); pick_year (sort_desc years)).
Proof. reflexivity. Qed.

(** On a non-empty sorted list the choice only needs the greatest year
    that is not 2024. *)
Lemma pick_year_greatest (l : list Z) :
  l ≠ [] →
  pick_year l
  = if bool_decide (2023 ∈ l) then Ok (Some "2023")
    else if bool_decide (2022 ∈ l) then Ok (Some "2022")
    else Ok (Some (match find (fun year => negb (year =? 2024)) l with
                   | Some m => Num.str_int m
                   | None => "2024"
                   end)).
Proof.
  intros Hne. unfold pick_year.
  destruct (bool_decide (2023 ∈ l)); [done|].
  destruct (bool_decide (2022 ∈ l)); [done|].
  destruct ((length l =? 1)%nat && bool_decide (2024 ∈ l)) eqn:Ec.
  - apply andb_true_iff in Ec as [El%Nat.eqb_eq E24%bool_decide_eq_true].
    destruct l as [|a [|b l]]; try discriminate.
    apply list_elem_of_singleton in E24 as <-. reflexivity.
  - destruct (find _ l) as [m|] eqn:Ef; [done|].
    destruct l as [|a l]; [done|].
    pose proof (find_none_all _ _ Ef a ltac:(left)) as Ha.
    apply negb_false_iff, Z.eqb_eq in Ha. by subst.
Qed.

Lemma find_not_2024_same (l l' : list Z) :
  StronglySorted desc l → StronglySorted desc l' →
  (∀ n, n ∈ l ↔ n ∈ l') →
  find (fun year => negb (year =? 2024)) l
  = find (fun year => negb (year =? 2024)) l'.
Proof.
  intros Hs Hs' Hsame.
  destruct (find _ l) as [m|] eqn:Ef, (find _ l') as [m'|] eqn:Ef'.
  - destruct (find_desc_greatest _ _ _ Hs Ef) as (Hin & Hp & Hmax).
    destruct (find_desc_greatest _ _ _ Hs' Ef') as (Hin' & Hp' & Hmax').
    f_equal. apply Z.le_antisymm.
    + apply Hmax'; [by apply Hsame | done].
    + apply Hmax; [by apply Hsame | done].
  - destruct (find_desc_greatest _ _ _ Hs Ef) as (Hin & Hp & _).
    rewrite (find_none_all _ _ Ef' m) in Hp by (by apply Hsame). done.
  - destruct (find_desc_greatest _ _ _ Hs' Ef') as (Hin & Hp & _).
    rewrite (find_none_all _ _ Ef m') in Hp by (by apply Hsame). done.
  - done.
Qed.

Lemma parse_years_nil (ys : list string) (years : list Z) :
  parse_years ys = Ok years → (ys = [] ↔ years = []).
Proof.
  intros H%parse_years_Forall2. inversion H; subst; split; congruence.
Qed.

(** X13: the resolver only looks at which years occur: two lists of year
    strings that denote the same set of integers, in any order and with
    any repetitions or spellings, get the same answer. *)
Theorem get_preferred_year_same_years (ys ys' : list string)
    (years years' : list Z) :
  Forall2 (fun y n => Num.int y = Ok n) ys years →
  Forall2 (fun y n => Num.int y = Ok n) ys' years' →
  (∀ n, n ∈ years ↔ n ∈ years') →
  get_preferred_year ys = get_preferred_year ys'.
Proof.
  intros Hp%parse_years_Forall2 Hp'%parse_years_Forall2 Hsame.
  pose proof (parse_years_nil _ _ Hp) as Hn.
  pose proof (parse_years_nil _ _ Hp') as Hn'.
  assert (Hnil : years = [] ↔ years' = []).
  { split; intros ->.
    - destruct years' as [|a l]; [done|].
      assert (H : a ∈ @nil Z) by (apply Hsame; left). by apply elem_of_nil in H.
    - destruct years as [|a l]; [done|].
      assert (H : a ∈ @nil Z) by (apply Hsame; left). by apply elem_of_nil in H. }
  destruct ys as [|y0 ys].
  { assert (ys' = []) as -> by (apply Hn', Hnil, Hn; done). done. }
  destruct ys' as [|y0' ys'].
  { assert (y0 :: ys = []) by (apply Hn, Hnil, Hn'; done). done. }
  rewrite !get_preferred_year_pick, Hp, Hp'. unfold mbind, result_bind.
  assert (Hne : sort_desc years ≠ []).
  { intros H%(f_equal length). rewrite sort_desc_length in H.
    destruct years; [|done]. discriminate (proj2 Hn eq_refl). }
  assert (Hne' : sort_desc years' ≠ []).
  { intros H%(f_equal length). rewrite sort_desc_length in H.
    destruct years'; [|done]. discriminate (proj2 Hn' eq_refl). }
  assert (Hs : ∀ n, n ∈ sort_desc years ↔ n ∈ sort_desc years')
    by (intros n; by rewrite !sort_desc_elem).
  rewrite !pick_year_greatest by done.
  rewrite (bool_decide_ext _ _ (Hs 2023)), (bool_decide_ext _ _ (Hs 2022)).
  by rewrite (find_not_2024_same _ _ (sort_desc_sorted _) (sort_desc_sorted _) Hs).
Qed.

Lemma get_preferred_year_same_years_witness :
  Forall2 (fun y n => Num.int y = Ok n) ["2024"; "02021"] [2024; 2021]
  ∧ Forall2 (fun y n => Num.int y = Ok n) ["2021"; "2024"; " 2024"]
      [2021; 2024; 2024]
  ∧ (∀ n, n ∈ [2024; 2021] ↔ n ∈ [2021; 2024; 2024])
  ∧ get_preferred_year ["2024"; "02021"]
    = get_preferred_year ["2021"; "2024"; " 2024"].
Proof.
  assert (H1 : Forall2 (fun y n => Num.int y = Ok n) ["2024"; "02021"]
                 [2024; 2021]) by (repeat constructor).
  assert (H2 : Forall2 (fun y n => Num.int y = Ok n) ["2021"; "2024"; " 2024"]
                 [2021; 2024; 2024]) by (repeat constructor).
  assert (H3 : ∀ n, n ∈ [2024; 2021] ↔ n ∈ [2021; 2024; 2024]).
  { intros n. rewrite !elem_of_cons, !elem_of_nil. tauto. }
  split; [exact H1|]. split; [exact H2|]. split; [exact H3|].
  exact (get_preferred_year_same_years _ _ _ _ H1 H2 H3).
Defined.

Lemma pick_year_result (l : list Z) (y : string) :
  pick_year l = Ok (Some y) → ∃ n, n ∈ l ∧ y = Num.str_int n.
Proof.
  unfold pick_year.
  destruct (bool_decide (2023 ∈ l)) eqn:E23.
  { intros [= <-]. apply bool_decide_eq_true in E23. by exists 2023. }
  destruct (bool_decide (2022 ∈ l)) eqn:E22.
  { intros [= <-]. apply bool_decide_eq_true in E22. by exists 2022. }
  destruct (_ && _) eqn:Ec.
  { intros [= <-]. apply andb_true_iff in Ec as [_ E24%bool_decide_eq_true].
    by exists 2024. }
  destruct (find _ l) as [m|] eqn:Ef.
  { intros [= <-]. exists m. split; [|done].
    apply find_some in Ef as [Hin _]. by apply list_elem_of_In. }
  destruct l as [|a l]; [done|]. intros [= <-]. exists a. split; [left | done].
Qed.

(** X14: a year the resolver returns is the decimal text of one of the
    candidates: some input string denotes an integer whose [str] is the
    result, and reading the result back with [int] gives that integer. *)
Theorem get_preferred_year_candidate (available_years : list string)
    (y : string) :
  get_preferred_year available_years = Ok (Some y) →
  ∃ k n, k ∈ available_years ∧ Num.int k = Ok n
         ∧ y = Num.str_int n ∧ Num.int y = Ok n.
Proof.
  intros Hy. destruct available_years as [|y0 ys]; [done|].
  rewrite get_preferred_year_pick in Hy. unfold mbind, result_bind in Hy.
  destruct (parse_years (y0 :: ys)) as [years|] eqn:Hp; [|done].
  apply pick_year_result in Hy as (n & Hin & ->).
  rewrite sort_desc_elem in Hin. apply parse_years_Forall2 in Hp.
  apply list_elem_of_lookup in Hin as [i Hi].
  destruct (Forall2_lookup_r _ _ _ _ _ Hp Hi) as (k & Hk & Hkn).
  exists k, n. split; [by eapply list_elem_of_lookup_2|].
  split; [done|]. split; [done|].
  apply int_str_int. by eapply int_bound.
Qed.

Lemma get_preferred_year_candidate_witness :
  get_preferred_year ["02021"; "2024"] = Ok (Some "2021")
  ∧ ∃ k n, k ∈ ["02021"; "2024"] ∧ Num.int k = Ok n
           ∧ "2021" = Num.str_int n ∧ Num.int "2021" = Ok n.
Proof.
  assert (H : get_preferred_year ["02021"; "2024"] = Ok (Some "2021"))
    by (vm_compute; reflexivity).
  split; [exact H|]. exact (get_preferred_year_candidate _ _ H).
Defined.

(** X15: the resolver raises exactly when some year string is not an
    integer numeral, and then it raises [ValueError]; it never raises
    [IndexError]. *)
Theorem get_preferred_year_raises (available_years : list string) (e : exn) :
  get_preferred_year available_years = Raise e
  ↔ e = ValueError
    ∧ ∃ y, y ∈ available_years ∧ Num.int y = Raise ValueError.
Proof.
  pose proof (get_preferred_year_cases available_years) as Hc.
  destruct (parse_years available_years) as [years|e'] eqn:Hp.
  - destruct Hc as (r & -> & _). split; [done|].
    intros (_ & y & Hin & Hy).
    destruct (proj1 (parse_years_ok_iff available_years)
                (ex_intro _ years Hp) y Hin) as [n Hn].
    congruence.
  - rewrite Hc. apply parse_years_raises in Hp as (-> & y & Hin & Hy).
    split.
    + intros [= <-]. eauto.
    + by intros [-> _].
Qed.

(** ** Cost aggregator, continued *)

Lemma of_text_raises (s : string) (e : exn) :
  Float64.of_text s = Raise e → e = ValueError.
Proof.
  unfold Float64.of_text. destruct (Num.split_sign _) as [neg body].
  destruct (_ || _); [done|]. destruct (bool_decide _); [done|].
  destruct (Float64.floatnumber body) as [[m e10]|]; [done|]. congruence.
Qed.

Lemma detail_raises (p : plan) (e : exn) :
  detail p = Raise e ↔ e = ValueError ∧ unparsable p.
Proof.
  unfold detail, unparsable, mbind, result_bind.
  destruct (Float64.of_text (or_text (Py.get_default p "totalCharges" "0") "0"))
    as [f1|e1] eqn:H1.
  - destruct (Float64.of_text
                (or_text (Py.get_default p "brokerCommission" "0") "0"))
      as [f2|e2] eqn:H2.
    + destruct (Num.int (or_text (Py.get_default p "personsCovered" "0") "0"))
        as [n|e3] eqn:H3.
      * split; [done|]. intros (_ & [|[|]]); done.
      * apply int_raises_ValueError in H3 as ->.
        split; [intros [= <-] | intros [-> _]]; auto.
    + apply of_text_raises in H2 as ->.
      split; [intros [= <-] | intros [-> _]]; auto.
  - apply of_text_raises in H1 as ->.
    split; [intros [= <-] | intros [-> _]]; auto.
Qed.

Lemma details_raises (l : list plan) (e : exn) :
  details l = Raise e ↔ e = ValueError ∧ ∃ p, p ∈ l ∧ unparsable p.
Proof.
  revert e. induction l as [|p l IH]; intros e; simpl.
  - split; [done|]. intros (_ & p & Hin & _). by apply elem_of_nil in Hin.
  - unfold mbind, result_bind. destruct (detail p) as [d|e'] eqn:Hd.
    + destruct (details l) as [ds|e''].
      * split; [done|]. intros (-> & q & Hin & Hq).
        apply elem_of_cons in Hin as [->|Hin].
        -- assert (detail p = Raise ValueError) by (by apply detail_raises).
           congruence.
        -- assert (@Ok (list plan_detail) ds = Raise ValueError); [|done].
           apply IH. eauto.
      * destruct (proj1 (IH e'') eq_refl) as (-> & q & Hin & Hq). split.
        -- intros [= <-]. split; [done|]. exists q. split; [by right | done].
        -- by intros [-> _].
    + apply detail_raises in Hd as [-> Hp]. split.
      * intros [= <-]. split; [done|]. exists p. split; [left | done].
      * by intros [-> _].
Qed.

Lemma details_Forall2 (l : list plan) (ds : list plan_detail) :
  details l = Ok ds → Forall2 (fun p d => detail p = Ok d) l ds.
Proof.
  revert ds. induction l as [|p l IH]; intros ds; simpl.
  - intros [= <-]. constructor.
  - unfold mbind, result_bind. destruct (detail p) as [d|] eqn:Hd; [|done].
    destruct (details l) as [ds'|]; [|done]. intros [= <-].
    constructor; [done | by apply IH].
Qed.

Lemma blank_default (p : plan) (k : string) :
  blank (p !! k) → or_text (Py.get_default p k "0") "0" = "0".
Proof.
  unfold Py.get_default. by intros [->|[->| ->]].
Qed.

Lemma blank_parses (p : plan) :
  blank (p !! "totalCharges") → blank (p !! "brokerCommission") →
  blank (p !! "personsCovered") → ¬ unparsable p.
Proof.
  intros H1 H2 H3. unfold unparsable.
  rewrite !blank_default by done. intros [H|[H|H]]; discriminate.
Qed.

(** X16: the aggregator raises exactly when the resolved year has a plan
    record one of whose figures does not parse (total charges or broker
    commission rejected by [float], persons covered rejected by [int]),
    and the exception is then [ValueError]; blank and missing figures never
    make it raise. *)
Theorem aggregate_raises (schedule_a_details : gmap string (list plan))
    (preferred_year : string) (e : exn) :
  (aggregate_schedule_a_data schedule_a_details preferred_year = Raise e
   ↔ e = ValueError
     ∧ ∃ year_data p,
         schedule_a_details !! preferred_year = Some year_data
         ∧ p ∈ year_data ∧ unparsable p)
  ∧ ∀ p : plan,
      blank (p !! "totalCharges") → blank (p !! "brokerCommission") →
      blank (p !! "personsCovered") → ¬ unparsable p.
Proof.
  split; [|apply blank_parses].
  unfold aggregate_schedule_a_data.
  destruct (schedule_a_details !! preferred_year) as [year_data|].
  - pose proof (aggregate_from_details year_data zero_aggregate
                  (or_introl eq_refl) (or_introl eq_refl)) as Ha.
    pose proof (details_raises year_data) as Hd.
    destruct (details year_data) as [ds|e'].
    + destruct Ha as (w & -> & _). split; [done|].
      intros (-> & yd & p & [= <-] & Hin & Hp).
      assert (@Ok (list plan_detail) ds = Raise ValueError); [|done].
      apply Hd. eauto.
    + rewrite Ha. destruct (proj1 (Hd e') eq_refl) as (-> & p & Hin & Hp).
      split.
      * intros [= <-]. split; [done|]. eauto.
      * by intros [-> _].
  - split; [done|]. by intros (_ & yd & p & [=] & _).
Qed.

(** X17: when the aggregator succeeds on a year, its plan list holds the
    parsed figures of the year's plan records, one for one and in order,
    and its totals are those of that list: the people total is the sum of
    the listed counts, and the premium and fee totals are the listed
    amounts added up from 0 in list order. *)
Theorem aggregate_consistent (schedule_a_details : gmap string (list plan))
    (preferred_year : string) (year_data : list plan) (w : aggregate) :
  schedule_a_details !! preferred_year = Some year_data →
  aggregate_schedule_a_data schedule_a_details preferred_year = Ok w →
  Forall2 (fun p d => detail p = Ok d) year_data (plans w)
  ∧ total_people_covered w = sum_people (plans w)
  ∧ add_each premiums (PInt 0) (plans w) = Ok (total_premiums w)
  ∧ add_each brokerage_fees (PInt 0) (plans w) = Ok (total_brokerage_fees w).
Proof.
  intros Hy. unfold aggregate_schedule_a_data. rewrite Hy.
  pose proof (aggregate_from_details year_data zero_aggregate
                (or_introl eq_refl) (or_introl eq_refl)) as Ha.
  destruct (details year_data) as [ds|e'] eqn:Hd; [|congruence].
  destruct Ha as (w' & -> & Hp & Hn & Ht & Hb & _). intros [= <-].
  simpl in *. subst ds. split; [by apply details_Forall2|].
  split; [lia|]. done.
Qed.

Lemma aggregate_consistent_witness :
  ({[ "2023" := Sample.two_plans ]} : gmap string (list plan)) !! "2023"
  = Some Sample.two_plans
  ∧ ∃ w, aggregate_schedule_a_data {[ "2023" := Sample.two_plans ]} "2023"
         = Ok w
         ∧ total_people_covered w = sum_people (plans w)
         ∧ length (plans w) = 2%nat.
Proof.
  assert (H : ({[ "2023" := Sample.two_plans ]} : gmap string (list plan))
                !! "2023" = Some Sample.two_plans) by reflexivity.
  split; [exact H|].
  destruct (aggregate_schedule_a_data {[ "2023" := Sample.two_plans ]} "2023")
    as [w|] eqn:Hw; [|by vm_compute in Hw].
  exists w. split; [reflexivity|].
  destruct (aggregate_consistent _ _ _ _ H Hw) as (HF & Hn & _).
  split; [exact Hn|]. apply Forall2_length in HF. by rewrite <- HF.
Defined.

(** ** Participants and the per-company pipeline, continued *)

Lemma participants_fold (l : list record5500) (acc : Z) :
  fold_left (fun total r =>
               match active_participants r with
               | Some n => if n =? 0 then total else total + n
               | None => total
               end) l acc
  = acc + sum_participants l.
Proof.
  revert acc. induction l as [|r l IH]; intros acc; simpl; [lia|].
  rewrite IH. unfold participants_of.
  destruct (active_participants r) as [n|]; simpl; [|lia].
  destruct (n =? 0) eqn:En; [apply Z.eqb_eq in En|]; lia.
Qed.

Lemma sum_participants_app (l1 l2 : list record5500) :
  sum_participants (l1 ++ l2) = sum_participants l1 + sum_participants l2.
Proof.
  unfold sum_participants. induction l1 as [|r l1 IH]; simpl; [done|].
  rewrite IH. lia.
Qed.

(** X18: the participant total of a year is the sum of the counts of that
    year's records, a record without a count adding nothing and a year
    without records giving 0; so, the counts being integers, the total of
    a record list is the sum of the totals of any two chunks it is split
    into. *)
Theorem get_total_participants_sum
    (form5500_records : gmap string (list record5500)) (preferred_year : string) :
  get_total_participants form5500_records preferred_year
  = sum_participants (default [] (form5500_records !! preferred_year))
  ∧ ∀ l1 l2,
      form5500_records !! preferred_year = Some (l1 ++ l2)%list →
      get_total_participants form5500_records preferred_year
      = get_total_participants (<[preferred_year := l1]> form5500_records)
          preferred_year
        + get_total_participants (<[preferred_year := l2]> form5500_records)
            preferred_year.
Proof.
  assert (Hs : ∀ m y, get_total_participants m y
                      = sum_participants (default [] (m !! y))).
  { intros m y. unfold get_total_participants.
    destruct (m !! y) as [l|]; simpl; [|done].
    by rewrite participants_fold. }
  split; [apply Hs|]. intros l1 l2 Hy.
  rewrite !Hs, Hy, !lookup_insert_eq. simpl. apply sum_participants_app.
Qed.

Lemma get_preferred_year_nonempty (l : list string) (y : string) :
  get_preferred_year l = Ok (Some y) → y ≠ "".
Proof.
  intros Hy. pose proof (get_preferred_year_cases l) as Hc.
  destruct (parse_years l); [|congruence].
  destruct Hc as (r & Hr & H0 & H1). rewrite Hy in Hr. injection Hr as <-.
  destruct l as [|k0 l]; [by specialize (H0 eq_refl)|].
  destruct (H1 ltac:(done)) as (y' & [= <-] & Hne). done.
Qed.

Lemma resolve_company_year_nonempty (c : company) (y : string) :
  resolve_company_year c = Ok (Some y) → Py.truthy y = true.
Proof.
  unfold resolve_company_year, mbind, result_bind.
  destruct (get_preferred_year (available_years c)) as [[y1|]|] eqn:H1;
    [| |done].
  - pose proof (get_preferred_year_nonempty _ _ H1) as Hne.
    apply truthy_true_iff in Hne. cbn [year_given]. rewrite Hne. cbn [negb].
    by intros [= <-].
  - cbn [year_given negb]. destruct (form5500_years c) as [|f fs]; [done|].
    intros H2. by apply truthy_true_iff, (get_preferred_year_nonempty _ _ H2).
Qed.

Lemma process_company_data_shape (c : company) (p : processed) :
  process_company_data c = Ok p →
  resolve_company_year c = Ok (data_year p)
  ∧ (has_data p = true
     ↔ ∃ y, data_year p = Some y ∧ is_Some (scheduleA_details c !! y))
  ∧ (∀ y, has_data p = true → data_year p = Some y →
          aggregate_schedule_a_data (scheduleA_details c) y
          = Ok (Aggregate (p_total_premiums p) (p_total_brokerage_fees p)
                  (p_total_people_covered p) (p_plans p)))
  ∧ (has_data p = false →
     p_total_premiums p = PInt 0 ∧ p_total_brokerage_fees p = PInt 0
     ∧ p_total_people_covered p = 0 ∧ p_plans p = [])
  ∧ total_participants p
    = match data_year p with
      | Some y => get_total_participants (form5500_records c) y
      | None => 0
      end.
Proof.
  unfold process_company_data, mbind, result_bind.
  destruct (resolve_company_year c) as [oy|] eqn:Hr; [|done].
  assert (Hg : year_given oy = match oy with Some _ => true | None => false end).
  { destruct oy as [y|]; [|done]. simpl.
    by apply (resolve_company_year_nonempty c). }
  rewrite Hg.
  destruct oy as [y|]; simpl.
  - destruct (bool_decide (is_Some (scheduleA_details c !! y))) eqn:Hk.
    + apply bool_decide_eq_true in Hk.
      destruct (aggregate_schedule_a_data (scheduleA_details c) y)
        as [[tp tb n pl]|] eqn:Ha; [|done].
      intros [= <-]. simpl. repeat split; try done; eauto.
      intros ? _ [= <-]. done.
    + apply bool_decide_eq_false in Hk. intros [= <-]. simpl.
      repeat split; try done. intros (y' & [= <-] & Hy'). done.
  - intros [= <-]. simpl. repeat split; try done. by intros (y' & [=] & _).
Qed.

(** X19: what a processed company says: its year is the one the resolution
    settled on; [has_data] holds exactly when that year is a key of the
    Schedule A detail, and then the totals and plans are the aggregate of
    that year; otherwise the totals are zero and the plan list is empty;
    the participant total is that of the chosen year in either case. *)
Theorem process_company_data_outcome (c : company) (p : processed) :
  process_company_data c = Ok p →
  resolve_company_year c = Ok (data_year p)
  ∧ (has_data p = true
     ↔ ∃ y, data_year p = Some y ∧ is_Some (scheduleA_details c !! y))
  ∧ (∀ y, has_data p = true → data_year p = Some y →
          aggregate_schedule_a_data (scheduleA_details c) y
          = Ok (Aggregate (p_total_premiums p) (p_total_brokerage_fees p)
                  (p_total_people_covered p) (p_plans p)))
  ∧ (has_data p = false →
     p_total_premiums p = PInt 0 ∧ p_total_brokerage_fees p = PInt 0
     ∧ p_total_people_covered p = 0 ∧ p_plans p = [])
  ∧ total_participants p
    = match data_year p with
      | Some y => get_total_participants (form5500_records c) y
      | None => 0
      end.
Proof. apply process_company_data_shape. Qed.

Lemma process_company_data_outcome_witness :
  ∃ p, process_company_data with_2023 = Ok p
       ∧ resolve_company_year with_2023 = Ok (data_year p)
       ∧ data_year p = Some "2023".
Proof.
  destruct (process_company_data with_2023) as [p|] eqn:Hp;
    [|by vm_compute in Hp].
  exists p. split; [reflexivity|].
  destruct (process_company_data_outcome _ _ Hp) as (Hr & _).
  split; [exact Hr|].
  assert (Hy : resolve_company_year with_2023 = Ok (Some "2023"))
    by (vm_compute; reflexivity).
  rewrite Hy in Hr. by injection Hr as <-.
Defined.

(** X20: when the Schedule A detail is not empty and every year key is
    written in canonical decimal form (the text [str] gives for the integer
    it denotes), the year chosen is one of the keys, so a company that
    processes has data. *)
Theorem process_company_data_canonical (c : company) (p : processed) :
  scheduleA_details c ≠ ∅ →
  (∀ k, is_Some (scheduleA_details c !! k) →
        ∃ n, Num.int k = Ok n ∧ Num.str_int n = k) →
  process_company_data c = Ok p →
  has_data p = true
  ∧ ∃ y, data_year p = Some y ∧ is_Some (scheduleA_details c !! y).
Proof.
  intros Hne Hcanon Hp.
  destruct (process_company_data_shape c p Hp) as (Hr & Hh & _).
  assert (Hkey : ∃ y, data_year p = Some y
                      ∧ is_Some (scheduleA_details c !! y)).
  { unfold resolve_company_year, mbind, result_bind in Hr.
    destruct (get_preferred_year (available_years c)) as [[y|]|] eqn:Hg;
      [| |done].
    - pose proof (get_preferred_year_nonempty _ _ Hg) as Hy.
      apply truthy_true_iff in Hy. cbn [year_given] in Hr. rewrite Hy in Hr.
      cbn [negb] in Hr. injection Hr as Hr. exists y. split; [done|].
      destruct (available_years c) as [|y0 ys] eqn:Hav; [done|].
      rewrite get_preferred_year_pick in Hg. unfold mbind, result_bind in Hg.
      destruct (parse_years (y0 :: ys)) as [years|] eqn:Hpy; [|done].
      apply pick_year_result in Hg as (n & Hin & ->).
      rewrite sort_desc_elem in Hin. apply parse_years_Forall2 in Hpy.
      apply list_elem_of_lookup in Hin as [i Hi].
      destruct (Forall2_lookup_r _ _ _ _ _ Hpy Hi) as (k & Hk & Hkn).
      assert (Hkin : k ∈ available_years c)
        by (rewrite Hav; by eapply list_elem_of_lookup_2).
      apply available_years_keys in Hkin.
      destruct (Hcanon k Hkin) as (n' & Hn' & Hs).
      assert (n' = n) as -> by congruence. by rewrite Hs.
    - pose proof (get_preferred_year_cases (available_years c)) as Hc.
      destruct (parse_years (available_years c)); [|congruence].
      destruct Hc as (r & Hr' & _ & H1). rewrite Hg in Hr'.
      injection Hr' as <-.
      destruct (available_years c) eqn:Hav;
        [by apply available_years_nil in Hav|].
      by destruct (H1 ltac:(done)) as (? & [=] & _). }
  split; [by apply Hh | done].
Qed.

Lemma process_company_data_canonical_witness :
  scheduleA_details with_2023 ≠ ∅
  ∧ (∀ k, is_Some (scheduleA_details with_2023 !! k) →
          ∃ n, Num.int k = Ok n ∧ Num.str_int n = k)
  ∧ ∃ p, process_company_data with_2023 = Ok p ∧ has_data p = true.
Proof.
  assert (H1 : scheduleA_details with_2023 ≠ ∅).
  { intros H. apply (f_equal (fun m => m !! "2023")) in H. by vm_compute in H. }
  assert (H2 : ∀ k, is_Some (scheduleA_details with_2023 !! k) →
                    ∃ n, Num.int k = Ok n ∧ Num.str_int n = k).
  { intros k [v Hk]. simpl in Hk.
    apply lookup_singleton_Some in Hk as [<- _]. exists 2023. by split. }
  split; [exact H1|]. split; [exact H2|].
  destruct (process_company_data with_2023) as [p|] eqn:Hp;
    [|by vm_compute in Hp].
  exists p. split; [reflexivity|].
  exact (proj1 (process_company_data_canonical _ _ H1 H2 Hp)).
Defined.

(** A year key with a leading zero: the resolver answers "2023", which is
    not the key, and the company is reported without data. *)
Example padded_year_has_no_data :
  ∃ p, process_company_data padded_year = Ok p
       ∧ data_year p = Some "2023" ∧ has_data p = false ∧ p_plans p = [].
Proof. eexists. repeat split; vm_compute; reflexivity. Qed.

(** X21: a company without Schedule A detail never has data: its year is
    the resolver's choice among the Form 5500 years (none when there are
    none), its totals are zero, its plan list is empty, and the year only
    serves for the participant total; processing it raises exactly when
    the resolver does on the Form 5500 years. *)
Theorem process_company_data_fallback (c : company) :
  scheduleA_details c = ∅ →
  process_company_data c
  = (y ← get_preferred_year (form5500_years c);
     Ok (Processed (default "Unknown Company" (companyName c)) y false
           (PInt 0) (PInt 0) 0
           (match y with
            | Some y' => get_total_participants (form5500_records c) y'
            | None => 0
            end) [])).
Proof.
  intros Hempty.
  assert (Hr : resolve_company_year c = get_preferred_year (form5500_years c)).
  { unfold resolve_company_year. apply available_years_nil in Hempty.
    rewrite Hempty. simpl. by destruct (form5500_years c). }
  unfold process_company_data. rewrite Hr. unfold mbind, result_bind.
  destruct (get_preferred_year (form5500_years c)) as [[y|]|] eqn:Hg;
    [| reflexivity | reflexivity].
  pose proof (get_preferred_year_nonempty _ _ Hg) as Hy.
  apply truthy_true_iff in Hy. simpl. rewrite Hy, Hempty, lookup_empty.
  rewrite bool_decide_eq_false_2 by (by intros [? ?]). reflexivity.
Qed.

Lemma process_company_data_fallback_witness :
  scheduleA_details form5500_only = ∅
  ∧ process_company_data form5500_only
    = Ok (Processed "Unknown Company" (Some "2021") false
            (PInt 0) (PInt 0) 0 40 []).
Proof.
  split; [reflexivity|].
  rewrite (process_company_data_fallback form5500_only eq_refl).
  vm_compute. reflexivity.
Defined.

(** ** The data processor's entry point *)

Lemma process_companies_ok (cs : list company) (acc : list processed)
    (n : nat) (ps : list processed) (m : nat) :
  process_companies cs acc n = Ok (ps, m) →
  ∃ ps', Forall2 (fun c p => process_company_data c = Ok p) cs ps'
         ∧ ps = (acc ++ ps')%list
         ∧ m = (n + length (List.filter has_data ps'))%nat.
Proof.
  revert acc n. induction cs as [|c cs IH]; intros acc n; simpl.
  - intros [= <- <-]. exists []. rewrite app_nil_r. simpl.
    repeat split; [constructor | lia].
  - unfold mbind, result_bind.
    destruct (process_company_data c) as [p|] eqn:Hp; [|done].
    intros (ps' & HF & -> & ->)%IH. exists (p :: ps').
    split; [by constructor|]. split; [by rewrite <- app_assoc|].
    simpl. destruct (has_data p); simpl; lia.
Qed.

Lemma process_companies_raise (cs : list company) (acc : list processed)
    (n : nat) (e : exn) :
  process_companies cs acc n = Raise e →
  ∃ c, c ∈ cs ∧ process_company_data c = Raise e.
Proof.
  revert acc n. induction cs as [|c cs IH]; intros acc n; simpl; [done|].
  unfold mbind, result_bind.
  destruct (process_company_data c) as [p|e'] eqn:Hp.
  - intros (c' & Hin & Hc')%IH. exists c'. split; [by right | done].
  - intros [= <-]. exists c. split; [left | done].
Qed.

Lemma process_companies_all (cs : list company) (acc : list processed)
    (n : nat) :
  (∀ c, c ∈ cs → ∃ p, process_company_data c = Ok p) →
  ∃ r, process_companies cs acc n = Ok r.
Proof.
  revert acc n. induction cs as [|c cs IH]; intros acc n Hall; simpl; [eauto|].
  destruct (Hall c ltac:(left)) as [p ->]. unfold mbind, result_bind.
  apply IH. intros c' Hc'. apply Hall. by right.
Qed.

#[local] Instance text_desc_total : Total text_desc.
Proof. intros a b. unfold text_desc. destruct (total String.le a b); auto. Qed.

#[local] Instance text_desc_trans : Transitive text_desc.
Proof. intros a b c Hab Hbc. unfold text_desc in *. by etrans. Qed.

(** The summary year: never an exception, "2023" by default, 2023 and 2022
    first, otherwise the greatest year text found. *)
Lemma pick_most_recent_spec (found : gset string) :
  ∃ y, pick_most_recent found = Ok y
       ∧ (found = ∅ → y = "2023")
       ∧ ("2023" ∈ found → y = "2023")
       ∧ ("2023" ∉ found → "2022" ∈ found → y = "2022")
       ∧ ("2023" ∉ found → "2022" ∉ found → found ≠ ∅ →
          y ∈ found ∧ ∀ z, z ∈ found → String.le z y).
Proof.
  unfold pick_most_recent.
  destruct (bool_decide (found = ∅)) eqn:E0.
  { apply bool_decide_eq_true in E0 as ->. exists "2023".
    repeat split; try done; intros H; by apply not_elem_of_empty in H. }
  apply bool_decide_eq_false in E0.
  destruct (bool_decide ("2023" ∈ found)) eqn:E23.
  { exists "2023". apply bool_decide_eq_true in E23. repeat split; done. }
  apply bool_decide_eq_false in E23.
  destruct (bool_decide ("2022" ∈ found)) eqn:E22.
  { exists "2022". apply bool_decide_eq_true in E22. repeat split; done. }
  apply bool_decide_eq_false in E22.
  pose proof (StronglySorted_merge_sort text_desc (elements found)) as Hs.
  pose proof (merge_sort_Permutation text_desc (elements found)) as Hp.
  destruct (merge_sort text_desc (elements found)) as [|y l] eqn:Hm.
  { apply Permutation_nil_l in Hp. symmetry in Hp.
    apply elements_empty_inv in Hp.
    apply leibniz_equiv in Hp. done. }
  exists y. split; [done|]. repeat split; try done.
  - apply elem_of_elements. rewrite <- Hp. left.
  - intros z Hz. apply elem_of_elements in Hz. rewrite <- Hp in Hz.
    apply elem_of_cons in Hz as [->|Hz]; [done|].
    apply StronglySorted_inv in Hs as [_ Hall].
    rewrite Forall_forall in Hall. exact (Hall z Hz).
Qed.



Lemma process_pe_data_ok (cs : list company) (sm : summary)
    (ps : list processed) :
  process_pe_data cs = Ok (sm, ps) →
  Forall2 (fun c p => process_company_data c = Ok p) cs ps
  ∧ total_companies sm = length ps
  ∧ companies_with_data sm = length (List.filter has_data ps)
  ∧ pick_most_recent (years_found ps) = Ok (most_recent_year sm).
Proof.
  unfold process_pe_data, mbind, result_bind.
  destruct (process_companies cs [] 0) as [[ps' m]|] eqn:Hpc; [|done].
  destruct (pick_most_recent (years_found ps')) as [y|] eqn:Hy; [|done].
  intros [= <- <-]. simpl.
  apply process_companies_ok in Hpc as (ps'' & HF & -> & ->). done.
Qed.

(** X22: when the data processor completes, it has processed every company
    of the raw data, one for one and in order; [total_companies] is their
    number and [companies_with_data] the number of those with data, which
    is at most the total. *)
Theorem process_pe_data_counts (companies : list company) (sm : summary)
    (ps : list processed) :
  process_pe_data companies = Ok (sm, ps) →
  Forall2 (fun c p => process_company_data c = Ok p) companies ps
  ∧ total_companies sm = length companies
  ∧ companies_with_data sm = length (List.filter has_data ps)
  ∧ (companies_with_data sm ≤ total_companies sm)%nat.
Proof.
  intros (HF & Ht & Hw & _)%process_pe_data_ok.
  split; [done|]. pose proof (Forall2_length _ _ _ HF) as Hl.
  split; [lia|]. split; [done|].
  rewrite Hw, Ht. clear. induction ps as [|p ps IH]; simpl; [lia|].
  destruct (has_data p); simpl; lia.
Qed.

Lemma process_pe_data_counts_witness :
  ∃ sm ps, process_pe_data [with_2023; form5500_only; padded_year] = Ok (sm, ps)
           ∧ total_companies sm = 3%nat
           ∧ (companies_with_data sm ≤ total_companies sm)%nat.
Proof.
  destruct (process_pe_data [with_2023; form5500_only; padded_year])
    as [[sm ps]|] eqn:H; [|by vm_compute in H].
  exists sm, ps. split; [reflexivity|].
  destruct (process_pe_data_counts _ _ _ H) as (_ & Ht & _ & Hle).
  split; [exact Ht | exact Hle].
Defined.



Lemma resolve_company_year_raises (c : company) (e : exn) :
  resolve_company_year c = Raise e → e = ValueError.
Proof.
  assert (Hg : ∀ l, get_preferred_year l = Raise e → e = ValueError).
  { intros l Hl. pose proof (get_preferred_year_cases l) as Hc.
    destruct (parse_years l) as [? |e'] eqn:Hp.
    - destruct Hc as (r & Hr & _). congruence.
    - apply parse_years_raises in Hp as [-> _]. congruence. }
  unfold resolve_company_year, mbind, result_bind.
  destruct (get_preferred_year (available_years c)) as [r|e'] eqn:H1.
  - destruct (negb (year_given r)); [|done].
    destruct (form5500_years c); [done | apply Hg].
  - intros [= <-]. by apply Hg in H1.
Qed.

Lemma aggregate_raises_ValueError (m : gmap string (list plan)) (y : string)
    (e : exn) :
  aggregate_schedule_a_data m y = Raise e → e = ValueError.
Proof.
  unfold aggregate_schedule_a_data. destruct (m !! y) as [l|]; [|done].
  pose proof (aggregate_from_details l zero_aggregate
                (or_introl eq_refl) (or_introl eq_refl)) as Ha.
  destruct (details l) as [ds|e'] eqn:Hd.
  - destruct Ha as (w & -> & _). done.
  - rewrite Ha. intros [= <-]. by apply details_raises in Hd as [-> _].
Qed.

Lemma process_company_data_raises (c : company) (e : exn) :
  process_company_data c = Raise e → e = ValueError.
Proof.
  unfold process_company_data, mbind, result_bind.
  destruct (resolve_company_year c) as [oy|e'] eqn:Hr.
  - destruct (year_given oy && _); [|done].
    destruct (aggregate_schedule_a_data _ _) as [|e'] eqn:Ha; [done|].
    intros [= <-]. by apply aggregate_raises_ValueError in Ha.
  - intros [= <-]. by apply resolve_company_year_raises in Hr.
Qed.

(** X24: the data processor is all or nothing: it raises exactly when
    processing some company raises, the exception being [ValueError], and
    otherwise returns the summary and every processed company; choosing
    the summary year never raises. *)
Theorem process_pe_data_raises (companies : list company) (e : exn) :
  process_pe_data companies = Raise e
  ↔ e = ValueError
    ∧ ∃ c, c ∈ companies ∧ process_company_data c = Raise ValueError.
Proof.
  unfold process_pe_data, mbind, result_bind.
  destruct (process_companies companies [] 0) as [[ps m]|e'] eqn:Hpc.
  - destruct (pick_most_recent_spec (years_found ps)) as (y & -> & _).
    split; [done|]. intros (_ & c & Hin & Hc).
    apply process_companies_ok in Hpc as (ps' & HF & _).
    apply list_elem_of_lookup in Hin as [i Hi].
    destruct (Forall2_lookup_l _ _ _ _ _ HF Hi) as (p & _ & Hp). congruence.
  - apply process_companies_raise in Hpc as (c & Hin & Hc).
    pose proof (process_company_data_raises _ _ Hc) as ->.
    split; [intros [= <-]; eauto | by intros [-> _]].
Qed.
